(** * The libFuzzer engine of ClusterFuzz: fuzz sessions and corpus merges

    A shallow embedding of
    [src/clusterfuzz/_internal/bot/fuzzers/libFuzzer/engine.py]:
    the option preparation ([Engine.prepare]), the fuzz phase
    ([Engine.fuzz]), the merge-back of new units
    ([Engine._merge_new_units]) and the corpus merges
    ([Engine.minimize_corpus], [Engine._minimize_corpus_two_step]).

    The engine is an object with one mutable attribute
    ([_merge_control_file]) that drives external collaborators (the
    runner, the file system, the strategy selection).  Its methods are
    embedded in a state-and-exception monad over
    - the attribute,
    - an abstract world [W] on which the collaborators act, and
    - a trace of the calls made, newest first. *)

From Stdlib Require Import ZArith QArith Lqa String Ascii List Bool Lia.
From stdpp Require Import base option list strings pretty gmap fin_maps.

Close Scope Q_scope.
Open Scope string_scope.
Open Scope list_scope.

(** ** Python values *)

(** Durations and time budgets are Python numbers ([int] or [float]);
    they are embedded as rationals.  The engine only subtracts, compares
    and truncates them. *)
Definition duration := Q.

(** [int(x)] on a number: truncation toward zero. *)
Definition py_int (x : Q) : Z := Z.quot (Qnum x) (Zpos (Qden x)).

(** The values held by a statistics mapping. *)
Inductive stat_value : Type :=
| VNone
| VInt (n : Z)
| VFloat (x : Q).

Definition is_numeric (v : stat_value) : bool :=
  match v with
  | VNone => false
  | VInt _ | VFloat _ => true
  end.

(** A statistics mapping: a [dict] from names to values. *)
Abbreviation stats_map := (gmap string stat_value).

(** [d.update(other)]: the entries of [other] win. *)
Definition dict_update {V : Type} (d other : gmap string V) : gmap string V :=
  other ∪ d.

(** The exceptions the engine raises or lets through. *)
Inductive exn : Type :=
| TimeoutError (msg : string)
| MergeError (msg : string)
| ZeroDivisionError
| KeyError (key : string)
| TypeError
| UnboundLocalError (name : string).

(** [except (MergeError, TimeoutError)] *)
Definition is_merge_failure (e : exn) : bool :=
  match e with
  | TimeoutError _ | MergeError _ => true
  | _ => false
  end.

(** ** Strings and paths *)

(** [needle in hay] on strings (and on bytes). *)
Fixpoint contains (needle hay : string) : bool :=
  String.prefix needle hay ||
  match hay with
  | EmptyString => false
  | String _ rest => contains needle rest
  end.

(** POSIX [os.path.join] of two components. *)
Definition ends_with_slash (a : string) : bool :=
  match String.get (String.length a - 1) a with
  | Some c => Ascii.eqb c "/"
  | None => false
  end.

Definition path_join (a b : string) : string :=
  if String.prefix "/" b then b
  else if String.eqb a "" || ends_with_slash a then a ++ b
  else a ++ "/" ++ b.

(** The ASCII line boundaries of [str.splitlines] (those outside ASCII
    are left out). *)
Definition is_line_boundary (c : ascii) : bool :=
  let n := nat_of_ascii c in
  (10 <=? n)%nat && (n <=? 13)%nat || (28 <=? n)%nat && (n <=? 30)%nat.

(** [str.splitlines()]: lines without their terminators; a carriage
    return followed by a line feed is one terminator, and a final
    terminator opens no empty last line. *)
Fixpoint splitlines_aux (cur : string) (s : string) : list string :=
  match s with
  | EmptyString => if String.eqb cur "" then [] else [String.rev cur]
  | String c rest =>
      if is_line_boundary c then
        let rest' :=
          match rest with
          | String d rest'' =>
              if Ascii.eqb c "013" && Ascii.eqb d "010" then rest'' else rest
          | EmptyString => rest
          end in
        String.rev cur :: splitlines_aux "" rest'
      else splitlines_aux (String c cur) rest
  end.

Definition splitlines (s : string) : list string := splitlines_aux "" s.

(** The line feed. *)
Definition LF : string := String "010" "".

(** [sep.join(lines)] *)
Definition join (sep : string) (lines : list string) : string :=
  String.concat sep lines.

(** Truth value of an optional path: [None] and the empty string are
    false. *)
Definition truthy (p : option string) : bool :=
  match p with
  | Some s => negb (String.eqb s "")
  | None => false
  end.

(** ** Results of the runner and of the engine *)

(** What the runner returns for one process run. *)
Record RunResult : Type := mkRunResult {
  command : list string;
  output : string;
  return_code : Z;
  time_executed : duration;
  timed_out : bool
}.

(** [engine.Crash(input_path, stacktrace, reproduce_args, crash_time)] *)
Record Crash : Type := mkCrash {
  input_path : string;
  stacktrace : string;
  reproduce_args : list string;
  crash_time : Z
}.

(** [engine.FuzzResult(logs, command, crashes, stats, time_executed,
    timed_out=None)] *)
Record FuzzResult : Type := mkFuzzResult {
  logs : string;
  fr_command : list string;
  crashes : list Crash;
  stats : stats_map;
  fr_time_executed : duration;
  fr_timed_out : option bool
}.

(** [LibFuzzerOptions]: the options [prepare] hands to [fuzz]. *)
Record LibFuzzerOptions : Type := mkLibFuzzerOptions {
  corpus_dir : string;
  arguments : list string;
  strategies : list string;
  fuzz_corpus_dirs : list string;
  extra_env : gmap string string;
  is_mutations_run : bool;
  merge_back_new_testcases : bool
}.

(** The keyword arguments of [runner.fuzz]. *)
Record FuzzCall : Type := mkFuzzCall {
  fz_target : string;
  fz_corpus_directories : list string;
  fz_fuzz_timeout : duration;
  fz_additional_args : list string;
  fz_artifact_prefix : string;
  fz_extra_env : gmap string string
}.

(** The keyword arguments of [runner.merge]. *)
Record MergeCall : Type := mkMergeCall {
  mg_target : string;
  mg_corpus_directories : list string;
  mg_merge_timeout : duration;
  mg_tmp_dir : string;
  mg_additional_args : list string;
  mg_artifact_prefix : option string;
  mg_merge_control_file : option string
}.

(** ** The trace of calls *)

Inductive log_level : Type := Info | Warning | Error.

Inductive event : Type :=
| EvLog (level : log_level) (msg : string)
| EvSetSanitizerOptions (target_path : string)
| EvCreateTempFuzzingDir (name : string) (path : string)
| EvRecreateDirectory (path : string)
| EvRunnerFuzz (call : FuzzCall)
| EvRunnerMerge (call : MergeCall)
| EvMkstemp (path : string)
| EvMoveMergeableUnits (src dst : string)
| EvPrepare (step : string) (arg : string).

(** The calls of [runner.merge] in a trace, newest first. *)
Fixpoint merge_calls (t : list event) : list MergeCall :=
  match t with
  | [] => []
  | EvRunnerMerge c :: t' => c :: merge_calls t'
  | _ :: t' => merge_calls t'
  end.

(** The warnings in a trace, newest first. *)
Fixpoint warnings (t : list event) : list string :=
  match t with
  | [] => []
  | EvLog Warning m :: t' => m :: warnings t'
  | _ :: t' => warnings t'
  end.

(** ** Collaborators

    The modules the engine calls are interfaces over the world [W]: an
    operation that changes the world returns the new one. *)

(** File system, process environment and the directory helpers of
    [engine_common], [fuzzer_utils], [shell] and [libfuzzer]. *)
Class Host (W : Type) : Type := {
  (** [os.path.exists] *)
  path_exists : string → W → bool;
  (** the bytes of a file *)
  read_file : string → W → string;
  (** [shell.get_directory_file_count] *)
  get_directory_file_count : string → W → nat;
  (** [engine_common.recreate_directory] *)
  recreate_directory : string → W → W;
  (** [fuzzer_utils.get_temp_dir(use_fuzz_inputs_disk=False)] *)
  get_temp_dir : W → string;
  (** [engine_common.create_temp_fuzzing_dir]: the path of the directory *)
  create_temp_fuzzing_dir : string → W → string * W;
  (** the random part of the name [tempfile.mkstemp] picks in a directory *)
  mkstemp_name : string → W → string * W;
  (** [engine_common.move_mergeable_units] *)
  move_mergeable_units : string → string → W → W;
  (** [libfuzzer.set_sanitizer_options] *)
  set_sanitizer_options : string → W → W;
  (** [environment.get_value('USE_MINIJAIL')], as a truth value *)
  use_minijail : W → bool;
  (** [engine_common.get_merge_timeout(engine_common.DEFAULT_MERGE_TIMEOUT)] *)
  get_merge_timeout : W → duration;
  (** [engine_common.get_project_qualified_fuzzer_name] *)
  get_project_qualified_fuzzer_name : string → W → string
}.

(** The runner [libfuzzer.get_runner(target_path)] returns; every call
    carries the target it was built for.  A run ends with a [RunResult]:
    that the process failed or ran out of time is read off the result. *)
Class Runner (W : Type) : Type := {
  runner_fuzz : FuzzCall → W → RunResult * W;
  runner_merge : MergeCall → W → RunResult * W;
  get_testcase_path : string → list string → option string
}.

(** Constants of [libFuzzer.constants] and the pure helpers of
    [libfuzzer] and [libFuzzer.stats]. *)
Class Libfuzzer : Type := {
  LIBFUZZER_ERROR_EXITCODE : Z;
  NONCRASH_RETURN_CODES : list Z;
  TIMEOUT_FLAGNAME : string;
  DICT_FLAGNAME : string;
  parse_log_stats : list string → stats_map;
  parse_performance_features :
    list string → list string → list string → stats_map;
  (** the edge and the feature coverage a merge log reports *)
  merge_log_coverage : list string → Z * Z;
  (** [libfuzzer.strip_fuzzing_arguments(arguments, is_merge)] *)
  strip_fuzzing_arguments : list string → bool → list string;
  fix_timeout_argument_for_reproduction : list string → list string
}.

(** Modelled from the spec: [stats.parse_stats_from_merge_log] of
    [libFuzzer/stats.py], which is not among the sources.  A merge log
    yields the two cumulative counters [edge_coverage] and
    [feature_coverage] (spec 4.3; the comment of the single-step fallback
    in [_minimize_corpus_two_step] says it provides only these two). *)
Definition parse_stats_from_merge_log {lf : Libfuzzer} (log_lines : list string)
  : stats_map :=
  let '(edges, features) := merge_log_coverage log_lines in
  <["edge_coverage" := VInt edges]>
    (<["feature_coverage" := VInt features]> ∅).

Definition MULTISTEP_MERGE_SUPPORT_TOKEN : string :=
  "fuzz target overwrites its const input".

(** Modelled from the spec: [utils.search_bytes_in_file] of
    [base/utils.py], which is not among the sources: whether the byte
    marker occurs in the file (spec 4.3, capability probe). *)
Definition search_bytes_in_file (token : string) (file_bytes : string) : bool :=
  contains token file_bytes.

(** ** Fuzzer arguments *)

Definition is_digit (c : ascii) : bool :=
  let n := nat_of_ascii c in (48 <=? n)%nat && (n <=? 57)%nat.

Fixpoint digits_value (acc : Z) (s : string) : option Z :=
  match s with
  | EmptyString => Some acc
  | String c rest =>
      if is_digit c
      then digits_value (10 * acc + Z.of_nat (nat_of_ascii c - 48)) rest
      else None
  end.

(** [int(s)] on a decimal numeral with an optional sign; [None] stands
    for [ValueError]. *)
Definition parse_int (s : string) : option Z :=
  match s with
  | EmptyString => None
  | String c rest =>
      if Ascii.eqb c "-" then
        if String.eqb rest "" then None else Z.opp <$> digits_value 0 rest
      else if Ascii.eqb c "+" then
        if String.eqb rest "" then None else digits_value 0 rest
      else digits_value 0 s
  end.

Module FuzzerArguments.

(** Modelled from the spec: class [FuzzerArguments] of
    [bot/fuzzers/options.py], which is not among the sources.  The flags
    of an argument list (spec 3, [FuzzOptions.arguments]; spec 4.2 step 6,
    "from the original timeout flag if present") as an insertion-ordered
    [dict] from flag name to value, an argument of the form
    [-name=value] being the flag [name]. *)
Definition t : Type := list (string * string).

(** The name and the value of [name=value]. *)
Fixpoint split_at_equals (s : string) : option (string * string) :=
  match s with
  | EmptyString => None
  | String c rest =>
      if Ascii.eqb c "=" then Some (EmptyString, rest)
      else match split_at_equals rest with
           | Some (name, value) => Some (String c name, value)
           | None => None
           end
  end.

Definition parse_flag (arg : string) : option (string * string) :=
  match arg with
  | String c rest => if Ascii.eqb c "-" then split_at_equals rest else None
  | EmptyString => None
  end.

(** [flags[key]], if present *)
Fixpoint lookup (flags : t) (key : string) : option string :=
  match flags with
  | [] => None
  | (k, v) :: rest => if String.eqb k key then Some v else lookup rest key
  end.

(** [flags[key] = value]: a present key keeps its place. *)
Fixpoint set (flags : t) (key value : string) : t :=
  match flags with
  | [] => [(key, value)]
  | (k, v) :: rest =>
      if String.eqb k key then (k, value) :: rest
      else (k, v) :: set rest key value
  end.

(** [del flags[key]] *)
Fixpoint del (flags : t) (key : string) : t :=
  match flags with
  | [] => []
  | (k, v) :: rest =>
      if String.eqb k key then rest else (k, v) :: del rest key
  end.

(** [FuzzerArguments.from_list(args)] *)
Definition from_list (args : list string) : t :=
  fold_left (λ flags arg,
               match parse_flag arg with
               | Some (name, value) => set flags name value
               | None => flags
               end) args [].

(** [arguments.extend(other)] *)
Definition extend (flags other : t) : t :=
  fold_left (λ flags kv, set flags (fst kv) (snd kv)) other flags.

(** [arguments.list()] *)
Definition list (flags : t) : list string :=
  map (λ kv, ("-" ++ fst kv ++ "=" ++ snd kv)%string) flags.

(** [arguments.get(key, default=None, constructor=str)] *)
Definition get_str (flags : t) (key : string) : option string :=
  lookup flags key.

(** [arguments.get(key, default=None, constructor=int)]: the default
    also when the value is no integer. *)
Definition get_int (flags : t) (key : string) : option Z :=
  match lookup flags key with
  | Some v => parse_int v
  | None => None
  end.

End FuzzerArguments.

(** Whether an argument carries the flag [name]: [-name=...]. *)
Definition is_flag (name : string) (arg : string) : bool :=
  String.prefix ("-" ++ name ++ "=") arg.

(** ** Dictionary errors in the fuzzer output *)

(** The decimal digits a string starts with. *)
Fixpoint take_digits (s : string) : string :=
  match s with
  | EmptyString => EmptyString
  | String c rest =>
      if is_digit c then String c (take_digits rest) else EmptyString
  end.

(** The rest of [s] after the prefix [p]. *)
Fixpoint strip_prefix (p s : string) : option string :=
  match p, s with
  | EmptyString, _ => Some s
  | String a p', String b s' =>
      if Ascii.eqb a b then strip_prefix p' s' else None
  | String _ _, EmptyString => None
  end.

(** [DICT_PARSING_FAILED_REGEX.search(text)] for the pattern
    [ParseDictionaryFile: error in line (\d+)]: the first group of the
    leftmost match. *)
Fixpoint DICT_PARSING_FAILED_REGEX_search (text : string) : option string :=
  let here :=
    match strip_prefix "ParseDictionaryFile: error in line " text with
    | Some rest =>
        let line := take_digits rest in
        if String.eqb line "" then None else Some line
    | None => None
    end in
  match here, text with
  | Some line, _ => Some line
  | None, String _ rest => DICT_PARSING_FAILED_REGEX_search rest
  | None, EmptyString => None
  end.

Definition ENGINE_ERROR_MESSAGE : string :=
  "libFuzzer: engine encountered an error".

(** What [libfuzzer.pick_strategies] returns. *)
Record StrategyInfo : Type := mkStrategyInfo {
  fuzzing_strategies : list string;
  si_arguments : FuzzerArguments.t;
  additional_corpus_dirs : list string;
  si_extra_env : gmap string string;
  si_is_mutations_run : bool
}.

(** What [prepare] consults: the options of the target ([fuzzer]), the
    strategy selection ([strategy_selection], [strategy], [libfuzzer]),
    the process environment, the seed corpus and the dictionaries. *)
Class Preparation (W : Type) : Type := {
  StrategyPool : Type;
  (** [fuzzer.get_arguments] *)
  get_arguments : string → W → FuzzerArguments.t;
  (** [fuzzer.get_extra_env] *)
  get_extra_env : string → W → option (gmap string string);
  (** [strategy_selection.generate_weighted_strategy_pool] for an engine *)
  generate_weighted_strategy_pool : string → W → StrategyPool * W;
  (** [strategy_selection.StrategyPool()] *)
  empty_strategy_pool : StrategyPool;
  (** [libfuzzer.pick_strategies] *)
  pick_strategies :
    StrategyPool → string → string → FuzzerArguments.t → W → StrategyInfo * W;
  (** [strategy_pool.do_strategy], by the name of the strategy *)
  do_strategy : StrategyPool → string → bool;
  USE_EXTRA_SANITIZERS_STRATEGY : string;
  CORPUS_SUBSET_STRATEGY : string;
  (** [environment.set_value] *)
  set_value : string → bool → W → W;
  (** [environment.disable_lsan] *)
  disable_lsan : W → W;
  (** [engine_common.unpack_seed_corpus_if_needed] *)
  unpack_seed_corpus_if_needed : string → string → W → W;
  (** [engine_common.random_choice(engine_common.CORPUS_SUBSET_NUM_TESTCASES)] *)
  random_choice_subset_size : W → nat * W;
  (** [libfuzzer.copy_from_corpus] *)
  copy_from_corpus : string → string → nat → W → W;
  (** [dictionary_manager.get_default_dictionary_path] *)
  get_default_dictionary_path : string → string;
  (** [dictionary_manager.correct_if_needed] *)
  correct_if_needed : string → W → W;
  (** [stats.process_strategies(strategies, name_modifier=lambda x: x)] *)
  process_strategies : list string → list string
}.

(** ** The engine monad *)

(** The outcome of a call: a value, or a raised exception. *)
Inductive outcome (A : Type) : Type :=
| Ok (a : A)
| Raise (e : exn).
Arguments Ok {A} a.
Arguments Raise {A} e.

Section Engine.
Context {W : Type} {host : Host W} {runner : Runner W} {lf : Libfuzzer}
        {prep : Preparation W}.

(** The engine object and what it acts on. *)
Record State : Type := mkState {
  (** [self.do_strategies] *)
  do_strategies : bool;
  (** [self._merge_control_file] *)
  _merge_control_file : option string;
  world : W;
  (** the calls made so far, newest first *)
  trace : list event
}.

Definition M (A : Type) : Type := State → outcome A * State.

#[global] Instance M_ret : MRet M := λ A a s, (Ok a, s).

#[global] Instance M_bind : MBind M := λ A B f m s,
  match m s with
  | (Ok a, s') => f a s'
  | (Raise e, s') => (Raise e, s')
  end.

Definition raise {A : Type} (e : exn) : M A := λ s, (Raise e, s).

(** [try: body finally: cleanup] *)
Definition try_finally {A : Type} (body : M A) (cleanup : M unit) : M A := λ s,
  match body s with
  | (Ok a, s') =>
      match cleanup s' with
      | (Ok _, s'') => (Ok a, s'')
      | (Raise e, s'') => (Raise e, s'')
      end
  | (Raise e, s') =>
      match cleanup s' with
      | (Ok _, s'') => (Raise e, s'')
      | (Raise e', s'') => (Raise e', s'')
      end
  end.

(** [try: body except (MergeError, TimeoutError) as e: handler] *)
Definition try_except_merge_failure {A : Type}
    (body : M A) (handler : exn → M A) : M A := λ s,
  match body s with
  | (Ok a, s') => (Ok a, s')
  | (Raise e, s') =>
      if is_merge_failure e then handler e s' else (Raise e, s')
  end.

(** Primitive steps: an event is recorded for every call that has an
    effect. *)
Definition emit (ev : event) : M unit := λ s,
  (Ok (),
   mkState (do_strategies s) (_merge_control_file s) (world s)
           (ev :: trace s)).

Definition log (level : log_level) (msg : string) : M unit :=
  emit (EvLog level msg).

(** A call that reads the world. *)
Definition ask {A : Type} (f : W → A) : M A := λ s, (Ok (f (world s)), s).

(** A call that changes the world. *)
Definition act (f : W → W) (ev : event) : M unit := λ s,
  (Ok (),
   mkState (do_strategies s) (_merge_control_file s) (f (world s))
           (ev :: trace s)).

(** A call that changes the world and returns a value. *)
Definition call {A : Type} (f : W → A * W) (ev : A → event) : M A := λ s,
  let '(a, w') := f (world s) in
  (Ok a,
   mkState (do_strategies s) (_merge_control_file s) w' (ev a :: trace s)).

Definition get_merge_control_file : M (option string) := λ s,
  (Ok (_merge_control_file s), s).

Definition set_merge_control_file (p : option string) : M unit := λ s,
  (Ok (), mkState (do_strategies s) p (world s) (trace s)).

(** [d[key]] *)
Definition getitem (d : stats_map) (key : string) : M stat_value :=
  match d !! key with
  | Some v => mret v
  | None => raise (KeyError key)
  end.

(** [a - b] on statistics values *)
Definition py_sub (a b : stat_value) : M stat_value :=
  match a, b with
  | VInt x, VInt y => mret (VInt (x - y))
  | VInt x, VFloat y => mret (VFloat (inject_Z x - y))
  | VFloat x, VInt y => mret (VFloat (x - inject_Z y))
  | VFloat x, VFloat y => mret (VFloat (x - y))
  | _, _ => raise TypeError
  end.

(** [a < 0] on statistics values *)
Definition py_negative (a : stat_value) : M bool :=
  match a with
  | VInt x => mret (x <? 0)%Z
  | VFloat x => mret (negb (Qle_bool 0 x))
  | VNone => raise TypeError
  end.

(** ** Corpus merges *)

(** Log calls are recorded with their level and message; the values
    formatted into a message and the keyword payload are left out. *)

Definition _is_multistep_merge_supported (target_path : string) : M bool :=
  found ← ask (path_exists target_path);
  if found : bool then
    file_handle ← ask (read_file target_path);
    mret (search_bytes_in_file MULTISTEP_MERGE_SUPPORT_TOKEN file_handle)
  else mret false.

Definition _create_temp_dir (name : string) : M string :=
  tmp ← ask get_temp_dir;
  let new_temp_dir := path_join tmp name in
  act (recreate_directory new_temp_dir) (EvRecreateDirectory new_temp_dir) ;;
  mret new_temp_dir.

Definition _create_merge_corpus_dir : M string :=
  call (create_temp_fuzzing_dir "merge-corpus")
       (EvCreateTempFuzzingDir "merge-corpus").

(** [Engine.minimize_corpus] *)
Definition minimize_corpus (target_path : string) (arguments : list string)
    (input_dirs : list string) (output_dir : string)
    (reproducers_dir : option string) (max_time : duration) : M FuzzResult :=
  act (set_sanitizer_options target_path) (EvSetSanitizerOptions target_path) ;;
  merge_tmp_dir ← _create_temp_dir "merge-wd";
  log Info "Starting merge with timeout." ;;
  result ← try_finally
    (merge_control_file ← get_merge_control_file;
     let merge := {| mg_target := target_path;
                     mg_corpus_directories := output_dir :: input_dirs;
                     mg_merge_timeout := max_time;
                     mg_tmp_dir := merge_tmp_dir;
                     mg_additional_args := arguments;
                     mg_artifact_prefix := reproducers_dir;
                     mg_merge_control_file := merge_control_file |} in
     call (runner_merge merge) (λ _, EvRunnerMerge merge))
    (act (recreate_directory merge_tmp_dir)
         (EvRecreateDirectory merge_tmp_dir));
  log Info "Merge completed." ;;
  if timed_out result then
    log Error "Merging new testcases timed out." ;;
    raise (TimeoutError "Merging new testcases timed out.")
  else if negb (return_code result =? 0)%Z then
    log Error "Merging new testcases failed with error code." ;;
    raise (MergeError "Merging new testcases failed.")
  else
    let merge_output := output result in
    let merge_stats := parse_stats_from_merge_log (splitlines merge_output) in
    mret (mkFuzzResult merge_output (command result) [] merge_stats
            (time_executed result) None).

(** [Engine._minimize_corpus_two_step] *)
Definition _minimize_corpus_two_step (target_path : string)
    (arguments : list string) (existing_corpus_dirs : list string)
    (new_corpus_dir : string) (output_corpus_dir : string)
    (reproducers_dir : option string) (max_time : duration) : M FuzzResult :=
  supported ← _is_multistep_merge_supported target_path;
  if negb supported then
    log Info "Old version of libFuzzer is used. Using single step merge." ;;
    minimize_corpus target_path arguments
      (existing_corpus_dirs ++ [new_corpus_dir])
      output_corpus_dir reproducers_dir max_time
  else
    merge_control_file_dir ←
      call (create_temp_fuzzing_dir "mcf_tmp_dir")
           (EvCreateTempFuzzingDir "mcf_tmp_dir");
    set_merge_control_file (Some (path_join merge_control_file_dir "MCF")) ;;
    let merge_stats : stats_map := ∅ in
    (* Step 1. *)
    result_1 ← minimize_corpus target_path arguments existing_corpus_dirs
                 output_corpus_dir reproducers_dir max_time;
    v ← getitem (stats result_1) "edge_coverage";
    let merge_stats := <["initial_edge_coverage" := v]> merge_stats in
    v ← getitem (stats result_1) "feature_coverage";
    let merge_stats := <["initial_feature_coverage" := v]> merge_stats in
    act (recreate_directory output_corpus_dir)
        (EvRecreateDirectory output_corpus_dir) ;;
    let max_time := (max_time - fr_time_executed result_1)%Q in
    if Qle_bool max_time 0 then
      log Error "Merging new testcases timed out." ;;
      raise (TimeoutError "Merging new testcases timed out.")
    else
      (* Step 2. *)
      result_2 ← minimize_corpus target_path arguments
                   (existing_corpus_dirs ++ [new_corpus_dir])
                   output_corpus_dir reproducers_dir max_time;
      v ← getitem (stats result_2) "edge_coverage";
      let merge_stats := <["edge_coverage" := v]> merge_stats in
      v ← getitem (stats result_2) "feature_coverage";
      let merge_stats := <["feature_coverage" := v]> merge_stats in
      a ← getitem merge_stats "edge_coverage";
      b ← getitem merge_stats "initial_edge_coverage";
      v ← py_sub a b;
      let merge_stats := <["new_edges" := v]> merge_stats in
      a ← getitem merge_stats "feature_coverage";
      b ← getitem merge_stats "initial_feature_coverage";
      v ← py_sub a b;
      let merge_stats := <["new_features" := v]> merge_stats in
      let output : string := (logs result_1 ++ LF ++ LF ++ logs result_2)%string in
      a ← getitem merge_stats "new_edges";
      edges_negative ← py_negative a;
      inconsistent ←
        (if edges_negative : bool then mret true
         else b ← getitem merge_stats "new_features"; py_negative b);
      merge_stats ←
        (if inconsistent : bool then
           log Error "Two step merge failed." ;;
           mret (<["new_features" := VInt 0]>
                   (<["new_edges" := VInt 0]> merge_stats))
         else mret merge_stats);
      set_merge_control_file None ;;
      mret (mkFuzzResult output (fr_command result_2) [] merge_stats
              (fr_time_executed result_1 + fr_time_executed result_2)%Q None).

(** ** Merging new units back *)

(** [Engine._merge_new_units].  The method updates the mapping
    [stat_overrides] of its caller in place; the embedding returns the
    updated mapping. *)
Definition _merge_new_units (target_path corpus_dir new_corpus_dir : string)
    (fuzz_corpus_dirs : list string) (arguments : list string)
    (stat_overrides : stats_map) : M stats_map :=
  new_units_added ← ask (get_directory_file_count new_corpus_dir);
  if (new_units_added =? 0)%nat then
    let stat_overrides := <["new_units_added" := VInt 0]> stat_overrides in
    log Info "Skipped corpus merge since no new units added by fuzzing." ;;
    mret stat_overrides
  else
    merge_corpus ← _create_merge_corpus_dir;
    let merge_dirs := fuzz_corpus_dirs in
    let merge_dirs :=
      if bool_decide (corpus_dir ∈ merge_dirs) then merge_dirs
      else merge_dirs ++ [corpus_dir] in
    old_corpus_len ← ask (get_directory_file_count corpus_dir);
    let new_units_added := 0%Z in
    '(new_units_added, stat_overrides) ←
      try_except_merge_failure
        (max_time ← ask get_merge_timeout;
         result ← _minimize_corpus_two_step target_path arguments merge_dirs
                    new_corpus_dir merge_corpus None max_time;
         act (move_mergeable_units merge_corpus corpus_dir)
             (EvMoveMergeableUnits merge_corpus corpus_dir) ;;
         new_corpus_len ← ask (get_directory_file_count corpus_dir);
         let new_units_added :=
           (Z.of_nat new_corpus_len - Z.of_nat old_corpus_len)%Z in
         mret (new_units_added, dict_update stat_overrides (stats result)))
        (λ e, log Warning "Merge failed." ;;
              mret (new_units_added, stat_overrides));
    let stat_overrides :=
      <["new_units_added" := VInt new_units_added]> stat_overrides in
    log Info "Stats calculated." ;;
    (if (new_units_added =? 0)%Z then log Info "No new units found."
     else log Info "New units added to corpus.") ;;
    mret stat_overrides.

(** ** The fuzz phase *)

Definition _create_empty_testcase_file (reproducers_dir : string) : M string :=
  call (λ w, let '(name, w') := mkstemp_name reproducers_dir w in
             (path_join reproducers_dir ("tmp" ++ name), w'))
       EvMkstemp.

Fixpoint _fuzz_output_contains_trusty_kernel_panic (log_lines : list string)
  : bool :=
  match log_lines with
  | [] => false
  | line :: rest =>
      if contains "panic notifier - trusty version" line then true
      else _fuzz_output_contains_trusty_kernel_panic rest
  end.

(** [rc not in constants.NONCRASH_RETURN_CODES] *)
Definition not_in_noncrash_return_codes (rc : Z) : bool :=
  negb (existsb (Z.eqb rc) NONCRASH_RETURN_CODES).

(** [100 * actual_duration / float(max_time)] *)
Definition fuzzing_time_percent_of (actual_duration : Z) (max_time : duration)
  : M Q :=
  if Qeq_bool max_time 0 then raise ZeroDivisionError
  else mret (inject_Z (100 * actual_duration) / max_time)%Q.

(** [Engine.fuzz] *)
Definition fuzz (target_path : string) (options : LibFuzzerOptions)
    (reproducers_dir : string) (max_time : duration) : M FuzzResult :=
  act (set_sanitizer_options target_path) (EvSetSanitizerOptions target_path) ;;
  '(new_corpus_dir, corpus_directories) ←
    (if merge_back_new_testcases options then
       new_corpus_dir ← call (create_temp_fuzzing_dir "new")
                             (EvCreateTempFuzzingDir "new");
       mret (Some new_corpus_dir, new_corpus_dir :: fuzz_corpus_dirs options)
     else mret (None, fuzz_corpus_dirs options));
  let fuzz_call := {| fz_target := target_path;
                      fz_corpus_directories := corpus_directories;
                      fz_fuzz_timeout := max_time;
                      fz_additional_args := arguments options;
                      fz_artifact_prefix := reproducers_dir;
                      fz_extra_env := extra_env options |} in
  fuzz_result ← call (runner_fuzz fuzz_call) (λ _, EvRunnerFuzz fuzz_call);
  project_qualified_fuzzer_name ←
    ask (get_project_qualified_fuzzer_name target_path);
  match DICT_PARSING_FAILED_REGEX_search (output fuzz_result) with
  | Some _ => log Error "Dictionary parsing failed."
  | None =>
      minijail ← ask use_minijail;
      if negb minijail
         && (return_code fuzz_result =? LIBFUZZER_ERROR_EXITCODE)%Z
      then log Error ENGINE_ERROR_MESSAGE
      else mret ()
  end ;;
  let log_lines := splitlines (output fuzz_result) in
  (* [fuzz_result.output = None]: the output is not read again. *)
  (* Check if we crashed, and get the crash testcase path. *)
  let crash_testcase_file_path := get_testcase_path target_path log_lines in
  crash_testcase_file_path ←
    (if negb (truthy crash_testcase_file_path)
        && not_in_noncrash_return_codes (return_code fuzz_result)
        || _fuzz_output_contains_trusty_kernel_panic log_lines
     then path ← _create_empty_testcase_file reproducers_dir; mret (Some path)
     else mret crash_testcase_file_path);
  let parsed_stats := parse_log_stats log_lines in
  let parsed_stats :=
    dict_update parsed_stats
      (parse_performance_features log_lines (strategies options)
         (arguments options)) in
  let args := FuzzerArguments.from_list (arguments options) in
  let timeout_limit :=
    match FuzzerArguments.get_int args TIMEOUT_FLAGNAME with
    | Some n => VInt n
    | None => VNone
    end in
  let actual_duration := py_int (time_executed fuzz_result) in
  fuzzing_time_percent ← fuzzing_time_percent_of actual_duration max_time;
  let parsed_stats :=
    dict_update parsed_stats
      (<["timeout_limit" := timeout_limit]>
       (<["expected_duration" := VInt (py_int max_time)]>
        (<["actual_duration" := VInt actual_duration]>
         (<["fuzzing_time_percent" := VFloat fuzzing_time_percent]> ∅)))) in
  let non_fuzz_arguments :=
    strip_fuzzing_arguments (FuzzerArguments.list args) true in
  parsed_stats ←
    (if merge_back_new_testcases options then
       match new_corpus_dir with
       | Some new_corpus_dir =>
           _merge_new_units target_path (corpus_dir options) new_corpus_dir
             (fuzz_corpus_dirs options) non_fuzz_arguments parsed_stats
       | None => raise (UnboundLocalError "new_corpus_dir")
       end
     else mret parsed_stats);
  let fuzz_logs := join LF log_lines in
  let crashes :=
    if truthy crash_testcase_file_path then
      let reproduce_arguments :=
        strip_fuzzing_arguments (arguments options) false in
      let reproduce_arguments :=
        fix_timeout_argument_for_reproduction reproduce_arguments in
      match crash_testcase_file_path with
      | Some path => [mkCrash path fuzz_logs reproduce_arguments actual_duration]
      | None => []
      end
    else [] in
  mret (mkFuzzResult fuzz_logs (command fuzz_result) crashes parsed_stats
          (time_executed fuzz_result) (Some (timed_out fuzz_result))).

(** ** Preparing a session *)

(** The loop of [prepare] over [extra_env.items()]: a variable of the
    target's options is added to the environment of the strategies
    unless that environment has the name already. *)
Definition update_extra_env (strategy_extra_env extra_env : gmap string string)
  : gmap string string :=
  map_fold (λ env_var_name value acc,
              match acc !! env_var_name with
              | Some _ => acc
              | None => <[env_var_name := value]> acc
              end)
           strategy_extra_env extra_env.

Definition name : string := "libFuzzer".

(** [Engine.prepare] *)
Definition prepare (corpus_dir target_path build_dir : string)
  : M LibFuzzerOptions :=
  arguments ← ask (get_arguments target_path);
  extra_env ← ask (get_extra_env target_path);
  strategies_on ← (λ s, (Ok (do_strategies s), s));
  strategy_pool ←
    (if strategies_on : bool then
       call (generate_weighted_strategy_pool name)
            (λ _, EvPrepare "generate_weighted_strategy_pool" name)
     else mret empty_strategy_pool);
  strategy_info ←
    call (pick_strategies strategy_pool target_path corpus_dir arguments)
         (λ _, EvPrepare "pick_strategies" target_path);
  (if bool_decide (USE_EXTRA_SANITIZERS_STRATEGY
                     ∈ fuzzing_strategies strategy_info) then
     act (set_value "USE_EXTRA_SANITIZERS" true)
         (EvPrepare "set_value" "USE_EXTRA_SANITIZERS=True") ;;
     act disable_lsan (EvPrepare "disable_lsan" "")
   else
     act (set_value "USE_EXTRA_SANITIZERS" false)
         (EvPrepare "set_value" "USE_EXTRA_SANITIZERS=False")) ;;
  let arguments :=
    FuzzerArguments.extend arguments (si_arguments strategy_info) in
  (* Update strategy info with environment variables from fuzzer's options. *)
  let strategy_extra_env :=
    match extra_env with
    | Some extra_env => update_extra_env (si_extra_env strategy_info) extra_env
    | None => si_extra_env strategy_info
    end in
  act (unpack_seed_corpus_if_needed target_path corpus_dir)
      (EvPrepare "unpack_seed_corpus_if_needed" corpus_dir) ;;
  subset_size ← call random_choice_subset_size
                     (λ n, EvPrepare "random_choice" (pretty n));
  corpus_file_count ← ask (get_directory_file_count corpus_dir);
  '(strategy_names, additional_dirs) ←
    (if do_strategy strategy_pool CORPUS_SUBSET_STRATEGY
        && (subset_size <? corpus_file_count)%nat then
       corpus_subset_dir ← call (create_temp_fuzzing_dir "subset")
                                (EvCreateTempFuzzingDir "subset");
       act (copy_from_corpus corpus_subset_dir corpus_dir subset_size)
           (EvPrepare "copy_from_corpus" corpus_subset_dir) ;;
       mret (fuzzing_strategies strategy_info
               ++ [(CORPUS_SUBSET_STRATEGY ++ "_" ++ pretty subset_size)%string],
             additional_corpus_dirs strategy_info ++ [corpus_subset_dir])
     else
       mret (fuzzing_strategies strategy_info,
             additional_corpus_dirs strategy_info ++ [corpus_dir]));
  (* Check dict argument to make sure that it's valid. *)
  let dict_path := FuzzerArguments.get_str arguments DICT_FLAGNAME in
  arguments ←
    (if truthy dict_path then
       found ← ask (path_exists (default "" dict_path));
       if found : bool then mret arguments
       else
         log Error "Cannot find dict." ;;
         mret (FuzzerArguments.del arguments DICT_FLAGNAME)
     else mret arguments);
  (* If there's no dict argument, check for %target_binary_name%.dict file. *)
  let dict_path := FuzzerArguments.get_str arguments DICT_FLAGNAME in
  '(dict_path, arguments) ←
    (if truthy dict_path then mret (default "" dict_path, arguments)
     else
       let dict_path := get_default_dictionary_path target_path in
       found ← ask (path_exists dict_path);
       if found : bool
       then mret (dict_path, FuzzerArguments.set arguments DICT_FLAGNAME dict_path)
       else mret (dict_path, arguments));
  act (correct_if_needed dict_path) (EvPrepare "correct_if_needed" dict_path) ;;
  let strategies := process_strategies strategy_names in
  mret (mkLibFuzzerOptions corpus_dir (FuzzerArguments.list arguments)
          strategies additional_dirs strategy_extra_env
          (si_is_mutations_run strategy_info) true).

(** ** Naming the steps of a run

    The statements below speak of the call a merge makes, of what the
    runner answers and of the state in between; these definitions name
    them. *)

(** A state with another world and more events. *)
Definition advance (s : State) (w : W) (events : list event) : State :=
  mkState (do_strategies s) (_merge_control_file s) w (events ++ trace s).

(** The working directory [minimize_corpus] gives the runner. *)
Definition merge_tmp_dir_of (target_path : string) (s : State) : string :=
  path_join (get_temp_dir (set_sanitizer_options target_path (world s)))
            "merge-wd".

(** The call of [runner.merge] that [minimize_corpus] makes from [s]. *)
Definition merge_call_of (target_path : string) (arguments input_dirs : list string)
    (output_dir : string) (reproducers_dir : option string)
    (max_time : duration) (s : State) : MergeCall :=
  {| mg_target := target_path;
     mg_corpus_directories := output_dir :: input_dirs;
     mg_merge_timeout := max_time;
     mg_tmp_dir := merge_tmp_dir_of target_path s;
     mg_additional_args := arguments;
     mg_artifact_prefix := reproducers_dir;
     mg_merge_control_file := _merge_control_file s |}.

(** What the runner answers to it, and the world it leaves. *)
Definition merge_run (target_path : string) (arguments input_dirs : list string)
    (output_dir : string) (reproducers_dir : option string)
    (max_time : duration) (s : State) : RunResult * W :=
  runner_merge
    (merge_call_of target_path arguments input_dirs output_dir
       reproducers_dir max_time s)
    (recreate_directory (merge_tmp_dir_of target_path s)
       (set_sanitizer_options target_path (world s))).

(** The state in which [minimize_corpus] looks at the runner's answer. *)
Definition merge_done (target_path : string) (arguments input_dirs : list string)
    (output_dir : string) (reproducers_dir : option string)
    (max_time : duration) (s : State) : State :=
  let tmp := merge_tmp_dir_of target_path s in
  advance s
    (recreate_directory tmp
       (merge_run target_path arguments input_dirs output_dir
          reproducers_dir max_time s).2)
    [EvLog Info "Merge completed.";
     EvRecreateDirectory tmp;
     EvRunnerMerge (merge_call_of target_path arguments input_dirs output_dir
                      reproducers_dir max_time s);
     EvLog Info "Starting merge with timeout.";
     EvRecreateDirectory tmp;
     EvSetSanitizerOptions target_path].

(** The capability probe, on a world. *)
Definition multistep_merge_supported (target_path : string) (w : W) : bool :=
  path_exists target_path w
  && search_bytes_in_file MULTISTEP_MERGE_SUPPORT_TOKEN
       (read_file target_path w).

(** The state in which the two-step merge starts its first step: the
    control file is assigned. *)
Definition two_step_start (s : State) : State :=
  let '(merge_control_file_dir, w) :=
    create_temp_fuzzing_dir "mcf_tmp_dir" (world s) in
  mkState (do_strategies s)
          (Some (path_join merge_control_file_dir "MCF"))
          w
          (EvCreateTempFuzzingDir "mcf_tmp_dir" merge_control_file_dir
             :: trace s).

(** The statistics of a two-step merge whose steps report the edge and
    feature coverages [e0], [f0] and [e], [f], before the check of the
    differences. *)
Definition two_step_stats (e0 f0 e f : Z) : stats_map :=
  <["new_features" := VInt (f - f0)]>
   (<["new_edges" := VInt (e - e0)]>
    (<["feature_coverage" := VInt f]>
     (<["edge_coverage" := VInt e]>
      (<["initial_feature_coverage" := VInt f0]>
       (<["initial_edge_coverage" := VInt e0]> ∅))))).

(** The state in which [_merge_new_units] starts the merge: the
    directory for the merged corpus is created. *)
Definition merge_back_start (s : State) : State :=
  let '(merge_corpus, w) := create_temp_fuzzing_dir "merge-corpus" (world s) in
  advance s w [EvCreateTempFuzzingDir "merge-corpus" merge_corpus].

(** The directories it merges: those of the fuzz phase, and the corpus
    directory unless it is among them. *)
Definition merge_dirs_of (corpus_dir : string) (fuzz_corpus_dirs : list string)
  : list string :=
  if bool_decide (corpus_dir ∈ fuzz_corpus_dirs) then fuzz_corpus_dirs
  else fuzz_corpus_dirs ++ [corpus_dir].

(** The two-step merge it runs. *)
Definition merge_back_run (target_path corpus_dir new_corpus_dir : string)
    (fuzz_corpus_dirs arguments : list string) (s : State)
  : outcome FuzzResult * State :=
  let s1 := merge_back_start s in
  _minimize_corpus_two_step target_path arguments
    (merge_dirs_of corpus_dir fuzz_corpus_dirs) new_corpus_dir
    (create_temp_fuzzing_dir "merge-corpus" (world s)).1 None
    (get_merge_timeout (world s1)) s1.

(** The names of the statistics a merge reports. *)
Definition merge_stat_names : list string :=
  ["initial_edge_coverage"; "initial_feature_coverage"; "edge_coverage";
   "feature_coverage"; "new_edges"; "new_features"].

(** The empty testcase files made, newest first. *)
Fixpoint empty_testcase_files (t : list event) : list string :=
  match t with
  | [] => []
  | EvMkstemp path :: t' => path :: empty_testcase_files t'
  | _ :: t' => empty_testcase_files t'
  end.

(** The state in which [fuzz] calls the runner, with the directory for
    new units when they are merged back. *)
Definition fuzz_setup (target_path : string) (options : LibFuzzerOptions)
    (s : State) : option string * State :=
  let s0 := advance s (set_sanitizer_options target_path (world s))
                    [EvSetSanitizerOptions target_path] in
  if merge_back_new_testcases options then
    let '(new_corpus_dir, w) := create_temp_fuzzing_dir "new" (world s0) in
    (Some new_corpus_dir,
     advance s0 w [EvCreateTempFuzzingDir "new" new_corpus_dir])
  else (None, s0).

(** The call of [runner.fuzz] that [fuzz] makes from [s]. *)
Definition fuzz_call_of (target_path : string) (options : LibFuzzerOptions)
    (reproducers_dir : string) (max_time : duration) (s : State) : FuzzCall :=
  {| fz_target := target_path;
     fz_corpus_directories :=
       match (fuzz_setup target_path options s).1 with
       | Some new_corpus_dir => new_corpus_dir :: fuzz_corpus_dirs options
       | None => fuzz_corpus_dirs options
       end;
     fz_fuzz_timeout := max_time;
     fz_additional_args := arguments options;
     fz_artifact_prefix := reproducers_dir;
     fz_extra_env := extra_env options |}.

(** What the runner answers to it, and the world it leaves. *)
Definition fuzz_run (target_path : string) (options : LibFuzzerOptions)
    (reproducers_dir : string) (max_time : duration) (s : State)
  : RunResult * W :=
  runner_fuzz (fuzz_call_of target_path options reproducers_dir max_time s)
              (world (fuzz_setup target_path options s).2).

(** The condition under which [fuzz] makes an empty testcase file. *)
Definition needs_empty_testcase (target_path : string) (fuzz_result : RunResult)
  : bool :=
  let log_lines := splitlines (output fuzz_result) in
  negb (truthy (get_testcase_path target_path log_lines))
  && not_in_noncrash_return_codes (return_code fuzz_result)
  || _fuzz_output_contains_trusty_kernel_panic log_lines.

(** The path of the empty testcase file made in a world. *)
Definition empty_testcase_path (reproducers_dir : string) (w : W) : string :=
  path_join reproducers_dir ("tmp" ++ (mkstemp_name reproducers_dir w).1).

(** The crash path [fuzz] settles on. *)
Definition crash_path_of (target_path : string) (options : LibFuzzerOptions)
    (reproducers_dir : string) (max_time : duration) (s : State)
  : option string :=
  let '(fuzz_result, w) :=
    fuzz_run target_path options reproducers_dir max_time s in
  if needs_empty_testcase target_path fuzz_result
  then Some (empty_testcase_path reproducers_dir w)
  else get_testcase_path target_path (splitlines (output fuzz_result)).

(** The state in which [fuzz] has settled the crash path. *)
Definition fuzz_classified (target_path : string) (options : LibFuzzerOptions)
    (reproducers_dir : string) (max_time : duration) (s : State) : State :=
  let '(fuzz_result, w) :=
    fuzz_run target_path options reproducers_dir max_time s in
  let s1 :=
    advance (fuzz_setup target_path options s).2 w
      ((match DICT_PARSING_FAILED_REGEX_search (output fuzz_result) with
        | Some _ => [EvLog Error "Dictionary parsing failed."]
        | None =>
            if negb (use_minijail w)
               && (return_code fuzz_result =? LIBFUZZER_ERROR_EXITCODE)%Z
            then [EvLog Error ENGINE_ERROR_MESSAGE]
            else []
        end)
       ++ [EvRunnerFuzz (fuzz_call_of target_path options reproducers_dir
                           max_time s)]) in
  if needs_empty_testcase target_path fuzz_result then
    advance s1 (mkstemp_name reproducers_dir w).2
      [EvMkstemp (empty_testcase_path reproducers_dir w)]
  else s1.

(** The statistics [fuzz] has before the merge-back. *)
Definition fuzz_stats (options : LibFuzzerOptions) (max_time : duration)
    (fuzz_result : RunResult) : stats_map :=
  let log_lines := splitlines (output fuzz_result) in
  let actual_duration := py_int (time_executed fuzz_result) in
  dict_update
    (dict_update (parse_log_stats log_lines)
       (parse_performance_features log_lines (strategies options)
          (arguments options)))
    (<["timeout_limit" :=
         match FuzzerArguments.get_int
                 (FuzzerArguments.from_list (arguments options))
                 TIMEOUT_FLAGNAME with
         | Some n => VInt n
         | None => VNone
         end]>
     (<["expected_duration" := VInt (py_int max_time)]>
      (<["actual_duration" := VInt actual_duration]>
       (<["fuzzing_time_percent" :=
            VFloat (inject_Z (100 * actual_duration) / max_time)%Q]> ∅)))).

(** The arguments [fuzz] gives the merge-back. *)
Definition non_fuzz_arguments_of (options : LibFuzzerOptions) : list string :=
  strip_fuzzing_arguments
    (FuzzerArguments.list (FuzzerArguments.from_list (arguments options)))
    true.

(** The crashes [fuzz] reports for a crash path. *)
Definition crashes_of (options : LibFuzzerOptions) (fuzz_result : RunResult)
    (crash_testcase_file_path : option string) : list Crash :=
  if truthy crash_testcase_file_path then
    match crash_testcase_file_path with
    | Some path =>
        [mkCrash path (join LF (splitlines (output fuzz_result)))
           (fix_timeout_argument_for_reproduction
              (strip_fuzzing_arguments (arguments options) false))
           (py_int (time_executed fuzz_result))]
    | None => []
    end
  else [].

(** What [libfuzzer.pick_strategies] returns to [prepare] called from
    [s]. *)
Definition strategy_info_of (corpus_dir target_path : string) (s : State)
  : StrategyInfo :=
  let arguments := get_arguments target_path (world s) in
  let '(strategy_pool, w) :=
    if do_strategies s
    then generate_weighted_strategy_pool name (world s)
    else (empty_strategy_pool, world s) in
  (pick_strategies strategy_pool target_path corpus_dir arguments w).1.

(** ** Three statements of the specification

    The specification words three behaviours otherwise than the code has
    them; they are stated here as it words them. *)

(** Spec 4.3, budget guard: on a target that supports the multistep
    merge, when the elapsed time of step 1 is at least the time allowed,
    the two-step merge raises [TimeoutError] and step 2 is not run: the
    one call of the runner's merge is that of step 1. *)
Definition budget_guard_as_specified (target_path : string)
    (arguments existing_corpus_dirs : list string)
    (new_corpus_dir output_corpus_dir : string)
    (reproducers_dir : option string) (max_time : duration) (s : State)
  : Prop :=
  let s1 := two_step_start s in
  let result_1 :=
    (merge_run target_path arguments existing_corpus_dirs output_corpus_dir
       reproducers_dir max_time s1).1 in
  multistep_merge_supported target_path (world s) = true →
  (max_time - time_executed result_1 <= 0)%Q →
  ∃ msg s',
    _minimize_corpus_two_step target_path arguments existing_corpus_dirs
      new_corpus_dir output_corpus_dir reproducers_dir max_time s =
    (Raise (TimeoutError msg), s')
    ∧ merge_calls (trace s') =
      merge_call_of target_path arguments existing_corpus_dirs
        output_corpus_dir reproducers_dir max_time s1
      :: merge_calls (trace s).

(** Spec 4.2 step 4: an empty testcase file is made exactly when no crash
    path was parsed and (the exit code is outside the non-crash codes or
    the marker of a kernel panic is in the log); a parsed path is the
    path of the one crash reported. *)
Definition crash_path_as_specified (target_path : string)
    (options : LibFuzzerOptions) (reproducers_dir : string)
    (max_time : duration) (s : State) : Prop :=
  let fuzz_result :=
    (fuzz_run target_path options reproducers_dir max_time s).1 in
  let w := (fuzz_run target_path options reproducers_dir max_time s).2 in
  let log_lines := splitlines (output fuzz_result) in
  let parsed := get_testcase_path target_path log_lines in
  let synthesized :=
    negb (truthy parsed)
    && (not_in_noncrash_return_codes (return_code fuzz_result)
        || _fuzz_output_contains_trusty_kernel_panic log_lines) in
  ∀ r s',
    fuzz target_path options reproducers_dir max_time s = (Ok r, s') →
    empty_testcase_files (trace s') =
      (if synthesized then [empty_testcase_path reproducers_dir w] else [])
      ++ empty_testcase_files (trace s)
    ∧ ∀ path, parsed = Some path → truthy parsed = true →
              input_path <$> crashes r = [path].

(** Spec 4.1: a variable that the strategies and the target's options
    both define has, in the options [prepare] returns, the value of the
    target's options. *)
Definition caller_env_as_specified (corpus_dir target_path build_dir : string)
    (s : State) : Prop :=
  ∀ options s',
    prepare corpus_dir target_path build_dir s = (Ok options, s') →
    ∀ (caller_env : gmap string string) env_var_name caller_value
      strategy_value,
      get_extra_env target_path (world s) = Some caller_env →
      caller_env !! env_var_name = Some caller_value →
      si_extra_env (strategy_info_of corpus_dir target_path s)
        !! env_var_name = Some strategy_value →
      extra_env options !! env_var_name = Some caller_value.

End Engine.

(** * A small world

    A world in which every file has the same bytes and every directory
    the same number of files, the runner answers from a list, and one
    strategy is picked.  The examples below run the engine in it. *)

Module Demo.

Record stage : Type := mkStage {
  (** the bytes of every file *)
  target_bytes : string;
  (** the number of files of every directory *)
  file_count : nat;
  (** what the runner answers to the merges, in order *)
  merge_answers : list RunResult;
  (** what the runner answers to a fuzz run *)
  fuzz_answer : RunResult;
  (** the environment of the target's options *)
  target_env : option (gmap string string)
}.

Definition answer (out : string) (code : Z) (time : Q) (timed : bool)
  : RunResult :=
  mkRunResult ["./target"] out code time timed.

(** The path after [Test unit written to ] in the first line that has
    it. *)
Fixpoint testcase_path (log_lines : list string) : option string :=
  match log_lines with
  | [] => None
  | line :: rest =>
      match strip_prefix "Test unit written to " line with
      | Some path => Some path
      | None => testcase_path rest
      end
  end.

#[export] Instance host : Host stage := {|
  path_exists _ _ := true;
  read_file _ w := target_bytes w;
  get_directory_file_count _ w := file_count w;
  recreate_directory _ w := w;
  get_temp_dir _ := "/tmp";
  create_temp_fuzzing_dir name w := (("/fuzz/" ++ name)%string, w);
  mkstemp_name _ w := ("x8k2", w);
  move_mergeable_units _ _ w := w;
  set_sanitizer_options _ w := w;
  use_minijail _ := false;
  get_merge_timeout _ := 600%Q;
  get_project_qualified_fuzzer_name target_path _ := target_path
|}.

#[export] Instance runner : Runner stage := {|
  runner_fuzz _ w := (fuzz_answer w, w);
  runner_merge _ w :=
    match merge_answers w with
    | r :: rest =>
        (r, mkStage (target_bytes w) (file_count w) rest (fuzz_answer w)
              (target_env w))
    | [] => (answer "" 0 0%Q false, w)
    end;
  get_testcase_path _ log_lines := testcase_path log_lines
|}.

#[export] Instance libfuzzer : Libfuzzer := {|
  LIBFUZZER_ERROR_EXITCODE := 1;
  NONCRASH_RETURN_CODES := [0; 1]%Z;
  TIMEOUT_FLAGNAME := "timeout";
  DICT_FLAGNAME := "dict";
  parse_log_stats _ := ∅;
  parse_performance_features _ _ _ := ∅;
  merge_log_coverage log_lines :=
    (Z.of_nat (length log_lines),
     Z.of_nat (String.length (join "" log_lines)));
  strip_fuzzing_arguments args _ :=
    filter (λ arg, negb (is_flag "max_total_time" arg)) args;
  fix_timeout_argument_for_reproduction args := args
|}.

#[export] Instance preparation : Preparation stage := {|
  StrategyPool := bool;
  get_arguments _ _ := [("rss_limit_mb", "2560")];
  get_extra_env _ w := target_env w;
  generate_weighted_strategy_pool _ w := (true, w);
  empty_strategy_pool := false;
  pick_strategies pool _ _ _ w :=
    (mkStrategyInfo (if pool : bool then ["value_profile"] else [])
       [("use_value_profile", "1")] []
       {["ASAN_OPTIONS" := "detect_leaks=0"]} false, w);
  do_strategy _ _ := false;
  USE_EXTRA_SANITIZERS_STRATEGY := "extra_sanitizers";
  CORPUS_SUBSET_STRATEGY := "corpus_subset";
  set_value _ _ w := w;
  disable_lsan w := w;
  unpack_seed_corpus_if_needed _ _ w := w;
  random_choice_subset_size w := (10%nat, w);
  copy_from_corpus _ _ _ w := w;
  get_default_dictionary_path target_path := (target_path ++ ".dict")%string;
  correct_if_needed _ w := w;
  process_strategies names := names
|}.

(** A target built with a libFuzzer that has the multistep merge, and
    one built with an older one. *)
Definition new_target_bytes : string :=
  ("ELF " ++ MULTISTEP_MERGE_SUPPORT_TOKEN ++ " .rodata")%string.
Definition old_target_bytes : string := "ELF .rodata".

(** An engine that has run nothing yet. *)
Definition fresh (w : stage) : State := mkState true None w [].

Definition quiet_fuzz : RunResult := answer "Done 1000 runs" 0 10%Q false.

Definition options : LibFuzzerOptions :=
  mkLibFuzzerOptions "/corpus" ["-max_len=100"; "-rss_limit_mb=2560"] []
    ["/corpus"] ∅ false true.

(** Worlds for the examples. *)

(** The first merge takes 700 seconds of the 600 allowed. *)
Definition slow_world : stage :=
  mkStage new_target_bytes 3
    [answer ("MERGE-OUTER: 3 files" ++ LF ++ "cov") 0 700%Q false;
     answer "never asked" 0 1%Q false]
    quiet_fuzz None.

(** The first merge takes 700 seconds of the 600 allowed and exits
    with 1. *)
Definition failing_slow_world : stage :=
  mkStage new_target_bytes 3
    [answer "MERGE-OUTER: 3 files" 1 700%Q false;
     answer "never asked" 0 1%Q false]
    quiet_fuzz None.

(** The merge of the existing corpus reports two lines, the merge with
    the new units three. *)
Definition merging_world : stage :=
  mkStage new_target_bytes 3
    [answer ("MERGE-OUTER: 2 files" ++ LF ++ "cov: 20 ft: 31") 0 100%Q false;
     answer ("MERGE-OUTER: 3 files" ++ LF ++ "step" ++ LF ++ "cov: 21 ft: 35")
       0 50%Q false]
    quiet_fuzz None.

(** The first merge is killed at the time limit. *)
Definition stuck_world : stage :=
  mkStage new_target_bytes 3
    [answer "MERGE-OUTER: 3 files" 0 600%Q true;
     answer ("MERGE-OUTER: 4 files" ++ LF ++ "cov") 0 5%Q false]
    quiet_fuzz None.

(** No new unit was found. *)
Definition idle_world : stage :=
  mkStage new_target_bytes 0 [] quiet_fuzz None.

(** The target exits with 77 at startup and leaves no artifact. *)
Definition startup_crash_world : stage :=
  mkStage new_target_bytes 0 []
    (answer "==1234==ERROR: failed to start" 77 2%Q false) None.

(** libFuzzer wrote a crash artifact, and the log has the marker of a
    Trusty kernel panic. *)
Definition panic_world : stage :=
  mkStage new_target_bytes 0 []
    (answer ("Test unit written to /repro/crash-da39a3" ++ LF
             ++ "panic notifier - trusty version 1.2")
       0 12%Q false)
    None.

(** The target's options set [ASAN_OPTIONS], and so does the strategy
    picked. *)
Definition env_world : stage :=
  mkStage new_target_bytes 0 [] quiet_fuzz
    (Some (<["ASAN_OPTIONS" := "detect_leaks=1"]>
             (<["MSAN_OPTIONS" := "poison_in_free=0"]> ∅))).

(** The target is built with an older libFuzzer. *)
Definition old_world : stage :=
  mkStage old_target_bytes 3
    [answer ("MERGE-OUTER: 3 files" ++ LF ++ "cov: 21 ft: 35") 0 40%Q false]
    quiet_fuzz None.

End Demo.

(** * Sessions as a whole

    What a fuzz session, a merge-back and a prepared session do, read off
    the trace. *)

(** ** Reading a trace *)

(** The calls of the runner's fuzz, newest first. *)
Fixpoint fuzz_calls (t : list event) : list FuzzCall :=
  match t with
  | [] => []
  | EvRunnerFuzz c :: t' => c :: fuzz_calls t'
  | _ :: t' => fuzz_calls t'
  end.

(** The moves of mergeable units, source and destination, newest first. *)
Fixpoint moved_units (t : list event) : list (string * string) :=
  match t with
  | [] => []
  | EvMoveMergeableUnits src dst :: t' => (src, dst) :: moved_units t'
  | _ :: t' => moved_units t'
  end.

(** The directories recreated, newest first. *)
Fixpoint recreated_directories (t : list event) : list string :=
  match t with
  | [] => []
  | EvRecreateDirectory path :: t' => path :: recreated_directories t'
  | _ :: t' => recreated_directories t'
  end.

(** The temporary fuzzing directories created, name and path, newest
    first. *)
Fixpoint temp_fuzzing_dirs (t : list event) : list (string * string) :=
  match t with
  | [] => []
  | EvCreateTempFuzzingDir name path :: t' =>
      (name, path) :: temp_fuzzing_dirs t'
  | _ :: t' => temp_fuzzing_dirs t'
  end.

(** The messages that [minimize_corpus] and [_minimize_corpus_two_step]
    log. *)
Definition merge_step_messages : list string :=
  ["Starting merge with timeout.";
   "Merge completed.";
   "Merging new testcases timed out.";
   "Merging new testcases failed with error code.";
   "Old version of libFuzzer is used. Using single step merge.";
   "Two step merge failed."].

(** The messages that [_merge_new_units] logs. *)
Definition merge_back_messages : list string :=
  ["Skipped corpus merge since no new units added by fuzzing.";
   "Merge failed.";
   "Stats calculated.";
   "No new units found.";
   "New units added to corpus."].

(** The events of a single-step or two-step merge. *)
Definition merge_step_event (ev : event) : bool :=
  match ev with
  | EvLog _ msg => existsb (String.eqb msg) merge_step_messages
  | EvSetSanitizerOptions _ => true
  | EvRecreateDirectory _ => true
  | EvRunnerMerge _ => true
  | EvCreateTempFuzzingDir name _ => String.eqb name "mcf_tmp_dir"
  | _ => false
  end.

(** The events of a merge-back: those of its merge, and its own. *)
Definition merge_back_event (ev : event) : bool :=
  merge_step_event ev
  || match ev with
     | EvLog _ msg => existsb (String.eqb msg) merge_back_messages
     | EvMoveMergeableUnits _ _ => true
     | EvCreateTempFuzzingDir name _ => String.eqb name "merge-corpus"
     | _ => false
     end.

(** A call of the runner's merge on a target, with given arguments and
    reproducers directory, into an output directory from the existing
    directories, or from them and a new one. *)
Definition merges_into (target_path : string) (arguments : list string)
    (reproducers_dir : option string) (output_dir : string)
    (existing_dirs : list string) (new_dir : string) (call : MergeCall)
  : Prop :=
  mg_target call = target_path
  ∧ mg_additional_args call = arguments
  ∧ mg_artifact_prefix call = reproducers_dir
  ∧ (mg_corpus_directories call = output_dir :: existing_dirs
     ∨ mg_corpus_directories call = output_dir :: existing_dirs ++ [new_dir]).

(** The names of the statistics [fuzz] computes from the times. *)
Definition timing_stat_names : list string :=
  ["timeout_limit"; "expected_duration"; "actual_duration";
   "fuzzing_time_percent"].

Section Session.
Context {W : Type} {host : Host W} {runner : Runner W} {lf : Libfuzzer}
        {prep : Preparation W}.

(** From [s] to [s'] the trace has grown, by events of one kind only. *)
Definition grows_by (kind : event → bool) (s s' : @State W) : Prop :=
  ∃ events,
    trace s' = events ++ trace s ∧ forallb kind events = true.

(** The error that [fuzz] logs for the answer of the runner: a dictionary
    that failed to parse, else an error of the engine, else nothing. *)
Definition fuzz_error_events (fuzz_result : RunResult) (w : W) : list event :=
  match DICT_PARSING_FAILED_REGEX_search (output fuzz_result) with
  | Some _ => [EvLog Error "Dictionary parsing failed."]
  | None =>
      if negb (use_minijail w)
         && (return_code fuzz_result =? LIBFUZZER_ERROR_EXITCODE)%Z
      then [EvLog Error ENGINE_ERROR_MESSAGE]
      else []
  end.

(** What a fuzz session leaves in the trace before it merges back,
    newest first: the empty testcase file if one is made, the error
    logged for the run, the call of [runner.fuzz], the directory for new
    units if they are merged back, the sanitizer options. *)
Definition fuzz_events (target_path : string) (options : LibFuzzerOptions)
    (reproducers_dir : string) (max_time : duration) (s : State)
  : list event :=
  let '(fuzz_result, w) :=
    fuzz_run target_path options reproducers_dir max_time s in
  (if needs_empty_testcase target_path fuzz_result
   then [EvMkstemp (empty_testcase_path reproducers_dir w)] else [])
  ++ fuzz_error_events fuzz_result w
  ++ [EvRunnerFuzz
        (fuzz_call_of target_path options reproducers_dir max_time s)]
  ++ match (fuzz_setup target_path options s).1 with
     | Some new_corpus_dir => [EvCreateTempFuzzingDir "new" new_corpus_dir]
     | None => []
     end
  ++ [EvSetSanitizerOptions target_path].

(** The strategy pool [prepare] called from [s] works with. *)
Definition strategy_pool_of (s : State) : StrategyPool :=
  (if do_strategies s
   then generate_weighted_strategy_pool name (world s)
   else (empty_strategy_pool, world s)).1.

End Session.

(** * Reproduction

    [Engine.reproduce], [Engine.minimize_testcase] and [Engine.cleanse]
    run the target on one testcase. *)

(** [engine.ReproduceResult] *)
Record ReproduceResult : Type := mkReproduceResult {
  rr_command : list string;
  rr_return_code : Z;
  rr_time_executed : duration;
  rr_output : string
}.

(** A call of [runner.run_single_testcase], on the runner of a target. *)
Record TestcaseCall : Type := {
  tc_target : string;
  tc_testcase_path : string;
  tc_timeout : duration;
  tc_additional_args : list string
}.

(** A call of [runner.minimize_crash] or of [runner.cleanse_crash]. *)
Record CrashCall : Type := {
  cc_target : string;
  cc_testcase_path : string;
  cc_output_path : string;
  cc_timeout : duration;
  cc_artifact_prefix : string;
  cc_additional_args : list string
}.

(** What the three methods use of the runner and of [constants]: every
    call returns a result and may change the world. *)
Class Reproducer (W : Type) : Type := {
  run_single_testcase : TestcaseCall → W → RunResult * W;
  minimize_crash : CrashCall → W → RunResult * W;
  cleanse_crash : CrashCall → W → RunResult * W;
  RUNS_FLAGNAME : string;
  (** [int(constants.RUNS_TO_REPRODUCE)] *)
  RUNS_TO_REPRODUCE : Z
}.

Section Reproduction.
Context {W : Type} {host : Host W} {lf : Libfuzzer} {rep : Reproducer W}.

(** A call of the runner on one testcase: it changes the world and
    returns a result; the trace has no event for it. *)
Definition invoke {A : Type} (f : W → A * W) : M A := λ s,
  let '(a, w') := f (world s) in
  (Ok a, mkState (do_strategies s) (_merge_control_file s) w' (trace s)).

(** [Engine.reproduce] *)
Definition reproduce (target_path input_path : string)
    (arguments : list string) (max_time : duration) : M ReproduceResult :=
  act (set_sanitizer_options target_path) (EvSetSanitizerOptions target_path) ;;
  (* Remove fuzzing specific arguments. *)
  let arguments := strip_fuzzing_arguments arguments false in
  let arguments := FuzzerArguments.from_list arguments in
  let arguments :=
    FuzzerArguments.set arguments RUNS_FLAGNAME (pretty RUNS_TO_REPRODUCE) in
  result ← invoke (run_single_testcase
                     {| tc_target := target_path;
                        tc_testcase_path := input_path;
                        tc_timeout := max_time;
                        tc_additional_args := FuzzerArguments.list arguments |});
  if timed_out result then
    log Warning "Reproducing timed out." ;;
    raise (TimeoutError "Reproducing timed out.")
  else
    mret (mkReproduceResult (command result) (return_code result)
            (time_executed result) (output result)).

(** [Engine.minimize_testcase] *)
Definition minimize_testcase (target_path : string) (arguments : list string)
    (input_path output_path : string) (max_time : duration)
  : M ReproduceResult :=
  act (set_sanitizer_options target_path) (EvSetSanitizerOptions target_path) ;;
  minimize_tmp_dir ← call (create_temp_fuzzing_dir "minimize-workdir")
                          (EvCreateTempFuzzingDir "minimize-workdir");
  result ← invoke (minimize_crash
                     {| cc_target := target_path;
                        cc_testcase_path := input_path;
                        cc_output_path := output_path;
                        cc_timeout := max_time;
                        cc_artifact_prefix := minimize_tmp_dir;
                        cc_additional_args := arguments |});
  if timed_out result then
    log Error "Minimization timed out." ;;
    raise (TimeoutError "Minimization timed out.")
  else
    mret (mkReproduceResult (command result) (return_code result)
            (time_executed result) (output result)).

(** [Engine.cleanse] *)
Definition cleanse (target_path : string) (arguments : list string)
    (input_path output_path : string) (max_time : duration)
  : M ReproduceResult :=
  act (set_sanitizer_options target_path) (EvSetSanitizerOptions target_path) ;;
  cleanse_tmp_dir ← call (create_temp_fuzzing_dir "cleanse-workdir")
                         (EvCreateTempFuzzingDir "cleanse-workdir");
  result ← invoke (cleanse_crash
                     {| cc_target := target_path;
                        cc_testcase_path := input_path;
                        cc_output_path := output_path;
                        cc_timeout := max_time;
                        cc_artifact_prefix := cleanse_tmp_dir;
                        cc_additional_args := arguments |});
  if timed_out result then
    log Error "Cleanse timed out." ;;
    raise (TimeoutError "Cleanse timed out.")
  else
    mret (mkReproduceResult (command result) (return_code result)
            (time_executed result) (output result)).

(** The arguments [reproduce] gives the runner. *)
Definition reproduce_arguments_of (arguments : list string) : list string :=
  FuzzerArguments.list
    (FuzzerArguments.set
       (FuzzerArguments.from_list (strip_fuzzing_arguments arguments false))
       RUNS_FLAGNAME (pretty RUNS_TO_REPRODUCE)).

(** The call of [runner.run_single_testcase] that [reproduce] makes. *)
Definition reproduce_call_of (target_path input_path : string)
    (arguments : list string) (max_time : duration) : TestcaseCall :=
  {| tc_target := target_path;
     tc_testcase_path := input_path;
     tc_timeout := max_time;
     tc_additional_args := reproduce_arguments_of arguments |}.

(** The call of the runner that [minimize_testcase] and [cleanse] make,
    with the working directory of the given name as artifact prefix. *)
Definition crash_call_of (workdir : string) (target_path : string)
    (arguments : list string) (input_path output_path : string)
    (max_time : duration) (s : State) : CrashCall :=
  {| cc_target := target_path;
     cc_testcase_path := input_path;
     cc_output_path := output_path;
     cc_timeout := max_time;
     cc_artifact_prefix :=
       (create_temp_fuzzing_dir workdir
          (set_sanitizer_options target_path (world s))).1;
     cc_additional_args := arguments |}.

(** The result of the engine for a result of the runner. *)
Definition reproduce_result_of (result : RunResult) : ReproduceResult :=
  mkReproduceResult (command result) (return_code result)
    (time_executed result) (output result).

End Reproduction.

(** * A runner for one testcase

    The runner of the small world, replaying: a run takes as long as the
    time allowed when the testcase is [/hang], and a second otherwise. *)

Module Replay.

Import Demo.

Definition replay (testcase_path : string) (timeout : duration)
    (args : list string) : RunResult :=
  if String.eqb testcase_path "/hang"
  then mkRunResult ("./target" :: args) "ALARM" 70 timeout true
  else mkRunResult ("./target" :: args) "Executed in 3 ms" 0 1%Q false.

#[export] Instance reproducer : Reproducer stage := {|
  run_single_testcase call w :=
    (replay (tc_testcase_path call) (tc_timeout call)
       (tc_additional_args call), w);
  minimize_crash call w :=
    (replay (cc_testcase_path call) (cc_timeout call)
       (cc_additional_args call), w);
  cleanse_crash call w :=
    (replay (cc_testcase_path call) (cc_timeout call)
       (cc_additional_args call), w);
  RUNS_FLAGNAME := "runs";
  RUNS_TO_REPRODUCE := 100
|}.

End Replay.

(** * A world without the target

    No path exists; a merge fails at once, since there is nothing to
    run. *)

Module Missing.

#[export] Instance no_host : Host unit := {|
  path_exists _ _ := false;
  read_file _ _ := "";
  get_directory_file_count _ _ := 0%nat;
  recreate_directory _ w := w;
  get_temp_dir _ := "/tmp";
  create_temp_fuzzing_dir name w := (("/fuzz/" ++ name)%string, w);
  mkstemp_name _ w := ("x8k2", w);
  move_mergeable_units _ _ w := w;
  set_sanitizer_options _ w := w;
  use_minijail _ := false;
  get_merge_timeout _ := 600%Q;
  get_project_qualified_fuzzer_name target_path _ := target_path
|}.

#[export] Instance no_runner : Runner unit := {|
  runner_fuzz _ w := (Demo.answer "not found" 127 0%Q false, w);
  runner_merge _ w := (Demo.answer "not found" 127 0%Q false, w);
  get_testcase_path _ _ := None
|}.

(** An engine that has run nothing yet. *)
Definition bare : State := mkState true None () [].

End Missing.

(** * Properties *)

Section EngineProperties.
Context {W : Type} {host : Host W} {runner : Runner W} {lf : Libfuzzer}
        {prep : Preparation W}.

Ltac run :=
  unfold mbind, M_bind, mret, M_ret, act, ask, call, log, emit, raise,
    try_finally, get_merge_control_file, set_merge_control_file; simpl.

(** ** The single-step merge *)

(** The run of [minimize_corpus], spelled out: the runner is called once;
    what is raised or returned depends on its answer alone. *)
Lemma minimize_corpus_eq target_path arguments input_dirs output_dir
    reproducers_dir max_time (s : State) :
  let result :=
    (merge_run target_path arguments input_dirs output_dir reproducers_dir
       max_time s).1 in
  let s' :=
    merge_done target_path arguments input_dirs output_dir reproducers_dir
      max_time s in
  minimize_corpus target_path arguments input_dirs output_dir reproducers_dir
    max_time s =
  if timed_out result then
    (Raise (TimeoutError "Merging new testcases timed out."),
     advance s' (world s') [EvLog Error "Merging new testcases timed out."])
  else if negb (return_code result =? 0)%Z then
    (Raise (MergeError "Merging new testcases failed."),
     advance s' (world s')
       [EvLog Error "Merging new testcases failed with error code."])
  else
    (Ok (mkFuzzResult (output result) (command result) []
           (parse_stats_from_merge_log (splitlines (output result)))
           (time_executed result) None),
     s').
Proof.
  unfold minimize_corpus, _create_temp_dir, merge_done, merge_run,
    merge_call_of, merge_tmp_dir_of, advance.
  run.
  destruct (runner_merge _ _) as [result w] eqn:Hrun. simpl.
  destruct (timed_out result); [reflexivity|].
  destruct (return_code result =? 0)%Z; reflexivity.
Qed.


(** An equivalence between a raised or returned outcome of another kind
    and a condition that does not hold. *)
Ltac neither :=
  split; [ intros [? ?]; discriminate
         | intros [? ?]; first [ discriminate | congruence ] ].

(** C8 ([Engine.minimize_corpus], error handling).  The single-step merge
    raises [TimeoutError] exactly when the runner's result is flagged as
    timed out, raises [MergeError] exactly when it is not and the exit
    code is non-zero, and otherwise returns the statistics parsed from
    the runner's output; in all three cases the working directory of the
    merge is recreated right after the runner's call. *)
Theorem minimize_corpus_outcome target_path arguments input_dirs output_dir
    reproducers_dir max_time (s : State) :
  let run :=
    merge_run target_path arguments input_dirs output_dir reproducers_dir
      max_time s in
  let result := run.1 in
  let tmp := merge_tmp_dir_of target_path s in
  let merge :=
    merge_call_of target_path arguments input_dirs output_dir reproducers_dir
      max_time s in
  let out :=
    (minimize_corpus target_path arguments input_dirs output_dir
       reproducers_dir max_time s).1 in
  let s' :=
    (minimize_corpus target_path arguments input_dirs output_dir
       reproducers_dir max_time s).2 in
  ((∃ msg, out = Raise (TimeoutError msg)) ↔ timed_out result = true)
  ∧ ((∃ msg, out = Raise (MergeError msg))
     ↔ timed_out result = false ∧ return_code result ≠ 0%Z)
  ∧ ((∃ r, out = Ok r)
     ↔ timed_out result = false ∧ return_code result = 0%Z)
  ∧ (∀ r, out = Ok r →
       logs r = output result
       ∧ fr_command r = command result
       ∧ stats r = parse_stats_from_merge_log (splitlines (output result))
       ∧ fr_time_executed r = time_executed result)
  ∧ world s' = recreate_directory tmp run.2
  ∧ ∃ later,
      trace s' =
        later ++ EvRecreateDirectory tmp :: EvRunnerMerge merge
              :: EvLog Info "Starting merge with timeout."
              :: EvRecreateDirectory tmp
              :: EvSetSanitizerOptions target_path :: trace s
      ∧ merge_calls later = [].
Proof.
  intros run result tmp merge out s'. subst out s'.
  rewrite minimize_corpus_eq. fold run result.
  destruct (timed_out result) eqn:Htimed; simpl.
  - split; [split; eauto|].
    split; [neither|]. split; [neither|].
    split; [intros ? ?; discriminate|]. split; [reflexivity|].
    exists [EvLog Error "Merging new testcases timed out.";
            EvLog Info "Merge completed."]. split; reflexivity.
  - destruct (return_code result =? 0)%Z eqn:Hcode; simpl.
    + apply Z.eqb_eq in Hcode.
      split; [split; [intros [? ?]|intros ?]; discriminate|].
      split; [neither|]. split; [split; eauto|].
      split; [intros r [= <-]; simpl; auto|]. split; [reflexivity|].
      exists [EvLog Info "Merge completed."]. split; reflexivity.
    + apply Z.eqb_neq in Hcode.
      split; [split; [intros [? ?]|intros ?]; discriminate|].
      split; [split; eauto|]. split; [neither|].
      split; [intros ? ?; discriminate|]. split; [reflexivity|].
      exists [EvLog Error "Merging new testcases failed with error code.";
              EvLog Info "Merge completed."]. split; reflexivity.
Qed.


(** ** The two-step merge *)

Lemma merge_calls_app (t1 t2 : list event) :
  merge_calls (t1 ++ t2) = merge_calls t1 ++ merge_calls t2.
Proof.
  induction t1 as [|ev t1 IH]; [reflexivity|].
  destruct ev; simpl; rewrite IH; reflexivity.
Qed.

Lemma merge_done_calls target_path arguments input_dirs output_dir
    reproducers_dir max_time (s : State) :
  merge_calls
    (trace (merge_done target_path arguments input_dirs output_dir
              reproducers_dir max_time s)) =
  merge_call_of target_path arguments input_dirs output_dir reproducers_dir
    max_time s :: merge_calls (trace s).
Proof. reflexivity. Qed.

Lemma merge_done_control_file target_path arguments input_dirs output_dir
    reproducers_dir max_time (s : State) :
  _merge_control_file
    (merge_done target_path arguments input_dirs output_dir reproducers_dir
       max_time s) = _merge_control_file s.
Proof. reflexivity. Qed.

Lemma two_step_start_calls (s : State) :
  merge_calls (trace (two_step_start s)) = merge_calls (trace s).
Proof.
  unfold two_step_start.
  destruct (create_temp_fuzzing_dir _ _); reflexivity.
Qed.

(** What [minimize_corpus] returns carries the runner's elapsed time. *)
Lemma minimize_corpus_time target_path arguments input_dirs output_dir
    reproducers_dir max_time (s : State) r s' :
  minimize_corpus target_path arguments input_dirs output_dir reproducers_dir
    max_time s = (Ok r, s') →
  fr_time_executed r =
  time_executed (merge_run target_path arguments input_dirs output_dir
                   reproducers_dir max_time s).1.
Proof.
  rewrite minimize_corpus_eq.
  destruct (timed_out _); [discriminate|].
  destruct (negb _); [discriminate|].
  intros [= <- _]. reflexivity.
Qed.

Lemma merge_done_empty_testcase_files target_path arguments input_dirs
    output_dir reproducers_dir max_time (s : State) :
  empty_testcase_files
    (trace (merge_done target_path arguments input_dirs output_dir
              reproducers_dir max_time s)) =
  empty_testcase_files (trace s).
Proof. reflexivity. Qed.

Lemma two_step_start_empty_testcase_files (s : State) :
  empty_testcase_files (trace (two_step_start s)) =
  empty_testcase_files (trace s).
Proof.
  unfold two_step_start.
  destruct (create_temp_fuzzing_dir _ _); reflexivity.
Qed.

#[local] Opaque merge_done merge_run minimize_corpus.


Lemma is_multistep_merge_supported_eq target_path (s : State) :
  _is_multistep_merge_supported target_path s =
  (Ok (multistep_merge_supported target_path (world s)), s).
Proof.
  unfold _is_multistep_merge_supported, multistep_merge_supported. run.
  destruct (path_exists target_path (world s)); reflexivity.
Qed.

Lemma parse_stats_edge_coverage log_lines :
  parse_stats_from_merge_log log_lines !! "edge_coverage" =
  Some (VInt (merge_log_coverage log_lines).1).
Proof.
  unfold parse_stats_from_merge_log.
  destruct (merge_log_coverage log_lines) as [e f]. apply lookup_insert_eq.
Qed.

Lemma parse_stats_feature_coverage log_lines :
  parse_stats_from_merge_log log_lines !! "feature_coverage" =
  Some (VInt (merge_log_coverage log_lines).2).
Proof.
  unfold parse_stats_from_merge_log.
  destruct (merge_log_coverage log_lines) as [e f].
  rewrite lookup_insert_ne by discriminate. apply lookup_insert_eq.
Qed.

Section TwoStep.
Variables (target_path : string) (arguments existing_corpus_dirs : list string)
          (new_corpus_dir output_corpus_dir : string)
          (reproducers_dir : option string) (max_time : duration)
          (s : @State W).

(** Step 1 starts from [s1]; the runner answers [result_1]. *)
Let s1 : State := two_step_start s.
Let result_1 : RunResult :=
  (merge_run target_path arguments existing_corpus_dirs output_corpus_dir
     reproducers_dir max_time s1).1.
(** The output directory is recreated in [s2]. *)
Let s2 : State :=
  let done := merge_done target_path arguments existing_corpus_dirs
                output_corpus_dir reproducers_dir max_time s1 in
  advance done (recreate_directory output_corpus_dir (world done))
          [EvRecreateDirectory output_corpus_dir].
Let remaining : duration := (max_time - time_executed result_1)%Q.
(** Step 2 starts from [s2] with the remaining budget; the runner answers
    [result_2]. *)
Let result_2 : RunResult :=
  (merge_run target_path arguments (existing_corpus_dirs ++ [new_corpus_dir])
     output_corpus_dir reproducers_dir remaining s2).1.
Let s3 : State :=
  merge_done target_path arguments (existing_corpus_dirs ++ [new_corpus_dir])
    output_corpus_dir reproducers_dir remaining s2.

Lemma two_step_supported_eq :
  multistep_merge_supported target_path (world s) = true →
  _minimize_corpus_two_step target_path arguments existing_corpus_dirs
    new_corpus_dir output_corpus_dir reproducers_dir max_time s =
  match minimize_corpus target_path arguments existing_corpus_dirs
          output_corpus_dir reproducers_dir max_time s1 with
  | (Raise e, s') => (Raise e, s')
  | (Ok _, _) =>
      if Qle_bool remaining 0 then
        (Raise (TimeoutError "Merging new testcases timed out."),
         advance s2 (world s2) [EvLog Error "Merging new testcases timed out."])
      else
        match minimize_corpus target_path arguments
                (existing_corpus_dirs ++ [new_corpus_dir])
                output_corpus_dir reproducers_dir remaining s2 with
        | (Raise e, s') => (Raise e, s')
        | (Ok _, _) =>
            let '(e0, f0) := merge_log_coverage (splitlines (output result_1)) in
            let '(e, f) := merge_log_coverage (splitlines (output result_2)) in
            let merge_stats := two_step_stats e0 f0 e f in
            let inconsistent := ((e - e0 <? 0) || (f - f0 <? 0))%Z in
            (Ok (mkFuzzResult
                   (output result_1 ++ LF ++ LF ++ output result_2)%string
                   (command result_2) []
                   (if inconsistent
                    then <["new_features" := VInt 0]>
                           (<["new_edges" := VInt 0]> merge_stats)
                    else merge_stats)
                   (time_executed result_1 + time_executed result_2)%Q None),
             mkState (do_strategies s3) None (world s3)
               ((if inconsistent then [EvLog Error "Two step merge failed."]
                 else []) ++ trace s3))
        end
  end.
Proof.
  intros Hsupported.
  unfold _minimize_corpus_two_step.
  unfold mbind at 1, M_bind at 1.
  rewrite is_multistep_merge_supported_eq, Hsupported. simpl.
  unfold result_2, s3, s2, remaining, result_1, s1, two_step_start.
  unfold mbind, M_bind, call, set_merge_control_file, act, log, emit, raise,
    mret, M_ret. simpl.
  destruct (create_temp_fuzzing_dir "mcf_tmp_dir" (world s)) as [dir w].
  simpl. set (st1 := mkState _ _ _ _).
  rewrite !(minimize_corpus_eq _ _ _ _ _ _ st1).
  set (r1 := (merge_run _ _ _ _ _ _ st1).1).
  set (d1 := merge_done _ _ _ _ _ _ st1). clearbody r1 d1. clear st1.
  destruct (timed_out r1); [reflexivity|].
  destruct (return_code r1 =? 0)%Z; simpl; [|reflexivity].
  unfold getitem.
  rewrite parse_stats_edge_coverage, parse_stats_feature_coverage. simpl.
  destruct (Qle_bool _ _); [reflexivity|].
  set (st2 := advance d1 _ _).
  rewrite !(minimize_corpus_eq _ _ _ _ _ _ st2).
  set (r2 := (merge_run _ _ _ _ _ _ st2).1).
  set (d2 := merge_done _ _ _ _ _ _ st2). clearbody r2 d2. clear st2.
  destruct (timed_out r2); [reflexivity|].
  destruct (return_code r2 =? 0)%Z; simpl; [|reflexivity].
  rewrite parse_stats_edge_coverage, parse_stats_feature_coverage. simpl.
  destruct (merge_log_coverage (splitlines (output r1))) as [e0 f0].
  destruct (merge_log_coverage (splitlines (output r2))) as [e f]. simpl.
  repeat (progress (repeat first
            [ rewrite lookup_insert_eq
            | rewrite lookup_insert_ne by discriminate ]; simpl)).
  unfold two_step_stats.
  destruct (e - e0 <? 0)%Z; simpl; [reflexivity|].
  repeat (progress (repeat first
            [ rewrite lookup_insert_eq
            | rewrite lookup_insert_ne by discriminate ]; simpl)).
  destruct (f - f0 <? 0)%Z; reflexivity.
Qed.

(** C2 (budget guard of [_minimize_corpus_two_step]), as the code has
    it.  On a target that supports the multistep merge, when the elapsed
    time of step 1 is at least the time allowed, the two-step merge
    raises and the only call of the runner's merge is the one of step 1:
    step 2 is not started.  It raises [TimeoutError] when the result of
    step 1 is flagged as timed out or has the exit code 0, and
    [MergeError] when the result is not flagged and the exit code is not
    0. *)
Theorem two_step_budget_guard :
  multistep_merge_supported target_path (world s) = true →
  (max_time - time_executed result_1 <= 0)%Q →
  ∃ s'',
    _minimize_corpus_two_step target_path arguments existing_corpus_dirs
      new_corpus_dir output_corpus_dir reproducers_dir max_time s =
    (Raise (if timed_out result_1 || (return_code result_1 =? 0)%Z
            then TimeoutError "Merging new testcases timed out."
            else MergeError "Merging new testcases failed."), s'')
    ∧ merge_calls (trace s'') =
      merge_call_of target_path arguments existing_corpus_dirs
        output_corpus_dir reproducers_dir max_time s1
      :: merge_calls (trace s).
Proof.
  intros Hsupported Hbudget.
  rewrite two_step_supported_eq by assumption.
  apply Qle_bool_iff in Hbudget. fold remaining in Hbudget.
  assert (Hcalls :
    merge_calls
      (trace (merge_done target_path arguments existing_corpus_dirs
                output_corpus_dir reproducers_dir max_time s1))
    = merge_call_of target_path arguments existing_corpus_dirs
        output_corpus_dir reproducers_dir max_time s1
      :: merge_calls (trace s)).
  { rewrite merge_done_calls. unfold s1. rewrite two_step_start_calls.
    reflexivity. }
  rewrite (minimize_corpus_eq _ _ _ _ _ _ s1). fold result_1.
  destruct (timed_out result_1); simpl.
  { eexists. split; [reflexivity | exact Hcalls]. }
  destruct (return_code result_1 =? 0)%Z; simpl.
  - rewrite Hbudget. eexists. split; [reflexivity|].
    unfold s2. simpl. exact Hcalls.
  - eexists. split; [reflexivity | exact Hcalls].
Qed.

(** C3 (coverage of the new units).  When the two-step merge on a target
    that supports the multistep merge returns, its statistics hold the
    four counters of the two steps, and [new_edges] and [new_features] are
    the differences between step 2 and step 1, unless one of the
    differences is negative: then both are zero.  Neither is ever
    negative. *)
Theorem two_step_new_coverage r s' :
  multistep_merge_supported target_path (world s) = true →
  _minimize_corpus_two_step target_path arguments existing_corpus_dirs
    new_corpus_dir output_corpus_dir reproducers_dir max_time s = (Ok r, s') →
  ∃ e0 f0 e f new_edges new_features : Z,
    stats r !! "initial_edge_coverage" = Some (VInt e0)
    ∧ stats r !! "initial_feature_coverage" = Some (VInt f0)
    ∧ stats r !! "edge_coverage" = Some (VInt e)
    ∧ stats r !! "feature_coverage" = Some (VInt f)
    ∧ stats r !! "new_edges" = Some (VInt new_edges)
    ∧ stats r !! "new_features" = Some (VInt new_features)
    ∧ (if ((e - e0 <? 0) || (f - f0 <? 0))%Z
       then new_edges = 0%Z ∧ new_features = 0%Z
       else new_edges = (e - e0)%Z ∧ new_features = (f - f0)%Z)
    ∧ (0 ≤ new_edges)%Z ∧ (0 ≤ new_features)%Z.
Proof.
  intros Hsupported. rewrite two_step_supported_eq by assumption.
  destruct (minimize_corpus _ _ _ _ _ _ s1) as [[step_1|?] ?]; [|discriminate].
  destruct (Qle_bool remaining 0); [discriminate|].
  destruct (minimize_corpus _ _ _ _ _ _ s2) as [[step_2|?] ?]; [|discriminate].
  destruct (merge_log_coverage (splitlines (output result_1))) as [e0 f0].
  destruct (merge_log_coverage (splitlines (output result_2))) as [e f].
  intros [= <- _]. simpl.
  exists e0, f0, e, f.
  destruct ((e - e0 <? 0) || (f - f0 <? 0))%Z eqn:Hneg.
  - exists 0%Z, 0%Z. unfold two_step_stats.
    repeat split; try reflexivity; try lia;
      repeat first [ rewrite lookup_insert_eq
                   | rewrite lookup_insert_ne by discriminate ]; reflexivity.
  - apply orb_false_iff in Hneg as [He Hf].
    apply Z.ltb_ge in He, Hf.
    exists (e - e0)%Z, (f - f0)%Z. unfold two_step_stats.
    repeat split; try reflexivity; try lia;
      repeat first [ rewrite lookup_insert_eq
                   | rewrite lookup_insert_ne by discriminate ]; reflexivity.
Qed.

(** The control file over a two-step merge on a target that supports it.
    Both steps hand the runner the same path, [MCF] in the directory
    created for it.  The attribute is [None] again when the merge
    returns; it keeps that path when the merge raises. *)
Lemma two_step_control_file out s' :
  multistep_merge_supported target_path (world s) = true →
  _minimize_corpus_two_step target_path arguments existing_corpus_dirs
    new_corpus_dir output_corpus_dir reproducers_dir max_time s = (out, s') →
  let path :=
    path_join (create_temp_fuzzing_dir "mcf_tmp_dir" (world s)).1 "MCF" in
  match out with
  | Ok _ =>
      _merge_control_file s' = None
      ∧ ∃ step_2 step_1,
          merge_calls (trace s') = step_2 :: step_1 :: merge_calls (trace s)
          ∧ mg_merge_control_file step_1 = Some path
          ∧ mg_merge_control_file step_2 = Some path
  | Raise _ => _merge_control_file s' = Some path
  end.
Proof.
  intros Hsupported. rewrite two_step_supported_eq by assumption.
  assert (Hmcf : _merge_control_file s1 =
                 Some (path_join
                         (create_temp_fuzzing_dir "mcf_tmp_dir" (world s)).1
                         "MCF")).
  { unfold s1, two_step_start.
    destruct (create_temp_fuzzing_dir _ _); reflexivity. }
  rewrite (minimize_corpus_eq _ _ _ _ _ _ s1).
  destruct (timed_out _).
  { intros [= <- <-]. simpl. rewrite merge_done_control_file. exact Hmcf. }
  destruct (negb _).
  { intros [= <- <-]. simpl. rewrite merge_done_control_file. exact Hmcf. }
  destruct (Qle_bool remaining 0).
  { intros [= <- <-]. simpl. rewrite merge_done_control_file. exact Hmcf. }
  rewrite (minimize_corpus_eq _ _ _ _ _ _ s2).
  destruct (timed_out _).
  { intros [= <- <-]. simpl. rewrite merge_done_control_file.
    unfold s2. simpl. rewrite merge_done_control_file. exact Hmcf. }
  destruct (negb _).
  { intros [= <- <-]. simpl. rewrite merge_done_control_file.
    unfold s2. simpl. rewrite merge_done_control_file. exact Hmcf. }
  destruct (merge_log_coverage (splitlines (output result_1))) as [e0 f0].
  destruct (merge_log_coverage (splitlines (output result_2))) as [e f].
  intros [= <- <-]. simpl. split; [reflexivity|].
  eexists _, _. split.
  - rewrite merge_calls_app. unfold s3. rewrite merge_done_calls.
    unfold s2. simpl. rewrite merge_done_calls.
    unfold s1. rewrite two_step_start_calls.
    destruct (_ || _); reflexivity.
  - split; simpl; [exact Hmcf|].
    unfold s2. simpl. rewrite merge_done_control_file. exact Hmcf.
Qed.

(** C4 (single-step fallback).  On a target whose bytes lack the marker
    of the multistep merge, the two-step merge is the single-step merge
    of the existing directories followed by the new one, into the same
    output directory, with the same reproducers directory and the same
    time allowed, run after one information message; what it returns has
    the two cumulative counters and no other statistic. *)
Theorem two_step_fallback :
  search_bytes_in_file MULTISTEP_MERGE_SUPPORT_TOKEN
    (read_file target_path (world s)) = false →
  _minimize_corpus_two_step target_path arguments existing_corpus_dirs
    new_corpus_dir output_corpus_dir reproducers_dir max_time s =
  minimize_corpus target_path arguments
    (existing_corpus_dirs ++ [new_corpus_dir]) output_corpus_dir
    reproducers_dir max_time
    (advance s (world s)
       [EvLog Info "Old version of libFuzzer is used. Using single step merge."])
  ∧ ∀ r s',
      _minimize_corpus_two_step target_path arguments existing_corpus_dirs
        new_corpus_dir output_corpus_dir reproducers_dir max_time s
      = (Ok r, s') →
      ∀ key, is_Some (stats r !! key)
             ↔ key = "edge_coverage" ∨ key = "feature_coverage".
Proof.
  intros Hmarker.
  assert (Heq :
    _minimize_corpus_two_step target_path arguments existing_corpus_dirs
      new_corpus_dir output_corpus_dir reproducers_dir max_time s =
    minimize_corpus target_path arguments
      (existing_corpus_dirs ++ [new_corpus_dir]) output_corpus_dir
      reproducers_dir max_time
      (advance s (world s)
         [EvLog Info
            "Old version of libFuzzer is used. Using single step merge."])).
  { unfold _minimize_corpus_two_step.
    unfold mbind at 1, M_bind at 1.
    rewrite is_multistep_merge_supported_eq.
    unfold multistep_merge_supported. rewrite Hmarker, andb_false_r.
    reflexivity. }
  split; [exact Heq|].
  intros r s'. rewrite Heq, minimize_corpus_eq.
  destruct (timed_out _); [discriminate|].
  destruct (negb _); [discriminate|].
  intros [= <- _] key. simpl. unfold parse_stats_from_merge_log.
  destruct (merge_log_coverage _) as [e f].
  destruct (decide (key = "edge_coverage")) as [->|Hedge].
  { rewrite lookup_insert_eq. split; [auto | eexists; reflexivity]. }
  rewrite lookup_insert_ne by congruence.
  destruct (decide (key = "feature_coverage")) as [->|Hfeature].
  { rewrite lookup_insert_eq. split; [auto | eexists; reflexivity]. }
  rewrite lookup_insert_ne by congruence. rewrite lookup_empty.
  split; [intros [? ?]; discriminate | intros [?|?]; contradiction].
Qed.

End TwoStep.


(** ** Merging new units back *)

Lemma two_step_unsupported_eq target_path arguments existing_corpus_dirs
    new_corpus_dir output_corpus_dir reproducers_dir max_time (s : State) :
  multistep_merge_supported target_path (world s) = false →
  _minimize_corpus_two_step target_path arguments existing_corpus_dirs
    new_corpus_dir output_corpus_dir reproducers_dir max_time s =
  minimize_corpus target_path arguments
    (existing_corpus_dirs ++ [new_corpus_dir]) output_corpus_dir
    reproducers_dir max_time
    (advance s (world s)
       [EvLog Info "Old version of libFuzzer is used. Using single step merge."]).
Proof.
  intros Hprobe. unfold _minimize_corpus_two_step.
  unfold mbind at 1, M_bind at 1.
  rewrite is_multistep_merge_supported_eq, Hprobe. reflexivity.
Qed.

(** The two-step merge raises nothing but the two merge failures. *)
Lemma two_step_raises_merge_failure target_path arguments existing_corpus_dirs
    new_corpus_dir output_corpus_dir reproducers_dir max_time (s : State) e s' :
  _minimize_corpus_two_step target_path arguments existing_corpus_dirs
    new_corpus_dir output_corpus_dir reproducers_dir max_time s = (Raise e, s') →
  is_merge_failure e = true.
Proof.
  destruct (multistep_merge_supported target_path (world s)) eqn:Hprobe.
  - rewrite two_step_supported_eq by assumption.
    rewrite minimize_corpus_eq.
    destruct (timed_out _); [intros [= <- _]; reflexivity|].
    destruct (negb _); [intros [= <- _]; reflexivity|].
    destruct (Qle_bool _ _); [intros [= <- _]; reflexivity|].
    rewrite minimize_corpus_eq.
    destruct (timed_out _); [intros [= <- _]; reflexivity|].
    destruct (negb _); [intros [= <- _]; reflexivity|].
    repeat destruct (merge_log_coverage _). discriminate.
  - rewrite two_step_unsupported_eq by assumption.
    rewrite minimize_corpus_eq.
    destruct (timed_out _); [intros [= <- _]; reflexivity|].
    destruct (negb _); [intros [= <- _]; reflexivity|].
    discriminate.
Qed.

(** The statistics of a two-step merge are among [merge_stat_names]. *)
Lemma two_step_stat_names target_path arguments existing_corpus_dirs
    new_corpus_dir output_corpus_dir reproducers_dir max_time (s : State) r s' :
  _minimize_corpus_two_step target_path arguments existing_corpus_dirs
    new_corpus_dir output_corpus_dir reproducers_dir max_time s = (Ok r, s') →
  ∀ key, key ∉ merge_stat_names → stats r !! key = None.
Proof.
  intros Hrun key Hkey.
  assert (Hne : ∀ name, name ∈ merge_stat_names → name ≠ key).
  { intros name Hin ->. contradiction. }
  assert (H1 := Hne "initial_edge_coverage" ltac:(set_solver)).
  assert (H2 := Hne "initial_feature_coverage" ltac:(set_solver)).
  assert (H3 := Hne "edge_coverage" ltac:(set_solver)).
  assert (H4 := Hne "feature_coverage" ltac:(set_solver)).
  assert (H5 := Hne "new_edges" ltac:(set_solver)).
  assert (H6 := Hne "new_features" ltac:(set_solver)).
  revert Hrun.
  destruct (multistep_merge_supported target_path (world s)) eqn:Hprobe.
  - rewrite two_step_supported_eq by assumption.
    destruct (minimize_corpus _ _ _ _ _ _ _) as [[?|?] ?]; [|discriminate].
    destruct (Qle_bool _ _); [discriminate|].
    destruct (minimize_corpus _ _ _ _ _ _ _) as [[?|?] ?]; [|discriminate].
    repeat destruct (merge_log_coverage _).
    intros [= <- _]. simpl. unfold two_step_stats.
    destruct (_ || _); rewrite !lookup_insert_ne by assumption;
      apply lookup_empty.
  - rewrite two_step_unsupported_eq by assumption.
    rewrite minimize_corpus_eq.
    destruct (timed_out _); [discriminate|].
    destruct (negb _); [discriminate|].
    intros [= <- _]. simpl. unfold parse_stats_from_merge_log.
    destruct (merge_log_coverage _).
    rewrite !lookup_insert_ne by assumption. apply lookup_empty.
Qed.

(** The run of [_merge_new_units], spelled out. *)
Lemma merge_new_units_eq target_path corpus_dir new_corpus_dir
    fuzz_corpus_dirs arguments (stat_overrides : stats_map) (s : State) :
  _merge_new_units target_path corpus_dir new_corpus_dir fuzz_corpus_dirs
    arguments stat_overrides s =
  if (get_directory_file_count new_corpus_dir (world s) =? 0)%nat then
    (Ok (<["new_units_added" := VInt 0]> stat_overrides),
     advance s (world s)
       [EvLog Info "Skipped corpus merge since no new units added by fuzzing."])
  else
    let merge_corpus :=
      (create_temp_fuzzing_dir "merge-corpus" (world s)).1 in
    let old_corpus_len :=
      get_directory_file_count corpus_dir (world (merge_back_start s)) in
    match merge_back_run target_path corpus_dir new_corpus_dir
            fuzz_corpus_dirs arguments s with
    | (Ok result, s') =>
        let w := move_mergeable_units merge_corpus corpus_dir (world s') in
        let new_units_added :=
          (Z.of_nat (get_directory_file_count corpus_dir w)
           - Z.of_nat old_corpus_len)%Z in
        (Ok (<["new_units_added" := VInt new_units_added]>
               (dict_update stat_overrides (stats result))),
         advance s' w
           [EvLog Info (if (new_units_added =? 0)%Z
                        then "No new units found."
                        else "New units added to corpus.");
            EvLog Info "Stats calculated.";
            EvMoveMergeableUnits merge_corpus corpus_dir])
    | (Raise e, s') =>
        if is_merge_failure e then
          (Ok (<["new_units_added" := VInt 0]> stat_overrides),
           advance s' (world s')
             [EvLog Info "No new units found.";
              EvLog Info "Stats calculated.";
              EvLog Warning "Merge failed."])
        else (Raise e, s')
    end.
Proof.
  unfold _merge_new_units, merge_back_run, merge_back_start, merge_dirs_of,
    _create_merge_corpus_dir.
  unfold mbind at 1, M_bind at 1, ask at 1. simpl.
  destruct (get_directory_file_count new_corpus_dir (world s) =? 0)%nat;
    [reflexivity|].
  unfold mbind, M_bind, ask, call, try_except_merge_failure, act, log, emit,
    mret, M_ret. simpl.
  destruct (create_temp_fuzzing_dir "merge-corpus" (world s)) as [dir w].
  simpl. unfold advance. simpl.
  destruct (_minimize_corpus_two_step _ _ _ _ _ _ _ _) as [[result|e] s'];
    simpl.
  - destruct (_ =? 0)%Z; reflexivity.
  - destruct (is_merge_failure e); reflexivity.
Qed.


(** ** The fuzz phase *)

(** The run of [fuzz], spelled out: the division by the time allowed is
    the only step of its own that can raise. *)
Lemma fuzz_eq target_path options reproducers_dir max_time (s : State) :
  let fuzz_result :=
    (fuzz_run target_path options reproducers_dir max_time s).1 in
  let st := fuzz_classified target_path options reproducers_dir max_time s in
  let finish (parsed_stats : stats_map) (s' : State) :=
    (Ok (mkFuzzResult (join LF (splitlines (output fuzz_result)))
           (command fuzz_result)
           (crashes_of options fuzz_result
              (crash_path_of target_path options reproducers_dir max_time s))
           parsed_stats (time_executed fuzz_result)
           (Some (timed_out fuzz_result))),
     s') in
  fuzz target_path options reproducers_dir max_time s =
  if Qeq_bool max_time 0 then (Raise ZeroDivisionError, st)
  else
    match (fuzz_setup target_path options s).1 with
    | Some new_corpus_dir =>
        match _merge_new_units target_path (corpus_dir options) new_corpus_dir
                (fuzz_corpus_dirs options) (non_fuzz_arguments_of options)
                (fuzz_stats options max_time fuzz_result) st with
        | (Ok parsed_stats, s') => finish parsed_stats s'
        | (Raise e, s') => (Raise e, s')
        end
    | None => finish (fuzz_stats options max_time fuzz_result) st
    end.
Proof.
  unfold fuzz, fuzz_classified, crash_path_of, fuzz_run, fuzz_call_of,
    fuzz_setup, fuzz_stats, crashes_of, non_fuzz_arguments_of,
    needs_empty_testcase, empty_testcase_path, _create_empty_testcase_file,
    fuzzing_time_percent_of.
  unfold mbind, M_bind, mret, M_ret, act, ask, call, log, emit, raise, advance.
  simpl.
  destruct (merge_back_new_testcases options) eqn:Hback; simpl.
  - destruct (create_temp_fuzzing_dir "new" _) as [new_dir w0]. simpl.
    destruct (runner_fuzz _ _) as [fuzz_result w] eqn:Hrun. simpl.
    set (cond := negb _ && not_in_noncrash_return_codes _ || _).
    destruct (DICT_PARSING_FAILED_REGEX_search _); simpl;
      [|destruct (negb (use_minijail w) && _); simpl];
      (destruct cond; simpl;
       [destruct (mkstemp_name reproducers_dir w) as [name w']; simpl|];
       (destruct (Qeq_bool max_time 0); simpl; [reflexivity|];
        destruct (_merge_new_units _ _ _ _ _ _ _) as [[?|?] ?];
        reflexivity)).
  - destruct (runner_fuzz _ _) as [fuzz_result w] eqn:Hrun. simpl.
    set (cond := negb _ && not_in_noncrash_return_codes _ || _).
    destruct (DICT_PARSING_FAILED_REGEX_search _); simpl;
      [|destruct (negb (use_minijail w) && _); simpl];
      (destruct cond; simpl;
       [destruct (mkstemp_name reproducers_dir w) as [name w']; simpl|];
       (destruct (Qeq_bool max_time 0); reflexivity)).
Qed.


(** ** No empty testcase file is made by a merge *)

Lemma empty_testcase_files_app (t1 t2 : list event) :
  empty_testcase_files (t1 ++ t2) =
  empty_testcase_files t1 ++ empty_testcase_files t2.
Proof.
  induction t1 as [|ev t1 IH]; [reflexivity|].
  destruct ev; simpl; rewrite IH; reflexivity.
Qed.

Lemma minimize_corpus_quiet target_path arguments input_dirs output_dir
    reproducers_dir max_time (s : State) out s' :
  minimize_corpus target_path arguments input_dirs output_dir reproducers_dir
    max_time s = (out, s') →
  empty_testcase_files (trace s') = empty_testcase_files (trace s).
Proof.
  rewrite minimize_corpus_eq.
  destruct (timed_out _); [|destruct (negb _)];
    intros [= _ <-]; simpl; apply merge_done_empty_testcase_files.
Qed.

Lemma two_step_quiet target_path arguments existing_corpus_dirs
    new_corpus_dir output_corpus_dir reproducers_dir max_time (s : State)
    out s' :
  _minimize_corpus_two_step target_path arguments existing_corpus_dirs
    new_corpus_dir output_corpus_dir reproducers_dir max_time s = (out, s') →
  empty_testcase_files (trace s') = empty_testcase_files (trace s).
Proof.
  destruct (multistep_merge_supported target_path (world s)) eqn:Hprobe.
  - rewrite two_step_supported_eq by assumption.
    destruct (minimize_corpus _ _ _ _ _ _ _) as [[step_1|e1] st1] eqn:Hstep1.
    + apply minimize_corpus_quiet in Hstep1.
      rewrite two_step_start_empty_testcase_files in Hstep1.
      destruct (Qle_bool _ _).
      { intros [= _ <-]. simpl.
        rewrite merge_done_empty_testcase_files.
        apply two_step_start_empty_testcase_files. }
      destruct (minimize_corpus _ _ _ _ _ _ _) as [[step_2|e2] st2] eqn:Hstep2.
      * repeat destruct (merge_log_coverage _).
        intros [= _ <-]. simpl.
        rewrite empty_testcase_files_app.
        rewrite merge_done_empty_testcase_files. simpl.
        rewrite merge_done_empty_testcase_files.
        rewrite two_step_start_empty_testcase_files.
        destruct (_ || _); reflexivity.
      * apply minimize_corpus_quiet in Hstep2. simpl in Hstep2.
        rewrite merge_done_empty_testcase_files in Hstep2.
        rewrite two_step_start_empty_testcase_files in Hstep2.
        intros [= _ <-]. exact Hstep2.
    + apply minimize_corpus_quiet in Hstep1.
      rewrite two_step_start_empty_testcase_files in Hstep1.
      intros [= _ <-]. exact Hstep1.
  - rewrite two_step_unsupported_eq by assumption.
    intros Hrun. apply minimize_corpus_quiet in Hrun. exact Hrun.
Qed.

(** [_merge_new_units] returns: it raises nothing.  It adds
    [new_units_added], leaves every statistic that is no statistic of a
    merge as it was, and makes no empty testcase file. *)
Lemma merge_new_units_returns target_path corpus_dir new_corpus_dir
    fuzz_corpus_dirs arguments (stat_overrides : stats_map) (s : State) :
  ∃ stat_overrides' s',
    _merge_new_units target_path corpus_dir new_corpus_dir fuzz_corpus_dirs
      arguments stat_overrides s = (Ok stat_overrides', s')
    ∧ is_Some (stat_overrides' !! "new_units_added")
    ∧ (∀ key, key ≠ "new_units_added" → key ∉ merge_stat_names →
              stat_overrides' !! key = stat_overrides !! key)
    ∧ empty_testcase_files (trace s') = empty_testcase_files (trace s).
Proof.
  rewrite merge_new_units_eq.
  destruct (_ =? 0)%nat.
  { eexists _, _. split; [reflexivity|]. split; [|split].
    - rewrite lookup_insert_eq. eauto.
    - intros key Hkey _. apply lookup_insert_ne. congruence.
    - reflexivity. }
  simpl.
  destruct (merge_back_run _ _ _ _ _ _) as [[result|e] st] eqn:Hrun;
    unfold merge_back_run in Hrun.
  - eexists _, _. split; [reflexivity|]. split; [|split].
    + rewrite lookup_insert_eq. eauto.
    + intros key Hkey Hnames. rewrite lookup_insert_ne by congruence.
      unfold dict_update.
      apply lookup_union_r.
      eapply two_step_stat_names; eassumption.
    + simpl. apply two_step_quiet in Hrun. rewrite Hrun.
      unfold merge_back_start.
      destruct (create_temp_fuzzing_dir _ _); reflexivity.
  - rewrite (two_step_raises_merge_failure _ _ _ _ _ _ _ _ _ _ Hrun).
    eexists _, _. split; [reflexivity|]. split; [|split].
    + rewrite lookup_insert_eq. eauto.
    + intros key Hkey _. apply lookup_insert_ne. congruence.
    + simpl. apply two_step_quiet in Hrun. rewrite Hrun.
      unfold merge_back_start.
      destruct (create_temp_fuzzing_dir _ _); reflexivity.
Qed.


(** ** Merge-back in a fuzz session *)

(** C7 (no new units, no merge).  When the directory of new units holds
    no file, [_merge_new_units] records [new_units_added = 0] and does
    nothing but log one message: the world is as it was and the runner's
    merge is not called. *)
Theorem merge_new_units_skips_empty target_path corpus_dir new_corpus_dir
    fuzz_corpus_dirs arguments (stat_overrides : stats_map) (s : State) :
  get_directory_file_count new_corpus_dir (world s) = 0%nat →
  ∃ stat_overrides' s',
    _merge_new_units target_path corpus_dir new_corpus_dir fuzz_corpus_dirs
      arguments stat_overrides s = (Ok stat_overrides', s')
    ∧ stat_overrides' !! "new_units_added" = Some (VInt 0)
    ∧ trace s' =
      EvLog Info "Skipped corpus merge since no new units added by fuzzing."
      :: trace s
    ∧ merge_calls (trace s') = merge_calls (trace s)
    ∧ world s' = world s.
Proof.
  intros Hcount. rewrite merge_new_units_eq, Hcount. simpl.
  eexists _, _. split; [reflexivity|].
  split; [apply lookup_insert_eq|]. repeat split.
Qed.

(** A merge failure in [_merge_new_units]: it is caught, a warning is
    logged, and [new_units_added = 0] is recorded in the mapping, which is
    otherwise as it was. *)
Lemma merge_new_units_failure target_path corpus_dir new_corpus_dir
    fuzz_corpus_dirs arguments (stat_overrides : stats_map) (s : State) e s' :
  get_directory_file_count new_corpus_dir (world s) ≠ 0%nat →
  merge_back_run target_path corpus_dir new_corpus_dir fuzz_corpus_dirs
    arguments s = (Raise e, s') →
  is_merge_failure e = true →
  ∃ s'',
    _merge_new_units target_path corpus_dir new_corpus_dir fuzz_corpus_dirs
      arguments stat_overrides s =
    (Ok (<["new_units_added" := VInt 0]> stat_overrides), s'')
    ∧ warnings (trace s'') = "Merge failed." :: warnings (trace s').
Proof.
  intros Hcount Hrun Hfailure.
  rewrite merge_new_units_eq.
  apply Nat.eqb_neq in Hcount. rewrite Hcount. simpl.
  rewrite Hrun, Hfailure. eexists. split; reflexivity.
Qed.

(** C6 (a failed merge does not fail the session).  In a fuzz session
    that merges new units back, let the two-step merge of the merge-back
    raise [MergeError] or [TimeoutError].  Then [_merge_new_units]
    returns, having logged the warning and recorded
    [new_units_added = 0], and [fuzz] returns a result whose statistics
    are those of the fuzz run with [new_units_added = 0].  (A session
    reaches its merge-back when the time allowed is not zero.) *)
Theorem merge_failure_contained target_path options reproducers_dir max_time
    (s : State) new_corpus_dir e s' :
  let st := fuzz_classified target_path options reproducers_dir max_time s in
  let parsed_stats :=
    fuzz_stats options max_time
      (fuzz_run target_path options reproducers_dir max_time s).1 in
  Qeq_bool max_time 0 = false →
  (fuzz_setup target_path options s).1 = Some new_corpus_dir →
  get_directory_file_count new_corpus_dir (world st) ≠ 0%nat →
  merge_back_run target_path (corpus_dir options) new_corpus_dir
    (fuzz_corpus_dirs options) (non_fuzz_arguments_of options) st
  = (Raise e, s') →
  is_merge_failure e = true →
  (∃ st',
     _merge_new_units target_path (corpus_dir options) new_corpus_dir
       (fuzz_corpus_dirs options) (non_fuzz_arguments_of options)
       parsed_stats st =
     (Ok (<["new_units_added" := VInt 0]> parsed_stats), st')
     ∧ warnings (trace st') = "Merge failed." :: warnings (trace s'))
  ∧ ∃ r s'',
      fuzz target_path options reproducers_dir max_time s = (Ok r, s'')
      ∧ stats r = <["new_units_added" := VInt 0]> parsed_stats
      ∧ stats r !! "new_units_added" = Some (VInt 0)
      ∧ warnings (trace s'') = "Merge failed." :: warnings (trace s').
Proof.
  intros st parsed_stats Hmax Hsetup Hcount Hrun Hfailure.
  destruct (merge_new_units_failure _ _ _ _ _ parsed_stats _ _ _
              Hcount Hrun Hfailure) as [st' [Hmerge Hwarn]].
  split; [exists st'; split; assumption|].
  rewrite fuzz_eq, Hmax, Hsetup. fold st parsed_stats. rewrite Hmerge.
  eexists _, _. split; [reflexivity|]. simpl.
  split; [reflexivity|]. split; [apply lookup_insert_eq | exact Hwarn].
Qed.

(** A fuzz session raises only when the time allowed is zero: the
    division raises [ZeroDivisionError], before any merge. *)
Lemma fuzz_raises target_path options reproducers_dir max_time (s : State)
    e s' :
  fuzz target_path options reproducers_dir max_time s = (Raise e, s') →
  e = ZeroDivisionError ∧ Qeq_bool max_time 0 = true
  ∧ merge_calls (trace s') = merge_calls (trace s).
Proof.
  rewrite fuzz_eq.
  destruct (Qeq_bool max_time 0).
  - intros [= <- <-]. split; [reflexivity|]. split; [reflexivity|].
    unfold fuzz_classified, fuzz_setup.
    destruct (fuzz_run _ _ _ _ _) as [fuzz_result w].
    destruct (merge_back_new_testcases options);
      [destruct (create_temp_fuzzing_dir _ _)|];
      (destruct (needs_empty_testcase _ _); simpl;
       rewrite ?merge_calls_app;
       (destruct (DICT_PARSING_FAILED_REGEX_search _);
        [|destruct (negb _ && _)]; reflexivity)).
  - destruct ((fuzz_setup target_path options s).1) as [new_dir|];
      [|discriminate].
    destruct (merge_new_units_returns target_path (corpus_dir options)
                new_dir (fuzz_corpus_dirs options)
                (non_fuzz_arguments_of options)
                (fuzz_stats options max_time
                   (fuzz_run target_path options reproducers_dir max_time s).1)
                (fuzz_classified target_path options reproducers_dir
                   max_time s))
      as [stat' [st' [Hmerge _]]].
    rewrite Hmerge. discriminate.
Qed.

(** A fuzz session returns when the time allowed is not zero. *)
Lemma fuzz_returns target_path options reproducers_dir max_time (s : State) :
  Qeq_bool max_time 0 = false →
  ∃ r s', fuzz target_path options reproducers_dir max_time s = (Ok r, s').
Proof.
  intros Hmax.
  destruct (fuzz target_path options reproducers_dir max_time s)
    as [[r|e] s'] eqn:Hfuzz; [eauto|].
  apply fuzz_raises in Hfuzz as [_ [Hzero _]]. congruence.
Qed.


(** ** The crash path of a fuzz phase *)

Lemma append_empty (a b : string) :
  (a ++ b)%string = EmptyString → b = EmptyString.
Proof. destruct a; [auto | discriminate]. Qed.

Lemma path_join_nonempty (a b : string) :
  b ≠ EmptyString → path_join a b ≠ EmptyString.
Proof.
  intros Hb. unfold path_join.
  destruct (String.prefix "/" b); [assumption|].
  destruct (_ || _); intros Hjoin; apply append_empty in Hjoin.
  - contradiction.
  - discriminate.
Qed.

Lemma empty_testcase_path_truthy reproducers_dir (w : W) :
  truthy (Some (empty_testcase_path reproducers_dir w)) = true.
Proof.
  unfold truthy, empty_testcase_path.
  destruct (String.eqb _ _) eqn:Heq; [|reflexivity].
  apply String.eqb_eq in Heq.
  apply path_join_nonempty in Heq; [contradiction | discriminate].
Qed.

(** C5, as the code has it.  In a fuzz phase (the time allowed not being
    zero) an empty testcase file is made in the reproducers directory
    exactly when no crash path was parsed from the output and the exit
    code is outside the non-crash codes, or the marker of a kernel panic
    is in the log.  The file made is then the crash path of the one
    crash reported, also when a path was parsed.  Otherwise the parsed
    path, if there is one, is the path of the one crash reported, and no
    crash is reported if there is none. *)
Theorem fuzz_crash_path target_path options reproducers_dir max_time
    (s : State) :
  let fuzz_result :=
    (fuzz_run target_path options reproducers_dir max_time s).1 in
  let w := (fuzz_run target_path options reproducers_dir max_time s).2 in
  let log_lines := splitlines (output fuzz_result) in
  let parsed := get_testcase_path target_path log_lines in
  let synthesized :=
    negb (truthy parsed)
    && not_in_noncrash_return_codes (return_code fuzz_result)
    || _fuzz_output_contains_trusty_kernel_panic log_lines in
  let placeholder := empty_testcase_path reproducers_dir w in
  Qeq_bool max_time 0 = false →
  ∃ r s',
    fuzz target_path options reproducers_dir max_time s = (Ok r, s')
    ∧ empty_testcase_files (trace s') =
      (if synthesized then [placeholder] else [])
      ++ empty_testcase_files (trace s)
    ∧ input_path <$> crashes r =
      (if synthesized then [placeholder]
       else match parsed with
            | Some path => if truthy parsed then [path] else []
            | None => []
            end).
Proof.
  intros fuzz_result w log_lines parsed synthesized placeholder Hmax.
  assert (Hclassified :
    empty_testcase_files
      (trace (fuzz_classified target_path options reproducers_dir max_time s))
    = (if synthesized then [placeholder] else [])
      ++ empty_testcase_files (trace s)).
  { unfold fuzz_classified, synthesized, placeholder, parsed, log_lines,
      fuzz_result, w, fuzz_setup, needs_empty_testcase.
    destruct (fuzz_run _ _ _ _ _) as [res w']. simpl.
    destruct (merge_back_new_testcases options);
      [destruct (create_temp_fuzzing_dir _ _)|];
      (destruct (_ && _ || _); simpl;
       rewrite ?empty_testcase_files_app;
       (destruct (DICT_PARSING_FAILED_REGEX_search _);
        [|destruct (negb _ && _)]; reflexivity)). }
  assert (Hcrashes :
    input_path <$>
      crashes_of options fuzz_result
        (crash_path_of target_path options reproducers_dir max_time s)
    = (if synthesized then [placeholder]
       else match parsed with
            | Some path => if truthy parsed then [path] else []
            | None => []
            end)).
  { unfold crash_path_of, synthesized, placeholder, parsed, log_lines,
      fuzz_result, w, needs_empty_testcase, crashes_of.
    destruct (fuzz_run _ _ _ _ _) as [res w']. simpl.
    destruct (_ && _ || _).
    - rewrite empty_testcase_path_truthy. reflexivity.
    - destruct (get_testcase_path _ _) as [path|]; [|reflexivity].
      destruct (truthy (Some path)); reflexivity. }
  rewrite fuzz_eq, Hmax. fold fuzz_result.
  destruct ((fuzz_setup target_path options s).1) as [new_dir|].
  - destruct (merge_new_units_returns target_path (corpus_dir options)
                new_dir (fuzz_corpus_dirs options)
                (non_fuzz_arguments_of options)
                (fuzz_stats options max_time fuzz_result)
                (fuzz_classified target_path options reproducers_dir
                   max_time s))
      as [stat' [st' [Hmerge [_ [_ Hquiet]]]]].
    rewrite Hmerge. eexists _, _. split; [reflexivity|].
    split; [rewrite Hquiet; exact Hclassified | exact Hcrashes].
  - eexists _, _. split; [reflexivity|].
    split; [exact Hclassified | exact Hcrashes].
Qed.


(** ** The timing statistics of a fuzz phase *)

Lemma append_cons (c : ascii) (a b : string) :
  (String c a ++ b)%string = String c (a ++ b)%string.
Proof. reflexivity. Qed.

Lemma prefix_append (p s : string) : String.prefix p (p ++ s) = true.
Proof.
  induction p as [|c p IH].
  - destruct s; reflexivity.
  - rewrite append_cons. simpl.
    destruct (ascii_dec c c); [exact IH | contradiction].
Qed.

Lemma split_at_equals_spec (s name value : string) :
  FuzzerArguments.split_at_equals s = Some (name, value) →
  s = (name ++ "=" ++ value)%string.
Proof.
  revert name. induction s as [|c s IH]; intros name; simpl; [discriminate|].
  destruct (Ascii.eqb c "=") eqn:Hc.
  - apply Ascii.eqb_eq in Hc. intros [= <- <-]. subst c. reflexivity.
  - destruct (FuzzerArguments.split_at_equals s) as [[n v]|]; [|discriminate].
    intros [= <- <-]. rewrite append_cons. f_equal. apply IH. reflexivity.
Qed.

Lemma append_assoc (a b c : string) :
  ((a ++ b) ++ c)%string = (a ++ b ++ c)%string.
Proof.
  induction a as [|x a IH]; [reflexivity|].
  rewrite !append_cons. f_equal. exact IH.
Qed.

(** An argument that parses as the flag [name] is of the form
    [-name=...]. *)
Lemma parse_flag_is_flag (arg name value : string) :
  FuzzerArguments.parse_flag arg = Some (name, value) →
  is_flag name arg = true.
Proof.
  destruct arg as [|c rest]; simpl; [discriminate|].
  destruct (Ascii.eqb c "-") eqn:Hc; [|discriminate].
  apply Ascii.eqb_eq in Hc. subst c.
  intros Hsplit. apply split_at_equals_spec in Hsplit. subst rest.
  unfold is_flag.
  change (String "-" (name ++ "=" ++ value))%string
    with ("-" ++ name ++ "=" ++ value)%string.
  replace ("-" ++ name ++ "=" ++ value)%string
    with (("-" ++ name ++ "=") ++ value)%string.
  - apply prefix_append.
  - rewrite !append_assoc. reflexivity.
Qed.

Lemma lookup_set (flags : FuzzerArguments.t) (key value key' : string) :
  FuzzerArguments.lookup (FuzzerArguments.set flags key value) key' =
  if String.eqb key key' then Some value
  else FuzzerArguments.lookup flags key'.
Proof.
  induction flags as [|[k v] flags IH]; simpl.
  - reflexivity.
  - destruct (String.eqb k key) eqn:Hk; simpl.
    + apply String.eqb_eq in Hk. subst k.
      destruct (String.eqb key key'); reflexivity.
    + rewrite IH.
      destruct (String.eqb k key') eqn:Hk'; [|reflexivity].
      apply String.eqb_eq in Hk'. subst k.
      rewrite String.eqb_sym, Hk. reflexivity.
Qed.

(** Without an argument of the form [-name=...] the flags have no
    [name]. *)
Lemma from_list_lookup_none (args : list string) (name : string) :
  existsb (is_flag name) args = false →
  FuzzerArguments.lookup (FuzzerArguments.from_list args) name = None.
Proof.
  unfold FuzzerArguments.from_list.
  assert (Hgen : ∀ flags,
    FuzzerArguments.lookup flags name = None →
    existsb (is_flag name) args = false →
    FuzzerArguments.lookup
      (fold_left (λ flags arg,
                    match FuzzerArguments.parse_flag arg with
                    | Some (n, v) => FuzzerArguments.set flags n v
                    | None => flags
                    end) args flags) name = None).
  { induction args as [|arg args IH]; intros flags Hflags Hargs; simpl;
      [assumption|].
    simpl in Hargs. apply orb_false_iff in Hargs as [Harg Hargs].
    apply IH; [|assumption].
    destruct (FuzzerArguments.parse_flag arg) as [[n v]|] eqn:Hparse;
      [|assumption].
    rewrite lookup_set.
    destruct (String.eqb n name) eqn:Hn; [|assumption].
    apply String.eqb_eq in Hn. subst n.
    apply parse_flag_is_flag in Hparse. congruence. }
  intros Hargs. apply Hgen; [reflexivity | assumption].
Qed.

(** C10 (timing statistics).  When no argument of the options carries
    the timeout flag, the statistics of every result [fuzz] returns have
    [timeout_limit] with the value [None], and [expected_duration],
    [actual_duration] and [fuzzing_time_percent] with numbers:
    [actual_duration] is the runner's elapsed time truncated to an
    integer.  And [fuzz] returns a result when the time allowed is not
    zero. *)
Theorem fuzz_timing_stats target_path options reproducers_dir max_time
    (s : State) :
  existsb (is_flag TIMEOUT_FLAGNAME) (arguments options) = false →
  (∀ r s',
     fuzz target_path options reproducers_dir max_time s = (Ok r, s') →
     stats r !! "timeout_limit" = Some VNone
     ∧ stats r !! "expected_duration" = Some (VInt (py_int max_time))
     ∧ stats r !! "actual_duration" =
       Some (VInt (py_int (time_executed
                             (fuzz_run target_path options reproducers_dir
                                max_time s).1)))
     ∧ ∃ percent, stats r !! "fuzzing_time_percent" = Some (VFloat percent))
  ∧ (Qeq_bool max_time 0 = false →
     ∃ r s', fuzz target_path options reproducers_dir max_time s = (Ok r, s')).
Proof.
  intros Hflag. split; [|apply fuzz_returns].
  intros r s'.
  set (fuzz_result :=
         (fuzz_run target_path options reproducers_dir max_time s).1).
  assert (Hstats :
    fuzz_stats options max_time fuzz_result !! "timeout_limit" = Some VNone
    ∧ fuzz_stats options max_time fuzz_result !! "expected_duration"
      = Some (VInt (py_int max_time))
    ∧ fuzz_stats options max_time fuzz_result !! "actual_duration"
      = Some (VInt (py_int (time_executed fuzz_result)))
    ∧ ∃ percent,
        fuzz_stats options max_time fuzz_result !! "fuzzing_time_percent"
        = Some (VFloat percent)).
  { unfold fuzz_stats, dict_update, FuzzerArguments.get_int.
    rewrite from_list_lookup_none by assumption.
    split; [|split; [|split; [|eexists]]];
      apply lookup_union_Some_l;
      repeat first [ rewrite lookup_insert_eq
                   | rewrite lookup_insert_ne by discriminate ];
      reflexivity. }
  rewrite fuzz_eq. fold fuzz_result.
  destruct (Qeq_bool max_time 0); [discriminate|].
  destruct ((fuzz_setup target_path options s).1) as [new_dir|].
  - destruct (merge_new_units_returns target_path (corpus_dir options)
                new_dir (fuzz_corpus_dirs options)
                (non_fuzz_arguments_of options)
                (fuzz_stats options max_time fuzz_result)
                (fuzz_classified target_path options reproducers_dir
                   max_time s))
      as [stat' [st' [Hmerge [_ [Hkeep _]]]]].
    rewrite Hmerge. intros [= <- _]. simpl.
    assert (Hnames : ∀ key,
      key ∈ ["timeout_limit"; "expected_duration"; "actual_duration";
             "fuzzing_time_percent"] →
      key ≠ "new_units_added" ∧ key ∉ merge_stat_names).
    { intros key Hkey. unfold merge_stat_names.
      repeat (apply elem_of_cons in Hkey as [->|Hkey]);
        try (split; [discriminate|];
             rewrite !not_elem_of_cons; repeat split;
             first [discriminate | apply not_elem_of_nil]).
      apply elem_of_nil in Hkey. contradiction. }
    rewrite !Hkeep
      by (apply Hnames;
          repeat first [ apply list_elem_of_here
                       | apply list_elem_of_further ]).
    exact Hstats.
  - intros [= <- _]. simpl. exact Hstats.
Qed.


(** ** The environment of a prepared session *)

(** After the loop of [prepare] a name has the value the strategies gave
    it, and the value of the target's options only when the strategies
    gave it none. *)
Lemma update_extra_env_lookup (strategy_extra_env extra_env : gmap string string)
    (env_var_name : string) :
  update_extra_env strategy_extra_env extra_env !! env_var_name =
  match strategy_extra_env !! env_var_name with
  | Some value => Some value
  | None => extra_env !! env_var_name
  end.
Proof.
  unfold update_extra_env.
  apply (map_fold_weak_ind
           (λ acc m, acc !! env_var_name =
                     match strategy_extra_env !! env_var_name with
                     | Some value => Some value
                     | None => m !! env_var_name
                     end)).
  - rewrite lookup_empty. destruct (_ !! _); reflexivity.
  - intros i x m acc Hfresh IH.
    destruct (acc !! i) eqn:Hi.
    + rewrite IH.
      destruct (strategy_extra_env !! env_var_name); [reflexivity|].
      destruct (decide (i = env_var_name)) as [->|Hne].
      * rewrite IH in Hi. destruct (strategy_extra_env !! env_var_name);
          congruence.
      * rewrite lookup_insert_ne by assumption. reflexivity.
    + destruct (decide (i = env_var_name)) as [->|Hne].
      * rewrite !lookup_insert_eq. rewrite IH in Hi.
        destruct (strategy_extra_env !! env_var_name); congruence.
      * rewrite !lookup_insert_ne by assumption. exact IH.
Qed.

(** [prepare] returns, and the environment of its options is that of the
    strategies, updated by the loop. *)
Lemma prepare_extra_env corpus_dir target_path build_dir (s : State) :
  ∃ options s',
    prepare corpus_dir target_path build_dir s = (Ok options, s')
    ∧ extra_env options =
      match get_extra_env target_path (world s) with
      | Some extra_env =>
          update_extra_env
            (si_extra_env (strategy_info_of corpus_dir target_path s))
            extra_env
      | None => si_extra_env (strategy_info_of corpus_dir target_path s)
      end.
Proof.
  unfold prepare, strategy_info_of.
  unfold mbind, M_bind, mret, M_ret, act, ask, call, log, emit. simpl.
  destruct (do_strategies s); simpl;
    [destruct (generate_weighted_strategy_pool name (world s)) as [pool w0]|];
    simpl;
    (destruct (pick_strategies _ _ _ _ _) as [info w1]; simpl;
     destruct (bool_decide _); simpl;
     (destruct (random_choice_subset_size _) as [size w2]; simpl;
      destruct (do_strategy _ _ && _); simpl;
      [destruct (create_temp_fuzzing_dir "subset" _) as [dir w3]; simpl|];
      (destruct (truthy (FuzzerArguments.get_str _ _)); simpl;
       [destruct (path_exists _ _); simpl|];
       (destruct (truthy (FuzzerArguments.get_str _ _)); simpl;
        [|destruct (path_exists _ _); simpl];
        (eexists _, _; split; reflexivity))))).
Qed.

(** C9, as the code has it.  [prepare] returns options in whose
    environment a name defined by the strategies has the value the
    strategies gave it, whether or not the target's options define it
    too; a name the strategies do not define has the value of the
    target's options, if they define it. *)
Theorem prepare_keeps_strategy_env corpus_dir target_path build_dir
    (s : State) :
  ∃ options s',
    prepare corpus_dir target_path build_dir s = (Ok options, s')
    ∧ ∀ env_var_name,
        extra_env options !! env_var_name =
        match si_extra_env (strategy_info_of corpus_dir target_path s)
              !! env_var_name with
        | Some value => Some value
        | None =>
            match get_extra_env target_path (world s) with
            | Some extra_env => extra_env !! env_var_name
            | None => None
            end
        end.
Proof.
  destruct (prepare_extra_env corpus_dir target_path build_dir s)
    as [options [s' [Hprepare Henv]]].
  exists options, s'. split; [assumption|].
  intros env_var_name. rewrite Henv.
  destruct (get_extra_env target_path (world s)) as [extra_env|].
  - apply update_extra_env_lookup.
  - destruct (_ !! _); reflexivity.
Qed.


End EngineProperties.

(** * More properties *)

Section SessionProperties.
Context {W : Type} {host : Host W} {runner : Runner W} {lf : Libfuzzer}
        {prep : Preparation W}.

(** ** What a merge leaves in the trace *)

Lemma grows_by_refl kind (s : @State W) : grows_by kind s s.
Proof. exists []. split; reflexivity. Qed.

Lemma grows_by_trans kind (s1 s2 s3 : @State W) :
  grows_by kind s1 s2 → grows_by kind s2 s3 → grows_by kind s1 s3.
Proof.
  intros [e1 [H1 F1]] [e2 [H2 F2]]. exists (e2 ++ e1). split.
  - rewrite H2, H1. apply app_assoc.
  - rewrite forallb_app, F1, F2. reflexivity.
Qed.

Lemma grows_by_advance kind (s : @State W) (w : W) (events : list event) :
  forallb kind events = true → grows_by kind s (advance s w events).
Proof. intros Hevents. exists events. split; [reflexivity | assumption]. Qed.

Lemma grows_by_weaken (kind kind' : event → bool) (s s' : @State W) :
  (∀ ev, kind ev = true → kind' ev = true) →
  grows_by kind s s' → grows_by kind' s s'.
Proof.
  intros Hweaker [events [Htrace Hkind]]. exists events.
  split; [assumption|].
  apply forallb_forall. intros ev Hev. apply Hweaker.
  revert ev Hev. apply forallb_forall. assumption.
Qed.

Lemma merge_step_is_merge_back (ev : event) :
  merge_step_event ev = true → merge_back_event ev = true.
Proof. unfold merge_back_event. intros ->. reflexivity. Qed.

Lemma merge_done_grows target_path arguments input_dirs output_dir
    reproducers_dir max_time (s : State) :
  grows_by merge_step_event s
    (merge_done target_path arguments input_dirs output_dir reproducers_dir
       max_time s).
Proof. eexists. split; reflexivity. Qed.

Lemma two_step_start_grows (s : @State W) :
  grows_by merge_step_event s (two_step_start s).
Proof.
  unfold two_step_start. destruct (create_temp_fuzzing_dir _ _) as [dir w].
  exists [EvCreateTempFuzzingDir "mcf_tmp_dir" dir]. split; reflexivity.
Qed.

(** Whatever [minimize_corpus] does is an event of a merge. *)
Lemma minimize_corpus_grows target_path arguments input_dirs output_dir
    reproducers_dir max_time (s : State) out s' :
  minimize_corpus target_path arguments input_dirs output_dir reproducers_dir
    max_time s = (out, s') →
  grows_by merge_step_event s s'.
Proof.
  rewrite minimize_corpus_eq.
  destruct (timed_out _); [|destruct (negb _)]; intros [= _ <-];
    try (eapply grows_by_trans;
         [apply merge_done_grows
         |apply grows_by_advance; reflexivity]).
  apply merge_done_grows.
Qed.

(** So is whatever [_minimize_corpus_two_step] does. *)
Lemma two_step_grows target_path arguments existing_corpus_dirs
    new_corpus_dir output_corpus_dir reproducers_dir max_time (s : State)
    out s' :
  _minimize_corpus_two_step target_path arguments existing_corpus_dirs
    new_corpus_dir output_corpus_dir reproducers_dir max_time s = (out, s') →
  grows_by merge_step_event s s'.
Proof.
  destruct (multistep_merge_supported target_path (world s)) eqn:Hprobe.
  - rewrite two_step_supported_eq by assumption.
    destruct (minimize_corpus _ _ _ _ _ _ _) as [[step_1|e1] st1] eqn:Hstep1;
      apply minimize_corpus_grows in Hstep1;
      pose proof (grows_by_trans _ _ _ _ (two_step_start_grows s)
                    Hstep1) as H1.
    + assert (H2 : grows_by merge_step_event s
        (advance
           (merge_done target_path arguments existing_corpus_dirs
              output_corpus_dir reproducers_dir max_time (two_step_start s))
           (recreate_directory output_corpus_dir
              (world (merge_done target_path arguments existing_corpus_dirs
                        output_corpus_dir reproducers_dir max_time
                        (two_step_start s))))
           [EvRecreateDirectory output_corpus_dir])).
      { eapply grows_by_trans; [apply two_step_start_grows|].
        eapply grows_by_trans; [apply merge_done_grows|].
        apply grows_by_advance. reflexivity. }
      destruct (Qle_bool _ _).
      { intros [= _ <-]. eapply grows_by_trans; [exact H2|].
        apply grows_by_advance. reflexivity. }
      destruct (minimize_corpus _ _ _ _ _ _ _) as [[step_2|e2] st2] eqn:Hstep2.
      * repeat destruct (merge_log_coverage _).
        intros [= _ <-].
        eapply grows_by_trans; [exact H2|].
        eapply grows_by_trans; [apply merge_done_grows|].
        eexists. split; [reflexivity|].
        destruct (_ || _); reflexivity.
      * apply minimize_corpus_grows in Hstep2.
        intros [= _ <-]. eapply grows_by_trans; eassumption.
    + intros [= _ <-]. exact H1.
  - rewrite two_step_unsupported_eq by assumption.
    intros Hrun. apply minimize_corpus_grows in Hrun.
    eapply grows_by_trans; [|exact Hrun].
    apply grows_by_advance. reflexivity.
Qed.

Lemma merge_back_start_grows (s : @State W) :
  grows_by merge_back_event s (merge_back_start s).
Proof.
  unfold merge_back_start. destruct (create_temp_fuzzing_dir _ _) as [dir w].
  apply grows_by_advance. reflexivity.
Qed.

Lemma merge_back_run_grows target_path corpus_dir new_corpus_dir
    fuzz_corpus_dirs arguments (s : State) out s' :
  merge_back_run target_path corpus_dir new_corpus_dir fuzz_corpus_dirs
    arguments s = (out, s') →
  grows_by merge_step_event (merge_back_start s) s'.
Proof. unfold merge_back_run. apply two_step_grows. Qed.

(** Whatever [_merge_new_units] does is an event of a merge-back. *)
Lemma merge_new_units_grows target_path corpus_dir new_corpus_dir
    fuzz_corpus_dirs arguments (stat_overrides : stats_map) (s : State)
    out s' :
  _merge_new_units target_path corpus_dir new_corpus_dir fuzz_corpus_dirs
    arguments stat_overrides s = (out, s') →
  grows_by merge_back_event s s'.
Proof.
  rewrite merge_new_units_eq.
  destruct (_ =? 0)%nat.
  { intros [= _ <-]. apply grows_by_advance. reflexivity. }
  simpl.
  destruct (merge_back_run _ _ _ _ _ _) as [[result|e] st] eqn:Hrun;
    apply merge_back_run_grows in Hrun;
    apply (grows_by_weaken _ _ _ _ merge_step_is_merge_back) in Hrun;
    pose proof (grows_by_trans _ _ _ _ (merge_back_start_grows s) Hrun)
      as Hst.
  - intros [= _ <-]. eapply grows_by_trans; [exact Hst|].
    apply grows_by_advance. destruct (_ =? 0)%Z; reflexivity.
  - destruct (is_merge_failure e); intros [= _ <-]; [|exact Hst].
    eapply grows_by_trans; [exact Hst|].
    apply grows_by_advance. reflexivity.
Qed.

(** ** The trace of a fuzz session *)

Lemma fuzz_classified_trace target_path options reproducers_dir max_time
    (s : State) :
  trace (fuzz_classified target_path options reproducers_dir max_time s) =
  fuzz_events target_path options reproducers_dir max_time s ++ trace s.
Proof.
  unfold fuzz_classified, fuzz_events, fuzz_error_events.
  destruct (fuzz_run _ _ _ _ _) as [fuzz_result w].
  unfold fuzz_setup.
  destruct (merge_back_new_testcases options);
    [destruct (create_temp_fuzzing_dir _ _)|];
    (destruct (needs_empty_testcase _ _); simpl;
     (destruct (DICT_PARSING_FAILED_REGEX_search _);
      [|destruct (negb _ && _)]; reflexivity)).
Qed.

(** A fuzz session leaves the events of the fuzz run and then those of
    the merge-back, if there is one. *)
Lemma fuzz_trace target_path options reproducers_dir max_time (s : State)
    out s' :
  fuzz target_path options reproducers_dir max_time s = (out, s') →
  ∃ merged,
    trace s' =
      merged ++ fuzz_events target_path options reproducers_dir max_time s
             ++ trace s
    ∧ forallb merge_back_event merged = true
    ∧ (merge_back_new_testcases options = false → merged = []).
Proof.
  rewrite fuzz_eq.
  pose proof (fuzz_classified_trace target_path options reproducers_dir
                max_time s) as Hclassified.
  destruct (Qeq_bool max_time 0).
  { intros [= _ <-]. exists []. repeat split. exact Hclassified. }
  destruct ((fuzz_setup target_path options s).1) as [new_dir|] eqn:Hsetup.
  - destruct (_merge_new_units _ _ _ _ _ _ _) as [[parsed_stats|e] st]
      eqn:Hmerge;
      apply merge_new_units_grows in Hmerge as [merged [Htrace Hkind]];
      intros [= _ <-]; exists merged;
      (split; [rewrite Htrace, Hclassified; reflexivity|]);
      (split; [assumption|]);
      intros Hback; unfold fuzz_setup in Hsetup; rewrite Hback in Hsetup;
      discriminate.
  - intros [= _ <-]. exists []. repeat split. exact Hclassified.
Qed.

Lemma fuzz_calls_app (t1 t2 : list event) :
  fuzz_calls (t1 ++ t2) = fuzz_calls t1 ++ fuzz_calls t2.
Proof.
  induction t1 as [|ev t1 IH]; [reflexivity|].
  destruct ev; simpl; rewrite IH; reflexivity.
Qed.

Lemma merge_back_no_fuzz_call (events : list event) :
  forallb merge_back_event events = true → fuzz_calls events = [].
Proof.
  induction events as [|ev events IH]; [reflexivity|].
  simpl. intros Hkind. apply andb_true_iff in Hkind as [Hev Hevents].
  destruct ev; try discriminate; simpl; auto.
Qed.

(** The call of the runner's fuzz is the one call a fuzz session adds. *)
Lemma fuzz_call_made target_path options reproducers_dir max_time (s : State)
    out s' :
  fuzz target_path options reproducers_dir max_time s = (out, s') →
  fuzz_calls (trace s')
  = fuzz_call_of target_path options reproducers_dir max_time s
    :: fuzz_calls (trace s).
Proof.
  intros Hfuzz.
  apply fuzz_trace in Hfuzz as [merged [Htrace [Hkind _]]].
  rewrite Htrace, !fuzz_calls_app.
  rewrite (merge_back_no_fuzz_call _ Hkind). simpl. f_equal.
  unfold fuzz_events, fuzz_error_events.
  destruct (fuzz_run _ _ _ _ _) as [fuzz_result w].
  destruct (needs_empty_testcase _ _);
    (destruct (DICT_PARSING_FAILED_REGEX_search _);
     [|destruct (negb _ && _)]);
    destruct ((fuzz_setup target_path options s).1); reflexivity.
Qed.

(** X4.  A fuzz session, whatever its outcome, calls the runner's fuzz
    once: on the target, with the time allowed as its timeout, the
    arguments and the environment of the options, the reproducers
    directory as artifact prefix, and the corpus directories of the
    options, after the directory for new units when they are merged
    back. *)
Theorem fuzz_runs_target_once target_path options reproducers_dir max_time
    (s : State) :
  ∃ call,
    fuzz_calls (trace (fuzz target_path options reproducers_dir max_time s).2)
    = call :: fuzz_calls (trace s)
    ∧ fz_target call = target_path
    ∧ fz_corpus_directories call =
      (if merge_back_new_testcases options
       then [(create_temp_fuzzing_dir "new"
                (set_sanitizer_options target_path (world s))).1]
       else [])
      ++ fuzz_corpus_dirs options
    ∧ fz_fuzz_timeout call = max_time
    ∧ fz_additional_args call = arguments options
    ∧ fz_artifact_prefix call = reproducers_dir
    ∧ fz_extra_env call = extra_env options.
Proof.
  destruct (fuzz target_path options reproducers_dir max_time s)
    as [out s'] eqn:Hfuzz.
  exists (fuzz_call_of target_path options reproducers_dir max_time s).
  split; [exact (fuzz_call_made _ _ _ _ _ _ _ Hfuzz)|].
  unfold fuzz_call_of, fuzz_setup. simpl.
  destruct (merge_back_new_testcases options);
    [destruct (create_temp_fuzzing_dir _ _)|]; repeat split.
Qed.

(** ** The error a fuzz session logs *)

Lemma merge_back_no_event (ev : event) (events : list event) :
  merge_back_event ev = false →
  forallb merge_back_event events = true → ev ∉ events.
Proof.
  intros Hev Hevents Hin.
  apply list_elem_of_In in Hin.
  pose proof (proj1 (forallb_forall _ _) Hevents ev Hin). congruence.
Qed.

(** X5.  The error a fuzz session logs for the run of the target.  It
    logs the dictionary error exactly when the output of the run has a
    match of the pattern; it logs the engine error exactly when there is
    no such match, minijail is not used and the exit code is that of a
    libFuzzer error.  So it logs at most one of the two. *)
Theorem fuzz_logs_one_error target_path options reproducers_dir max_time
    (s : State) :
  let fuzz_result :=
    (fuzz_run target_path options reproducers_dir max_time s).1 in
  let w := (fuzz_run target_path options reproducers_dir max_time s).2 in
  let dictionary := DICT_PARSING_FAILED_REGEX_search (output fuzz_result) in
  ∃ events,
    trace (fuzz target_path options reproducers_dir max_time s).2
    = events ++ trace s
    ∧ (EvLog Error "Dictionary parsing failed." ∈ events
       ↔ is_Some dictionary)
    ∧ (EvLog Error ENGINE_ERROR_MESSAGE ∈ events
       ↔ dictionary = None ∧ use_minijail w = false
         ∧ return_code fuzz_result = LIBFUZZER_ERROR_EXITCODE).
Proof.
  intros fuzz_result w dictionary.
  destruct (fuzz target_path options reproducers_dir max_time s)
    as [out s'] eqn:Hfuzz.
  apply fuzz_trace in Hfuzz as [merged [Htrace [Hkind _]]].
  exists (merged ++ fuzz_events target_path options reproducers_dir max_time s).
  split; [simpl; rewrite Htrace; apply app_assoc|].
  assert (Hfuzz_events :
    ∀ msg, EvLog Error msg
             ∈ fuzz_events target_path options reproducers_dir max_time s
           ↔ EvLog Error msg ∈ fuzz_error_events fuzz_result w).
  { intros msg. unfold fuzz_events, fuzz_result, w.
    destruct (fuzz_run _ _ _ _ _) as [res w']. simpl.
    rewrite !elem_of_app.
    split; [|tauto].
    intros [Hin|[Hin|Hin]]; [|assumption|].
    - destruct (needs_empty_testcase _ _);
        [apply list_elem_of_singleton in Hin; discriminate
        |apply elem_of_nil in Hin; contradiction].
    - apply elem_of_cons in Hin as [Hin|Hin]; [discriminate|].
      apply elem_of_app in Hin as [Hin|Hin].
      + destruct ((fuzz_setup target_path options s).1);
          [apply list_elem_of_singleton in Hin; discriminate
          |apply elem_of_nil in Hin; contradiction].
      + apply list_elem_of_singleton in Hin. discriminate. }
  split.
  - rewrite elem_of_app, Hfuzz_events.
    unfold fuzz_error_events. fold dictionary.
    split.
    + intros [Hin|Hin].
      * exfalso. revert Hin. apply merge_back_no_event; [reflexivity|exact Hkind].
      * destruct dictionary; [eauto|].
        destruct (negb _ && _);
          [apply list_elem_of_singleton in Hin; discriminate
          |apply elem_of_nil in Hin; contradiction].
    + intros [line Hline]. right. rewrite Hline. apply list_elem_of_here.
  - rewrite elem_of_app, Hfuzz_events.
    unfold fuzz_error_events. fold dictionary.
    split.
    + intros [Hin|Hin].
      * exfalso. revert Hin. apply merge_back_no_event; [reflexivity|exact Hkind].
      * destruct dictionary;
          [apply list_elem_of_singleton in Hin; discriminate|].
        destruct (use_minijail w); simpl in Hin;
          [apply elem_of_nil in Hin; contradiction|].
        destruct (return_code fuzz_result =? LIBFUZZER_ERROR_EXITCODE)%Z
          eqn:Hcode; [|apply elem_of_nil in Hin; contradiction].
        apply Z.eqb_eq in Hcode. auto.
    + intros [-> [-> Hcode]]. right. simpl.
      apply Z.eqb_eq in Hcode. rewrite Hcode. apply list_elem_of_here.
Qed.

(** ** What a fuzz session returns *)

(** X6.  The result of a fuzz session.  Its log is the lines of the
    runner's output joined by line feeds; its command, its elapsed time
    and its timeout flag are the runner's.  It reports at most one
    crash; the crash has a path that is not empty, the log of the
    session as its stack trace, the arguments of the options without the
    fuzzing arguments and with the timeout fixed for reproduction, and
    the elapsed time truncated to an integer. *)
Theorem fuzz_reports_one_crash target_path options reproducers_dir max_time
    (s : State) r s' :
  fuzz target_path options reproducers_dir max_time s = (Ok r, s') →
  let fuzz_result :=
    (fuzz_run target_path options reproducers_dir max_time s).1 in
  logs r = join LF (splitlines (output fuzz_result))
  ∧ fr_command r = command fuzz_result
  ∧ fr_time_executed r = time_executed fuzz_result
  ∧ fr_timed_out r = Some (timed_out fuzz_result)
  ∧ (length (crashes r) ≤ 1)%nat
  ∧ ∀ crash, crash ∈ crashes r →
      input_path crash ≠ ""
      ∧ stacktrace crash = logs r
      ∧ reproduce_args crash =
        fix_timeout_argument_for_reproduction
          (strip_fuzzing_arguments (arguments options) false)
      ∧ crash_time crash = py_int (time_executed fuzz_result).
Proof.
  intros Hfuzz fuzz_result.
  assert (Hshape : ∃ parsed_stats,
    r = mkFuzzResult (join LF (splitlines (output fuzz_result)))
          (command fuzz_result)
          (crashes_of options fuzz_result
             (crash_path_of target_path options reproducers_dir max_time s))
          parsed_stats (time_executed fuzz_result)
          (Some (timed_out fuzz_result))).
  { revert Hfuzz. rewrite fuzz_eq. fold fuzz_result.
    destruct (Qeq_bool max_time 0); [discriminate|].
    destruct ((fuzz_setup target_path options s).1) as [new_dir|].
    - destruct (_merge_new_units _ _ _ _ _ _ _) as [[parsed_stats|e] st];
        [|discriminate].
      intros [= <- _]. eauto.
    - intros [= <- _]. eauto. }
  destruct Hshape as [parsed_stats ->]. simpl.
  repeat (split; [reflexivity|]).
  unfold crashes_of.
  destruct (truthy _) eqn:Htruthy; [|split; [simpl; lia|]].
  - destruct (crash_path_of _ _ _ _ _) as [path|]; [|discriminate].
    split; [simpl; lia|].
    intros crash Hin. apply list_elem_of_singleton in Hin. subst crash. simpl.
    split; [|repeat split].
    intros ->. discriminate.
  - intros crash Hin. apply elem_of_nil in Hin. contradiction.
Qed.

(** ** The statistics of a fuzz session *)

Lemma not_elem_of_names (key : string) (names : list string) (name : string) :
  key ∉ names → name ∈ names → key ≠ name.
Proof. intros Hkey Hname ->. contradiction. Qed.

Ltac here := repeat first [ apply list_elem_of_here
                          | apply list_elem_of_further ].

Lemma fuzz_stats_lookup options max_time fuzz_result (key : string) :
  fuzz_stats options max_time fuzz_result !! key =
  if bool_decide (key ∈ timing_stat_names)
  then Some (if bool_decide (key = "timeout_limit") then
               match FuzzerArguments.get_int
                       (FuzzerArguments.from_list (arguments options))
                       TIMEOUT_FLAGNAME with
               | Some n => VInt n
               | None => VNone
               end
             else if bool_decide (key = "expected_duration") then
               VInt (py_int max_time)
             else if bool_decide (key = "actual_duration") then
               VInt (py_int (time_executed fuzz_result))
             else
               VFloat (inject_Z (100 * py_int (time_executed fuzz_result))
                       / max_time)%Q)
  else
    match parse_performance_features (splitlines (output fuzz_result))
            (strategies options) (arguments options) !! key with
    | Some value => Some value
    | None => parse_log_stats (splitlines (output fuzz_result)) !! key
    end.
Proof.
  unfold fuzz_stats, dict_update.
  destruct (bool_decide (key ∈ timing_stat_names)) eqn:Hkey.
  - apply bool_decide_eq_true in Hkey. unfold timing_stat_names in Hkey.
    apply lookup_union_Some_l.
    repeat (apply elem_of_cons in Hkey as [->|Hkey]);
      [| | | |apply elem_of_nil in Hkey; contradiction];
      repeat first [ rewrite lookup_insert_eq
                   | rewrite lookup_insert_ne by discriminate ];
      reflexivity.
  - apply bool_decide_eq_false in Hkey.
    rewrite lookup_union_r.
    + rewrite lookup_union. destruct (_ !! key), (_ !! key); reflexivity.
    + pose proof (not_elem_of_names _ _ "timeout_limit" Hkey ltac:(here)).
      pose proof (not_elem_of_names _ _ "expected_duration" Hkey ltac:(here)).
      pose proof (not_elem_of_names _ _ "actual_duration" Hkey ltac:(here)).
      pose proof (not_elem_of_names _ _ "fuzzing_time_percent" Hkey
                    ltac:(here)).
      rewrite !lookup_insert_ne by congruence. apply lookup_empty.
Qed.

(** What the merge-back leaves of the statistics of the run. *)
Lemma fuzz_stats_after_merge_back target_path options reproducers_dir max_time
    (s : State) r s' :
  fuzz target_path options reproducers_dir max_time s = (Ok r, s') →
  let fuzz_result :=
    (fuzz_run target_path options reproducers_dir max_time s).1 in
  (∀ key, key ≠ "new_units_added" → key ∉ merge_stat_names →
          stats r !! key = fuzz_stats options max_time fuzz_result !! key)
  ∧ (merge_back_new_testcases options = true →
     is_Some (stats r !! "new_units_added"))
  ∧ (merge_back_new_testcases options = false →
     stats r = fuzz_stats options max_time fuzz_result).
Proof.
  intros Hfuzz fuzz_result.
  revert Hfuzz. rewrite fuzz_eq. fold fuzz_result.
  destruct (Qeq_bool max_time 0); [discriminate|].
  destruct ((fuzz_setup target_path options s).1) as [new_dir|] eqn:Hsetup.
  - destruct (merge_new_units_returns target_path (corpus_dir options)
                new_dir (fuzz_corpus_dirs options)
                (non_fuzz_arguments_of options)
                (fuzz_stats options max_time fuzz_result)
                (fuzz_classified target_path options reproducers_dir
                   max_time s))
      as [stat' [st' [Hmerge [Hadded [Hkeep _]]]]].
    rewrite Hmerge. intros [= <- _]. simpl.
    split; [exact Hkeep|]. split; [intros _; exact Hadded|].
    intros Hback. unfold fuzz_setup in Hsetup. rewrite Hback in Hsetup.
    discriminate.
  - intros [= <- _]. simpl. split; [reflexivity|].
    split; [|reflexivity].
    intros Hback. unfold fuzz_setup in Hsetup. rewrite Hback in Hsetup.
    destruct (create_temp_fuzzing_dir _ _). discriminate.
Qed.

(** X7.  The statistics of the result of a fuzz session.  Every one of
    the four timing statistics is there, whatever the log of the run
    says.  A statistic of another name, unless it is [new_units_added]
    or a statistic of a merge, is the performance feature of that name,
    or else the statistic parsed from the log.  [new_units_added] is
    there when new units are merged back; when they are not, the
    statistics are those of the run alone. *)
Theorem fuzz_statistics target_path options reproducers_dir max_time
    (s : State) r s' :
  fuzz target_path options reproducers_dir max_time s = (Ok r, s') →
  let fuzz_result :=
    (fuzz_run target_path options reproducers_dir max_time s).1 in
  let log_lines := splitlines (output fuzz_result) in
  (∀ key, key ∈ timing_stat_names → is_Some (stats r !! key))
  ∧ (∀ key,
       key ∉ timing_stat_names → key ≠ "new_units_added" →
       key ∉ merge_stat_names →
       stats r !! key =
       match parse_performance_features log_lines (strategies options)
               (arguments options) !! key with
       | Some value => Some value
       | None => parse_log_stats log_lines !! key
       end)
  ∧ (merge_back_new_testcases options = true →
     is_Some (stats r !! "new_units_added"))
  ∧ (merge_back_new_testcases options = false →
     stats r = fuzz_stats options max_time fuzz_result).
Proof.
  intros Hfuzz fuzz_result log_lines.
  pose proof (fuzz_stats_after_merge_back _ _ _ _ _ _ _ Hfuzz) as Hstats.
  fold fuzz_result in Hstats.
  destruct Hstats as [Hkeep [Hadded Hoff]].
  split; [|split; [|split; assumption]].
  - intros key Hkey.
    assert (Hnames : key ≠ "new_units_added" ∧ key ∉ merge_stat_names).
    { unfold timing_stat_names in Hkey. unfold merge_stat_names.
      repeat (apply elem_of_cons in Hkey as [->|Hkey]);
        try (split; [discriminate|];
             rewrite !not_elem_of_cons; repeat split;
             first [discriminate | apply not_elem_of_nil]).
      apply elem_of_nil in Hkey. contradiction. }
    destruct Hnames as [Hne Hmerge].
    rewrite (Hkeep key Hne Hmerge), fuzz_stats_lookup.
    rewrite bool_decide_eq_true_2 by assumption. eauto.
  - intros key Htiming Hne Hmerge.
    rewrite (Hkeep key Hne Hmerge), fuzz_stats_lookup.
    rewrite bool_decide_eq_false_2 by assumption. reflexivity.
Qed.

(** ** The second step of a two-step merge *)

Lemma Qle_bool_false_lt (x : Q) : Qle_bool x 0 = false → (0 < x)%Q.
Proof.
  intros Hle. apply Qnot_le_lt. intros Hx.
  apply Qle_bool_iff in Hx. congruence.
Qed.

(** X8.  The two steps of a two-step merge that returns, on a target
    that supports the multistep merge.  Step 1 merges the existing
    directories with the whole time allowed; step 2 merges them and the
    directory of new units into the same output directory, with the time
    that step 1 has left, which is positive.  Between the two calls of
    the runner the output directory is recreated, so that what step 1
    put there is gone.  The result has the outputs of both steps, the
    command of step 2 and the sum of the times. *)
Theorem two_step_second_step target_path arguments existing_corpus_dirs
    new_corpus_dir output_corpus_dir reproducers_dir max_time (s : State)
    r s' :
  multistep_merge_supported target_path (world s) = true →
  _minimize_corpus_two_step target_path arguments existing_corpus_dirs
    new_corpus_dir output_corpus_dir reproducers_dir max_time s = (Ok r, s') →
  let s1 := two_step_start s in
  let step_1 :=
    merge_call_of target_path arguments existing_corpus_dirs
      output_corpus_dir reproducers_dir max_time s1 in
  let result_1 :=
    (merge_run target_path arguments existing_corpus_dirs output_corpus_dir
       reproducers_dir max_time s1).1 in
  let done_1 :=
    merge_done target_path arguments existing_corpus_dirs output_corpus_dir
      reproducers_dir max_time s1 in
  let s2 :=
    advance done_1 (recreate_directory output_corpus_dir (world done_1))
      [EvRecreateDirectory output_corpus_dir] in
  let remaining := (max_time - time_executed result_1)%Q in
  let step_2 :=
    merge_call_of target_path arguments
      (existing_corpus_dirs ++ [new_corpus_dir]) output_corpus_dir
      reproducers_dir remaining s2 in
  let result_2 :=
    (merge_run target_path arguments
       (existing_corpus_dirs ++ [new_corpus_dir]) output_corpus_dir
       reproducers_dir remaining s2).1 in
  (0 < remaining)%Q
  ∧ merge_calls (trace s') = step_2 :: step_1 :: merge_calls (trace s)
  ∧ (∃ later between earlier,
       trace s' =
         later ++ EvRunnerMerge step_2 :: between
               ++ EvRunnerMerge step_1 :: earlier
       ∧ EvRecreateDirectory output_corpus_dir ∈ between)
  ∧ logs r = (output result_1 ++ LF ++ LF ++ output result_2)%string
  ∧ fr_command r = command result_2
  ∧ fr_time_executed r = (time_executed result_1 + time_executed result_2)%Q.
Proof.
  intros Hsupported. rewrite two_step_supported_eq by assumption.
  cbv zeta.
  set (s1 := two_step_start s).
  set (result_1 := (merge_run _ _ _ _ _ _ s1).1).
  set (remaining := (max_time - time_executed result_1)%Q).
  set (s2 := advance _ _ [EvRecreateDirectory output_corpus_dir]).
  set (result_2 := (merge_run _ _ _ _ _ _ s2).1).
  destruct (minimize_corpus _ _ _ _ _ _ s1) as [[r1|?] ?]; [|discriminate].
  destruct (Qle_bool remaining 0) eqn:Hremaining; [discriminate|].
  destruct (minimize_corpus _ _ _ _ _ _ s2) as [[r2|?] ?]; [|discriminate].
  destruct (merge_log_coverage (splitlines (output result_1))) as [e0 f0].
  destruct (merge_log_coverage (splitlines (output result_2))) as [e f].
  intros [= <- <-]. simpl.
  split; [apply Qle_bool_false_lt; exact Hremaining|].
  split.
  { rewrite merge_calls_app.
    destruct (_ || _); simpl; unfold s1; rewrite two_step_start_calls;
      reflexivity. }
  split; [|repeat split].
  eexists (_ ++ [_; _]), [_; _; _; _; _; _], _. split.
  - rewrite <- app_assoc. reflexivity.
  - here.
Qed.

(** ** The merge of a merge-back *)

Lemma moved_units_app (t1 t2 : list event) :
  moved_units (t1 ++ t2) = moved_units t1 ++ moved_units t2.
Proof.
  induction t1 as [|ev t1 IH]; [reflexivity|].
  destruct ev; simpl; rewrite IH; reflexivity.
Qed.

Lemma merge_step_no_move (s s' : @State W) :
  grows_by merge_step_event s s' →
  moved_units (trace s') = moved_units (trace s).
Proof.
  intros [events [-> Hkind]]. rewrite moved_units_app.
  replace (moved_units events) with (@nil (string * string)); [reflexivity|].
  induction events as [|ev events IH]; [reflexivity|].
  simpl in Hkind. apply andb_true_iff in Hkind as [Hev Hevents].
  destruct ev; try discriminate; simpl; auto.
Qed.

(** The calls of the runner's merge in a two-step merge: one or two, on
    the target, with the arguments and the reproducers directory given,
    into the output directory, from the existing directories and, in
    the last one at most, the new one; the first has the whole time
    allowed. *)
Lemma two_step_merge_calls target_path arguments existing_corpus_dirs
    new_corpus_dir output_corpus_dir reproducers_dir max_time (s : State)
    out s' :
  _minimize_corpus_two_step target_path arguments existing_corpus_dirs
    new_corpus_dir output_corpus_dir reproducers_dir max_time s = (out, s') →
  ∃ calls,
    merge_calls (trace s') = calls ++ merge_calls (trace s)
    ∧ (1 ≤ length calls ≤ 2)%nat
    ∧ (∀ call, call ∈ calls →
         merges_into target_path arguments reproducers_dir output_corpus_dir
           existing_corpus_dirs new_corpus_dir call)
    ∧ ∃ first, last calls = Some first ∧ mg_merge_timeout first = max_time.
Proof.
  set (fits := merges_into target_path arguments reproducers_dir
                 output_corpus_dir existing_corpus_dirs new_corpus_dir).
  assert (Hone : ∀ call : MergeCall,
    fits call → mg_merge_timeout call = max_time →
    (1 ≤ length [call] ≤ 2)%nat
    ∧ (∀ c, c ∈ [call] → fits c)
    ∧ ∃ first, last [call] = Some first ∧ mg_merge_timeout first = max_time).
  { intros call Hcall Htime. split; [simpl; lia|]. split.
    - intros c Hc. apply list_elem_of_singleton in Hc. subst c. exact Hcall.
    - exists call. split; [reflexivity | exact Htime]. }
  assert (Htwo : ∀ call_2 call_1 : MergeCall,
    fits call_1 → fits call_2 → mg_merge_timeout call_1 = max_time →
    (1 ≤ length [call_2; call_1] ≤ 2)%nat
    ∧ (∀ c, c ∈ [call_2; call_1] → fits c)
    ∧ ∃ first, last [call_2; call_1] = Some first
               ∧ mg_merge_timeout first = max_time).
  { intros call_2 call_1 Hcall_1 Hcall_2 Htime. split; [simpl; lia|]. split.
    - intros c Hc. apply elem_of_cons in Hc as [->|Hc]; [exact Hcall_2|].
      apply list_elem_of_singleton in Hc. subst c. exact Hcall_1.
    - exists call_1. split; [reflexivity | exact Htime]. }
  unfold fits, merges_into in Hone, Htwo. subst fits.
  destruct (multistep_merge_supported target_path (world s)) eqn:Hprobe.
  - rewrite two_step_supported_eq by assumption. cbv zeta.
    set (s1 := two_step_start s).
    set (result_1 := (merge_run _ _ _ _ _ _ s1).1).
    set (remaining := (max_time - time_executed result_1)%Q).
    set (s2 := advance _ _ [EvRecreateDirectory output_corpus_dir]).
    set (result_2 := (merge_run _ _ _ _ _ _ s2).1).
    set (step_1 := merge_call_of target_path arguments existing_corpus_dirs
                     output_corpus_dir reproducers_dir max_time s1).
    set (step_2 := merge_call_of target_path arguments
                     (existing_corpus_dirs ++ [new_corpus_dir])
                     output_corpus_dir reproducers_dir remaining s2).
    assert (Hs1 : merge_calls (trace s1) = merge_calls (trace s))
      by apply two_step_start_calls.
    assert (Hstep_1 := Hone step_1 ltac:(repeat split; left; reflexivity)
                         eq_refl).
    assert (Hstep_2 := Htwo step_2 step_1
                         ltac:(repeat split; left; reflexivity)
                         ltac:(repeat split; right; reflexivity) eq_refl).
    rewrite (minimize_corpus_eq _ _ _ _ _ _ s1). fold result_1.
    destruct (timed_out result_1).
    { intros [= _ <-]. exists [step_1]. split; [|exact Hstep_1].
      simpl. rewrite Hs1. reflexivity. }
    destruct (negb (return_code result_1 =? 0)%Z).
    { intros [= _ <-]. exists [step_1]. split; [|exact Hstep_1].
      simpl. rewrite Hs1. reflexivity. }
    destruct (Qle_bool remaining 0).
    { intros [= _ <-]. exists [step_1]. split; [|exact Hstep_1].
      simpl. rewrite Hs1. reflexivity. }
    rewrite (minimize_corpus_eq _ _ _ _ _ _ s2). fold result_2.
    destruct (timed_out result_2).
    { intros [= _ <-]. exists [step_2; step_1]. split; [|exact Hstep_2].
      simpl. rewrite Hs1. reflexivity. }
    destruct (negb (return_code result_2 =? 0)%Z).
    { intros [= _ <-]. exists [step_2; step_1]. split; [|exact Hstep_2].
      simpl. rewrite Hs1. reflexivity. }
    destruct (merge_log_coverage (splitlines (output result_1))) as [e0 f0].
    destruct (merge_log_coverage (splitlines (output result_2))) as [e f].
    intros [= _ <-]. exists [step_2; step_1]. split; [|exact Hstep_2].
    simpl. rewrite merge_calls_app.
    destruct (_ || _); simpl; rewrite Hs1; reflexivity.
  - rewrite two_step_unsupported_eq by assumption.
    set (s0 := advance s (world s) _).
    set (single := merge_call_of target_path arguments
                     (existing_corpus_dirs ++ [new_corpus_dir])
                     output_corpus_dir reproducers_dir max_time s0).
    assert (Hsingle := Hone single ltac:(repeat split; right; reflexivity)
                         eq_refl).
    rewrite minimize_corpus_eq.
    destruct (timed_out _); [|destruct (negb _)];
      intros [= _ <-]; exists [single]; (split; [|exact Hsingle]);
      reflexivity.
Qed.

(** X9.  The merges of a merge-back.  [_merge_new_units] calls the
    runner's merge at most twice, and not at all when the directory of
    new units is empty.  Every call is on the target, with the arguments
    given and no reproducers directory, into the directory created for
    the merged corpus, from the corpus directories of the fuzz run,
    followed by the corpus directory unless it is among them, and, in
    the last call at most, the directory of new units.  The first call
    has the merge timeout as its time allowed. *)
Theorem merge_new_units_merges target_path corpus_dir new_corpus_dir
    fuzz_corpus_dirs arguments (stat_overrides : stats_map) (s : State) :
  let merge_corpus := (create_temp_fuzzing_dir "merge-corpus" (world s)).1 in
  let merge_dirs :=
    if bool_decide (corpus_dir ∈ fuzz_corpus_dirs) then fuzz_corpus_dirs
    else fuzz_corpus_dirs ++ [corpus_dir] in
  ∃ calls,
    merge_calls
      (trace (_merge_new_units target_path corpus_dir new_corpus_dir
                fuzz_corpus_dirs arguments stat_overrides s).2)
    = calls ++ merge_calls (trace s)
    ∧ (length calls ≤ 2)%nat
    ∧ (get_directory_file_count new_corpus_dir (world s) = 0%nat
       ↔ calls = [])
    ∧ (∀ call, call ∈ calls →
         mg_target call = target_path
         ∧ mg_additional_args call = arguments
         ∧ mg_artifact_prefix call = None
         ∧ (mg_corpus_directories call = merge_corpus :: merge_dirs
            ∨ mg_corpus_directories call
              = merge_corpus :: merge_dirs ++ [new_corpus_dir]))
    ∧ ∀ first, last calls = Some first →
        mg_merge_timeout first
        = get_merge_timeout (world (merge_back_start s)).
Proof.
  intros merge_corpus merge_dirs.
  rewrite merge_new_units_eq.
  destruct (_ =? 0)%nat eqn:Hcount.
  { apply Nat.eqb_eq in Hcount. exists []. split; [reflexivity|].
    split; [simpl; lia|]. split; [tauto|]. split.
    - intros call Hcall. apply elem_of_nil in Hcall. contradiction.
    - intros first. discriminate. }
  apply Nat.eqb_neq in Hcount. cbv zeta.
  assert (Hstart : merge_calls (trace (merge_back_start s))
                   = merge_calls (trace s)).
  { unfold merge_back_start. destruct (create_temp_fuzzing_dir _ _).
    reflexivity. }
  destruct (merge_back_run _ _ _ _ _ _) as [out st] eqn:Hrun.
  unfold merge_back_run in Hrun.
  apply two_step_merge_calls in Hrun
    as [calls [Hcalls [Hlength [Hfit [first [Hlast Htime]]]]]].
  rewrite Hstart in Hcalls.
  assert (Hgoal :
    (length calls ≤ 2)%nat
    ∧ (get_directory_file_count new_corpus_dir (world s) = 0%nat
       ↔ calls = [])
    ∧ (∀ call, call ∈ calls →
         mg_target call = target_path
         ∧ mg_additional_args call = arguments
         ∧ mg_artifact_prefix call = None
         ∧ (mg_corpus_directories call = merge_corpus :: merge_dirs
            ∨ mg_corpus_directories call
              = merge_corpus :: merge_dirs ++ [new_corpus_dir]))
    ∧ ∀ first, last calls = Some first →
        mg_merge_timeout first
        = get_merge_timeout (world (merge_back_start s))).
  { split; [lia|]. split; [|split].
    - split; [contradiction|]. intros ->. simpl in Hlength. lia.
    - exact Hfit.
    - intros first'. rewrite Hlast. intros [= <-]. exact Htime. }
  destruct out as [result|e]; [|destruct (is_merge_failure e)];
    exists calls; (split; [|exact Hgoal]); simpl;
    try destruct (_ =? 0)%Z; simpl; exact Hcalls.
Qed.

(** X10.  The units a merge-back moves.  [_merge_new_units] moves the
    mergeable units of the merged corpus into the corpus directory
    exactly when there are new units and the two-step merge returns; it
    does so once, after the merge.  [new_units_added] is then the growth
    of the corpus directory, counted from before the merge to after the
    move; when nothing is moved it is 0. *)
Theorem merge_new_units_moves target_path corpus_dir new_corpus_dir
    fuzz_corpus_dirs arguments (stat_overrides : stats_map) (s : State) :
  let merge_corpus := (create_temp_fuzzing_dir "merge-corpus" (world s)).1 in
  let merged :=
    merge_back_run target_path corpus_dir new_corpus_dir fuzz_corpus_dirs
      arguments s in
  let succeeded :=
    negb (get_directory_file_count new_corpus_dir (world s) =? 0)%nat
    && match merged.1 with Ok _ => true | Raise _ => false end in
  let run :=
    _merge_new_units target_path corpus_dir new_corpus_dir fuzz_corpus_dirs
      arguments stat_overrides s in
  let growth :=
    (Z.of_nat (get_directory_file_count corpus_dir (world run.2))
     - Z.of_nat (get_directory_file_count corpus_dir
                   (world (merge_back_start s))))%Z in
  moved_units (trace run.2)
  = (if succeeded then [(merge_corpus, corpus_dir)] else [])
    ++ moved_units (trace s)
  ∧ (if succeeded
     then world run.2
          = move_mergeable_units merge_corpus corpus_dir (world merged.2)
     else world run.2
          = if (get_directory_file_count new_corpus_dir (world s) =? 0)%nat
            then world s else world merged.2)
  ∧ ∃ stat_overrides',
      run.1 = Ok stat_overrides'
      ∧ stat_overrides' !! "new_units_added"
        = Some (VInt (if succeeded then growth else 0)).
Proof.
  intros merge_corpus merged succeeded run growth.
  subst growth run succeeded. rewrite merge_new_units_eq.
  destruct (_ =? 0)%nat eqn:Hcount; simpl.
  { split; [reflexivity|]. split; [reflexivity|].
    eexists. split; [reflexivity|]. apply lookup_insert_eq. }
  assert (Hstart : moved_units (trace (merge_back_start s))
                   = moved_units (trace s)).
  { unfold merge_back_start. destruct (create_temp_fuzzing_dir _ _).
    reflexivity. }
  subst merged.
  destruct (merge_back_run _ _ _ _ _ _) as [[result|e] st] eqn:Hrun.
  - apply merge_back_run_grows, merge_step_no_move in Hrun.
    simpl. split; [|split; [reflexivity|]].
    + rewrite Hrun, Hstart. reflexivity.
    + eexists. split; [reflexivity|]. apply lookup_insert_eq.
  - pose proof (two_step_raises_merge_failure _ _ _ _ _ _ _ _ _ _ Hrun)
      as Hfailure.
    apply merge_back_run_grows, merge_step_no_move in Hrun.
    rewrite Hfailure. simpl. split; [|split; [reflexivity|]].
    + rewrite Hrun, Hstart. reflexivity.
    + eexists. split; [reflexivity|]. apply lookup_insert_eq.
Qed.

(** ** The options of a prepared session *)

(** [prepare] returns options with which new units are merged back, and
    calls nothing of the runner. *)
Lemma prepare_options corpus_directory target_path build_dir (s : State) :
  ∃ options s',
    prepare corpus_directory target_path build_dir s = (Ok options, s')
    ∧ merge_back_new_testcases options = true
    ∧ fuzz_calls (trace s') = fuzz_calls (trace s).
Proof.
  unfold prepare.
  unfold mbind, M_bind, mret, M_ret, act, ask, call, log, emit. simpl.
  destruct (do_strategies s); simpl;
    [destruct (generate_weighted_strategy_pool name (world s)) as [pool w0]|];
    simpl;
    (destruct (pick_strategies _ _ _ _ _) as [info w1]; simpl;
     destruct (bool_decide _); simpl;
     (destruct (random_choice_subset_size _) as [size w2]; simpl;
      destruct (do_strategy _ _ && _); simpl;
      [destruct (create_temp_fuzzing_dir "subset" _) as [dir w3]; simpl|];
      (destruct (truthy (FuzzerArguments.get_str _ _)); simpl;
       [destruct (path_exists _ _); simpl|];
       (destruct (truthy (FuzzerArguments.get_str _ _)); simpl;
        [|destruct (path_exists _ _); simpl];
        (eexists _, _; repeat split))))).
Qed.

(** X11.  The options [prepare] returns.  They have the corpus directory
    given, the flag of the strategies for a mutations run, and new units
    are to be merged back.  The corpus directories of the fuzz run are
    those the strategies added, followed by one more: the corpus
    directory, or, when the corpus-subset strategy is in the pool and
    was applied, a directory created for the subset, into which
    [prepare] has copied from the corpus; the strategies then have one
    more name, that of the subset strategy with the size of the subset.
    [prepare] creates no other directory, and runs nothing of the
    runner. *)
Theorem prepare_corpus_dirs corpus_directory target_path build_dir
    (s : State) :
  let info := strategy_info_of corpus_directory target_path s in
  ∃ options s',
    prepare corpus_directory target_path build_dir s = (Ok options, s')
    ∧ corpus_dir options = corpus_directory
    ∧ merge_back_new_testcases options = true
    ∧ is_mutations_run options = si_is_mutations_run info
    ∧ merge_calls (trace s') = merge_calls (trace s)
    ∧ fuzz_calls (trace s') = fuzz_calls (trace s)
    ∧ ((fuzz_corpus_dirs options
        = additional_corpus_dirs info ++ [corpus_directory]
        ∧ strategies options = process_strategies (fuzzing_strategies info)
        ∧ temp_fuzzing_dirs (trace s') = temp_fuzzing_dirs (trace s))
       ∨ (do_strategy (strategy_pool_of s) CORPUS_SUBSET_STRATEGY = true
          ∧ ∃ corpus_subset_dir (subset_size : nat),
              fuzz_corpus_dirs options
              = additional_corpus_dirs info ++ [corpus_subset_dir]
              ∧ strategies options
                = process_strategies
                    (fuzzing_strategies info
                     ++ [(CORPUS_SUBSET_STRATEGY ++ "_"
                          ++ pretty subset_size)%string])
              ∧ temp_fuzzing_dirs (trace s')
                = ("subset", corpus_subset_dir)
                  :: temp_fuzzing_dirs (trace s)
              ∧ EvPrepare "copy_from_corpus" corpus_subset_dir
                ∈ trace s')).
Proof.
  unfold prepare, strategy_info_of, strategy_pool_of.
  unfold mbind, M_bind, mret, M_ret, act, ask, call, log, emit. simpl.
  destruct (do_strategies s); simpl;
    [destruct (generate_weighted_strategy_pool name (world s)) as [pool w0]|];
    simpl;
    (destruct (pick_strategies _ _ _ _ _) as [info w1]; simpl;
     destruct (bool_decide _); simpl;
     (destruct (random_choice_subset_size _) as [size w2]; simpl;
      destruct (do_strategy _ _) eqn:Hsubset; simpl;
      [destruct (_ <? _)%nat; simpl;
       [destruct (create_temp_fuzzing_dir "subset" _) as [dir w3]; simpl|]|];
      (destruct (truthy (FuzzerArguments.get_str _ _)); simpl;
       [destruct (path_exists _ _); simpl|];
       (destruct (truthy (FuzzerArguments.get_str _ _)); simpl;
        [|destruct (path_exists _ _); simpl];
        (eexists _, _; split; [reflexivity|]; simpl;
         repeat (split; [reflexivity|]);
         first [ left; repeat split; reflexivity
               | right; split; [reflexivity|];
                 eexists _, _; repeat (split; [reflexivity|]); here ]))))).
Qed.

Lemma temp_fuzzing_dirs_app (t1 t2 : list event) :
  temp_fuzzing_dirs (t1 ++ t2) = temp_fuzzing_dirs t1 ++ temp_fuzzing_dirs t2.
Proof.
  induction t1 as [|ev t1 IH]; [reflexivity|].
  destruct ev; simpl; rewrite IH; reflexivity.
Qed.

(** X12.  A session that the engine has prepared merges back.  When the
    time allowed is not zero, [fuzz] with the options of [prepare]
    returns a result that has [new_units_added].  The one call of the
    runner's fuzz in the two phases is that of [fuzz]; it has the
    arguments and the environment that [prepare] has put into the
    options, and its corpus directories are a directory created for the
    new units, followed by those of the options. *)
Theorem prepared_session_merges_back corpus_directory target_path build_dir
    reproducers_dir max_time (s : State) :
  Qeq_bool max_time 0 = false →
  ∃ options s1 r s',
    prepare corpus_directory target_path build_dir s = (Ok options, s1)
    ∧ fuzz target_path options reproducers_dir max_time s1 = (Ok r, s')
    ∧ is_Some (stats r !! "new_units_added")
    ∧ ∃ call new_corpus_dir,
        fuzz_calls (trace s') = call :: fuzz_calls (trace s)
        ∧ fz_corpus_directories call
          = new_corpus_dir :: fuzz_corpus_dirs options
        ∧ ("new", new_corpus_dir) ∈ temp_fuzzing_dirs (trace s')
        ∧ fz_additional_args call = arguments options
        ∧ fz_extra_env call = extra_env options.
Proof.
  intros Hmax.
  destruct (prepare_options corpus_directory target_path build_dir s)
    as [options [s1 [Hprepare [Hback Hcalls]]]].
  destruct (fuzz_returns target_path options reproducers_dir max_time s1 Hmax)
    as [r [s' Hfuzz]].
  exists options, s1, r, s'.
  split; [exact Hprepare|]. split; [exact Hfuzz|].
  split.
  { apply (fuzz_stats_after_merge_back _ _ _ _ _ _ _ Hfuzz). exact Hback. }
  exists (fuzz_call_of target_path options reproducers_dir max_time s1),
    (create_temp_fuzzing_dir "new"
       (set_sanitizer_options target_path (world s1))).1.
  split; [rewrite <- Hcalls; exact (fuzz_call_made _ _ _ _ _ _ _ Hfuzz)|].
  split.
  { unfold fuzz_call_of, fuzz_setup. rewrite Hback. simpl.
    destruct (create_temp_fuzzing_dir _ _). reflexivity. }
  split; [|split; reflexivity].
  apply fuzz_trace in Hfuzz as [merged [Htrace _]].
  rewrite Htrace, !temp_fuzzing_dirs_app, !elem_of_app. right. left.
  unfold fuzz_events, fuzz_error_events, fuzz_setup. rewrite Hback.
  destruct (fuzz_run _ _ _ _ _) as [fuzz_result w]. simpl.
  destruct (create_temp_fuzzing_dir _ _) as [new_dir w0]. simpl.
  rewrite !temp_fuzzing_dirs_app.
  destruct (needs_empty_testcase _ _);
    (destruct (DICT_PARSING_FAILED_REGEX_search _);
     [|destruct (negb _ && _)]); simpl; apply list_elem_of_here.
Qed.

(** ** The control file after a fuzz session *)

(** The control file after a two-step merge: on a target that supports
    the multistep merge it is unset when the merge returns and the path
    assigned when it raises; on another target it is as it was. *)
Lemma two_step_control_file_after target_path arguments existing_corpus_dirs
    new_corpus_dir output_corpus_dir reproducers_dir max_time (s : State)
    out s' :
  _minimize_corpus_two_step target_path arguments existing_corpus_dirs
    new_corpus_dir output_corpus_dir reproducers_dir max_time s = (out, s') →
  _merge_control_file s' =
  if multistep_merge_supported target_path (world s) then
    match out with
    | Ok _ => None
    | Raise _ =>
        Some (path_join
                (create_temp_fuzzing_dir "mcf_tmp_dir" (world s)).1 "MCF")
    end
  else _merge_control_file s.
Proof.
  destruct (multistep_merge_supported target_path (world s)) eqn:Hprobe.
  - rewrite two_step_supported_eq by assumption. cbv zeta.
    assert (Hmcf : _merge_control_file (two_step_start s) =
                   Some (path_join
                           (create_temp_fuzzing_dir "mcf_tmp_dir" (world s)).1
                           "MCF")).
    { unfold two_step_start.
      destruct (create_temp_fuzzing_dir _ _); reflexivity. }
    rewrite (minimize_corpus_eq _ _ _ _ _ _ (two_step_start s)).
    destruct (timed_out _); [intros [= <- <-]; exact Hmcf|].
    destruct (negb _); [intros [= <- <-]; exact Hmcf|].
    destruct (Qle_bool _ _); [intros [= <- <-]; exact Hmcf|].
    rewrite minimize_corpus_eq.
    destruct (timed_out _); [intros [= <- <-]; exact Hmcf|].
    destruct (negb _); [intros [= <- <-]; exact Hmcf|].
    repeat destruct (merge_log_coverage _).
    intros [= <- <-]. reflexivity.
  - rewrite two_step_unsupported_eq by assumption.
    rewrite minimize_corpus_eq.
    destruct (timed_out _); [|destruct (negb _)]; intros [= _ <-];
      reflexivity.
Qed.

Lemma fuzz_classified_control_file target_path options reproducers_dir
    max_time (s : State) :
  _merge_control_file
    (fuzz_classified target_path options reproducers_dir max_time s)
  = _merge_control_file s.
Proof.
  unfold fuzz_classified, fuzz_setup.
  destruct (fuzz_run _ _ _ _ _) as [fuzz_result w].
  destruct (merge_back_new_testcases options);
    [destruct (create_temp_fuzzing_dir _ _)|];
    destruct (needs_empty_testcase _ _); reflexivity.
Qed.

Lemma merge_back_start_control_file (s : @State W) :
  _merge_control_file (merge_back_start s) = _merge_control_file s.
Proof.
  unfold merge_back_start. destruct (create_temp_fuzzing_dir _ _).
  reflexivity.
Qed.

(** X18.  The control file after a fuzz session that returns.  Let the
    merge-back fail when there are new units, the target supports the
    multistep merge and the two-step merge raises.  When it fails,
    [fuzz] returns all the same, and the engine keeps the path of the
    control file of the failed merge.  When it does not, an engine that
    had no control file has none afterwards. *)
Theorem fuzz_control_file target_path options reproducers_dir max_time
    (s : State) r s' :
  fuzz target_path options reproducers_dir max_time s = (Ok r, s') →
  let st := fuzz_classified target_path options reproducers_dir max_time s in
  let merge_back_fails :=
    match (fuzz_setup target_path options s).1 with
    | Some new_corpus_dir =>
        negb (get_directory_file_count new_corpus_dir (world st) =? 0)%nat
        && multistep_merge_supported target_path
             (world (merge_back_start st))
        && match (merge_back_run target_path (corpus_dir options)
                    new_corpus_dir (fuzz_corpus_dirs options)
                    (non_fuzz_arguments_of options) st).1 with
           | Ok _ => false
           | Raise _ => true
           end
    | None => false
    end in
  (merge_back_fails = true →
   _merge_control_file s' =
   Some (path_join
           (create_temp_fuzzing_dir "mcf_tmp_dir"
              (world (merge_back_start st))).1 "MCF"))
  ∧ (merge_back_fails = false →
     _merge_control_file s = None → _merge_control_file s' = None).
Proof.
  rewrite fuzz_eq. cbv zeta.
  set (st := fuzz_classified target_path options reproducers_dir max_time s).
  assert (Hst : _merge_control_file st = _merge_control_file s)
    by apply fuzz_classified_control_file.
  destruct (Qeq_bool max_time 0); [discriminate|].
  destruct ((fuzz_setup target_path options s).1) as [new_dir|].
  - rewrite merge_new_units_eq.
    destruct (_ =? 0)%nat; simpl.
    { intros [= _ <-]. split; [discriminate|]. intros _ Hnone. simpl.
      rewrite Hst. exact Hnone. }
    destruct (merge_back_run _ _ _ _ _ _) as [[result|e] st'] eqn:Hrun.
    + intros [= _ <-]. simpl.
      unfold merge_back_run in Hrun.
      apply two_step_control_file_after in Hrun.
      rewrite merge_back_start_control_file, Hst in Hrun.
      rewrite andb_false_r. split; [discriminate|]. intros _ Hnone.
      rewrite Hrun. destruct (multistep_merge_supported _ _);
        [reflexivity | exact Hnone].
    + pose proof (two_step_raises_merge_failure _ _ _ _ _ _ _ _ _ _ Hrun)
        as Hfailure.
      rewrite Hfailure. intros [= _ <-]. simpl.
      unfold merge_back_run in Hrun.
      apply two_step_control_file_after in Hrun.
      rewrite merge_back_start_control_file, Hst in Hrun.
      rewrite Hrun, andb_true_r.
      destruct (multistep_merge_supported _ _); split;
        try discriminate; auto.
  - intros [= _ <-]. split; [discriminate|]. intros _ Hnone.
    rewrite Hst. exact Hnone.
Qed.

(** ** A session without time *)

(** X2.  With a time allowed of zero a fuzz session raises
    [ZeroDivisionError], and it does so late: the runner's fuzz has been
    called, and the empty testcase file has been made if the run calls
    for one.  Nothing is merged back and no unit is moved; no result is
    returned, so no crash is reported for the run. *)
Theorem fuzz_zero_time_raises target_path options reproducers_dir max_time
    (s : State) :
  Qeq_bool max_time 0 = true →
  ∃ s',
    fuzz target_path options reproducers_dir max_time s
    = (Raise ZeroDivisionError, s')
    ∧ fuzz_calls (trace s')
      = fuzz_call_of target_path options reproducers_dir max_time s
        :: fuzz_calls (trace s)
    ∧ empty_testcase_files (trace s')
      = (if needs_empty_testcase target_path
              (fuzz_run target_path options reproducers_dir max_time s).1
         then [empty_testcase_path reproducers_dir
                 (fuzz_run target_path options reproducers_dir max_time s).2]
         else [])
        ++ empty_testcase_files (trace s)
    ∧ merge_calls (trace s') = merge_calls (trace s)
    ∧ moved_units (trace s') = moved_units (trace s).
Proof.
  intros Hmax.
  destruct (fuzz target_path options reproducers_dir max_time s)
    as [out s'] eqn:Hfuzz.
  pose proof (fuzz_call_made _ _ _ _ _ _ _ Hfuzz) as Hcall.
  revert Hfuzz. rewrite fuzz_eq, Hmax. intros [= <- <-].
  eexists. split; [reflexivity|]. split; [exact Hcall|].
  rewrite fuzz_classified_trace.
  rewrite empty_testcase_files_app, merge_calls_app, moved_units_app.
  unfold fuzz_events, fuzz_error_events.
  destruct (fuzz_run _ _ _ _ _) as [fuzz_result w]. simpl.
  destruct (needs_empty_testcase _ _);
    (destruct (DICT_PARSING_FAILED_REGEX_search _);
     [|destruct (negb _ && _)]);
    destruct ((fuzz_setup target_path options s).1); repeat split.
Qed.

End SessionProperties.

(** ** Markers in the output of a run *)

Lemma prefix_split (p s : string) :
  String.prefix p s = true → ∃ post, s = (p ++ post)%string.
Proof.
  revert s. induction p as [|c p IH]; intros s.
  - intros _. exists s. reflexivity.
  - destruct s as [|d s]; simpl; [discriminate|].
    destruct (ascii_dec c d) as [->|]; [|discriminate].
    intros Hprefix. destruct (IH s Hprefix) as [post ->].
    exists post. rewrite append_cons. reflexivity.
Qed.

Lemma contains_eq (needle hay : string) :
  contains needle hay =
  String.prefix needle hay
  || match hay with
     | EmptyString => false
     | String _ rest => contains needle rest
     end.
Proof. destruct hay; reflexivity. Qed.

(** [needle in hay]: the needle is a part of the hay. *)
Lemma contains_split (needle hay : string) :
  contains needle hay = true
  ↔ ∃ pre post, hay = (pre ++ needle ++ post)%string.
Proof.
  split.
  - induction hay as [|c hay IH]; rewrite contains_eq;
      intros Hcontains; apply orb_true_iff in Hcontains as [Hprefix|Hrest];
      try discriminate;
      try (apply prefix_split in Hprefix as [post Hpost];
           exists "", post; exact Hpost).
    destruct (IH Hrest) as [pre [post ->]].
    exists (String c pre), post. rewrite append_cons. reflexivity.
  - intros [pre [post ->]]. induction pre as [|c pre IH]; rewrite contains_eq.
    + change ("" ++ needle ++ post)%string with (needle ++ post)%string.
      rewrite prefix_append. reflexivity.
    + rewrite append_cons, IH. apply orb_true_r.
Qed.

(** X13.  [_fuzz_output_contains_trusty_kernel_panic] holds exactly when
    one of the lines has the marker of the kernel panic as a part, at
    any place in the line. *)
Theorem trusty_kernel_panic_marker (log_lines : list string) :
  _fuzz_output_contains_trusty_kernel_panic log_lines = true
  ↔ ∃ line pre post,
      line ∈ log_lines
      ∧ line = (pre ++ "panic notifier - trusty version" ++ post)%string.
Proof.
  induction log_lines as [|first rest IH]; simpl.
  - split; [discriminate|].
    intros [line [pre [post [Hin _]]]]. apply elem_of_nil in Hin.
    contradiction.
  - destruct (contains "panic notifier - trusty version" first) eqn:Hfirst.
    + split; [intros _|reflexivity].
      apply contains_split in Hfirst as [pre [post Hline]].
      exists first, pre, post. split; [apply list_elem_of_here | exact Hline].
    + rewrite IH. split.
      * intros [line [pre [post [Hin Hline]]]].
        exists line, pre, post. split; [apply list_elem_of_further|]; assumption.
      * intros [line [pre [post [Hin Hline]]]].
        apply elem_of_cons in Hin as [->|Hin].
        -- assert (Hcontains :
             contains "panic notifier - trusty version" first = true)
             by (apply contains_split; eauto).
           congruence.
        -- exists line, pre, post. split; assumption.
Qed.

Lemma strip_prefix_split (p s rest : string) :
  strip_prefix p s = Some rest → s = (p ++ rest)%string.
Proof.
  revert s. induction p as [|a p IH]; intros s; simpl.
  - intros [= ->]. reflexivity.
  - destruct s as [|b s]; [discriminate|].
    destruct (Ascii.eqb a b) eqn:Hab; [|discriminate].
    apply Ascii.eqb_eq in Hab. subst b.
    intros Hstrip. rewrite (IH _ Hstrip). rewrite append_cons. reflexivity.
Qed.

Lemma strip_prefix_append (p rest : string) :
  strip_prefix p (p ++ rest) = Some rest.
Proof.
  induction p as [|a p IH]; [destruct rest; reflexivity|].
  rewrite append_cons. simpl. rewrite Ascii.eqb_refl. exact IH.
Qed.

Lemma take_digits_spec (s : string) :
  ∃ post, s = (take_digits s ++ post)%string
          ∧ take_digits (take_digits s ++ post) = take_digits s.
Proof.
  induction s as [|c s [post [Hsplit Hdigits]]]; simpl.
  - exists "". split; reflexivity.
  - destruct (is_digit c) eqn:Hc.
    + exists post. rewrite append_cons. simpl. rewrite Hc.
      split; f_equal; assumption.
    + exists (String c s). split; [reflexivity|].
      change ("" ++ String c s)%string with (String c s). simpl.
      rewrite Hc. reflexivity.
Qed.

(** The search, unfolded once. *)
Lemma DICT_PARSING_FAILED_REGEX_search_eq (text : string) :
  DICT_PARSING_FAILED_REGEX_search text =
  match
    match strip_prefix "ParseDictionaryFile: error in line " text with
    | Some rest =>
        if String.eqb (take_digits rest) "" then None
        else Some (take_digits rest)
    | None => None
    end, text
  with
  | Some line, _ => Some line
  | None, String _ rest => DICT_PARSING_FAILED_REGEX_search rest
  | None, EmptyString => None
  end.
Proof. destruct text; reflexivity. Qed.

(** X14.  The search for a dictionary error finds one exactly when the
    text has [ParseDictionaryFile: error in line ] followed by a decimal
    digit; what it returns is the whole run of digits after such an
    occurrence. *)
Theorem dict_parsing_failed_search (text : string) :
  (is_Some (DICT_PARSING_FAILED_REGEX_search text)
   ↔ ∃ pre c post,
       text = (pre ++ "ParseDictionaryFile: error in line "
                   ++ String c post)%string
       ∧ is_digit c = true)
  ∧ ∀ line,
      DICT_PARSING_FAILED_REGEX_search text = Some line →
      line ≠ ""
      ∧ ∃ pre post,
          text = (pre ++ "ParseDictionaryFile: error in line "
                      ++ line ++ post)%string
          ∧ take_digits (line ++ post) = line.
Proof.
  assert (Hsound : ∀ text line,
    DICT_PARSING_FAILED_REGEX_search text = Some line →
    line ≠ ""
    ∧ ∃ pre post,
        text = (pre ++ "ParseDictionaryFile: error in line "
                    ++ line ++ post)%string
        ∧ take_digits (line ++ post) = line).
  { clear text. intros text line.
    induction text as [|a text IH];
      rewrite DICT_PARSING_FAILED_REGEX_search_eq;
      (destruct (strip_prefix _ _) as [rest|] eqn:Hstrip;
       [destruct (String.eqb (take_digits rest) "") eqn:Hempty|]);
      try discriminate.
    - intros Hsearch. destruct (IH Hsearch) as [Hline [pre [post [-> Hdigits]]]].
      split; [exact Hline|].
      exists (String a pre), post. split; [|exact Hdigits].
      rewrite append_cons. reflexivity.
    - intros [= <-]. apply String.eqb_neq in Hempty. split; [exact Hempty|].
      apply strip_prefix_split in Hstrip.
      destruct (take_digits_spec rest) as [post [Hrest Hdigits]].
      exists "", post. split; [|exact Hdigits].
      rewrite Hstrip at 1. rewrite Hrest at 1. reflexivity.
    - intros Hsearch. destruct (IH Hsearch) as [Hline [pre [post [-> Hdigits]]]].
      split; [exact Hline|].
      exists (String a pre), post. split; [|exact Hdigits].
      rewrite append_cons. reflexivity. }
  split; [|apply Hsound].
  split.
  - intros [line Hsearch].
    destruct (Hsound _ _ Hsearch) as [Hline [pre [post [-> Hdigits]]]].
    destruct line as [|c line]; [contradiction|].
    exists pre, c, (line ++ post)%string. split; [reflexivity|].
    rewrite append_cons in Hdigits. simpl in Hdigits.
    destruct (is_digit c); [reflexivity | discriminate].
  - intros [pre [c [post [-> Hc]]]].
    induction pre as [|a pre IH].
    + rewrite DICT_PARSING_FAILED_REGEX_search_eq.
      change ("" ++ "ParseDictionaryFile: error in line " ++ String c post)%string
        with ("ParseDictionaryFile: error in line " ++ String c post)%string.
      rewrite strip_prefix_append. simpl. rewrite Hc. simpl. eauto.
    + rewrite DICT_PARSING_FAILED_REGEX_search_eq.
      destruct (strip_prefix _ _) as [rest|];
        [destruct (String.eqb (take_digits rest) "")|]; eauto;
        rewrite append_cons; exact IH.
Qed.

(** ** A target that is not there *)

Section ProbeProperties.
Context {W : Type} {host : Host W} {runner : Runner W} {lf : Libfuzzer}
        {prep : Preparation W}.

(** X15.  A target that is not there.  When the target path does not
    exist, nothing is raised for it: the two-step merge is the
    single-step merge of the existing directories and the new one, run
    after one information message.  It calls the runner's merge once,
    creates no directory for a control file, and leaves the control file
    of the engine as it was. *)
Theorem missing_target_single_step target_path arguments existing_corpus_dirs
    new_corpus_dir output_corpus_dir reproducers_dir max_time (s : State) :
  path_exists target_path (world s) = false →
  let run :=
    _minimize_corpus_two_step target_path arguments existing_corpus_dirs
      new_corpus_dir output_corpus_dir reproducers_dir max_time s in
  let s0 :=
    advance s (world s)
      [EvLog Info
         "Old version of libFuzzer is used. Using single step merge."] in
  run = minimize_corpus target_path arguments
          (existing_corpus_dirs ++ [new_corpus_dir]) output_corpus_dir
          reproducers_dir max_time s0
  ∧ merge_calls (trace run.2)
    = merge_call_of target_path arguments
        (existing_corpus_dirs ++ [new_corpus_dir]) output_corpus_dir
        reproducers_dir max_time s0
      :: merge_calls (trace s)
  ∧ temp_fuzzing_dirs (trace run.2) = temp_fuzzing_dirs (trace s)
  ∧ _merge_control_file run.2 = _merge_control_file s.
Proof.
  intros Hmissing run s0. subst run.
  rewrite two_step_unsupported_eq
    by (unfold multistep_merge_supported; rewrite Hmissing; reflexivity).
  fold s0. split; [reflexivity|].
  rewrite minimize_corpus_eq.
  destruct (timed_out _); [|destruct (negb _)]; repeat split.
Qed.

End ProbeProperties.

(** ** Reproduction *)

Section ReproductionProperties.
Context {W : Type} {host : Host W} {lf : Libfuzzer} {rep : Reproducer W}.

(** Assigning a flag adds no second entry for a name. *)
Lemma set_keys (flags : FuzzerArguments.t) (key value : string) :
  (FuzzerArguments.set flags key value).*1 =
  if bool_decide (key ∈ flags.*1) then flags.*1 else flags.*1 ++ [key].
Proof.
  induction flags as [|[k v] flags IH]; [reflexivity|].
  change (FuzzerArguments.set ((k, v) :: flags) key value)
    with (if String.eqb k key then (k, value) :: flags
          else (k, v) :: FuzzerArguments.set flags key value).
  destruct (String.eqb k key) eqn:Hk; rewrite !fmap_cons; cbn [fst].
  - apply String.eqb_eq in Hk. subst k.
    rewrite bool_decide_eq_true_2 by apply list_elem_of_here. reflexivity.
  - apply String.eqb_neq in Hk. rewrite IH.
    destruct (bool_decide (key ∈ flags.*1)) eqn:Hin.
    + apply bool_decide_eq_true in Hin.
      rewrite bool_decide_eq_true_2 by (apply list_elem_of_further; exact Hin).
      reflexivity.
    + apply bool_decide_eq_false in Hin.
      rewrite bool_decide_eq_false_2; [reflexivity|].
      intros Hcons. apply elem_of_cons in Hcons as [->|Hcons]; contradiction.
Qed.

Lemma set_keys_NoDup (flags : FuzzerArguments.t) (key value : string) :
  NoDup flags.*1 → NoDup (FuzzerArguments.set flags key value).*1.
Proof.
  intros Hflags. rewrite set_keys.
  destruct (bool_decide (key ∈ flags.*1)) eqn:Hin; [assumption|].
  apply bool_decide_eq_false in Hin.
  apply NoDup_app. split; [assumption|]. split.
  - intros k Hk Hkey. apply list_elem_of_singleton in Hkey. subst k.
    contradiction.
  - apply NoDup_singleton.
Qed.

(** The flags of an argument list have one entry for a name. *)
Lemma from_list_NoDup (args : list string) :
  NoDup (FuzzerArguments.from_list args).*1.
Proof.
  unfold FuzzerArguments.from_list.
  assert (Hgen : ∀ flags : FuzzerArguments.t,
    NoDup flags.*1 →
    NoDup (fold_left (λ flags arg,
                        match FuzzerArguments.parse_flag arg with
                        | Some (n, v) => FuzzerArguments.set flags n v
                        | None => flags
                        end) args flags).*1).
  { induction args as [|arg args IH]; intros flags Hflags; simpl;
      [assumption|].
    apply IH. destruct (FuzzerArguments.parse_flag arg) as [[n v]|];
      [apply set_keys_NoDup|]; assumption. }
  apply Hgen. apply NoDup_nil_2.
Qed.

Lemma set_elem_of (flags : FuzzerArguments.t) (key value : string) :
  (key, value) ∈ FuzzerArguments.set flags key value.
Proof.
  induction flags as [|[k v] flags IH]; simpl; [apply list_elem_of_here|].
  destruct (String.eqb k key) eqn:Hk.
  - apply String.eqb_eq in Hk. subst k. apply list_elem_of_here.
  - apply list_elem_of_further. exact IH.
Qed.

(** X16.  [reproduce] runs the testcase once on the runner of the
    target, with the time allowed as timeout and with the flags of the
    arguments, stripped of the fuzzing arguments: one argument for a
    flag, and for the flag of the runs the number of runs of a
    reproduction, whatever the arguments given say.  It raises
    [TimeoutError], after a warning, exactly when the result of the run
    is flagged as timed out; otherwise it returns the command, the exit
    code, the elapsed time and the output of the run, whatever the exit
    code is.  The control file of the engine is as it was. *)
Theorem reproduce_outcome target_path input_path arguments max_time
    (s : State) :
  let call := reproduce_call_of target_path input_path arguments max_time in
  let answer :=
    run_single_testcase call
      (set_sanitizer_options target_path (world s)) in
  let run := reproduce target_path input_path arguments max_time s in
  tc_target call = target_path
  ∧ tc_testcase_path call = input_path
  ∧ tc_timeout call = max_time
  ∧ (∃ flags,
       tc_additional_args call = FuzzerArguments.list flags
       ∧ NoDup flags.*1
       ∧ FuzzerArguments.lookup flags RUNS_FLAGNAME
         = Some (pretty RUNS_TO_REPRODUCE)
       ∧ ("-" ++ RUNS_FLAGNAME ++ "=" ++ pretty RUNS_TO_REPRODUCE)%string
         ∈ tc_additional_args call)
  ∧ run.1 = (if timed_out answer.1
             then Raise (TimeoutError "Reproducing timed out.")
             else Ok (reproduce_result_of answer.1))
  ∧ trace run.2 =
    (if timed_out answer.1 then [EvLog Warning "Reproducing timed out."]
     else [])
    ++ EvSetSanitizerOptions target_path :: trace s
  ∧ world run.2 = answer.2
  ∧ _merge_control_file run.2 = _merge_control_file s.
Proof.
  intros call answer run.
  split; [reflexivity|]. split; [reflexivity|]. split; [reflexivity|].
  split.
  { eexists. split; [reflexivity|]. split; [|split].
    - apply set_keys_NoDup, from_list_NoDup.
    - rewrite lookup_set, String.eqb_refl. reflexivity.
    - unfold call, reproduce_call_of, reproduce_arguments_of,
        FuzzerArguments.list. simpl.
      apply (list_elem_of_fmap_2
               (λ kv : string * string,
                  ("-" ++ fst kv ++ "=" ++ snd kv)%string)
               _ (RUNS_FLAGNAME, pretty RUNS_TO_REPRODUCE)).
      apply set_elem_of. }
  subst run answer call.
  unfold reproduce, reproduce_call_of, reproduce_arguments_of,
    reproduce_result_of.
  unfold mbind, M_bind, mret, M_ret, act, invoke, log, emit, raise. simpl.
  destruct (run_single_testcase _ _) as [result w]. simpl.
  destruct (timed_out result); repeat split.
Qed.

(** X17.  [minimize_testcase] and [cleanse] run the runner's
    minimization and cleansing of a crash once, with the time allowed,
    the arguments as they are given, and as artifact prefix a working
    directory created for the run, [minimize-workdir] and
    [cleanse-workdir].  Each raises [TimeoutError], after logging an
    error, exactly when the result of the run is flagged as timed out,
    and otherwise returns the command, the exit code, the elapsed time
    and the output of the run, whatever the exit code is. *)
Theorem minimize_and_cleanse_outcome target_path arguments input_path
    output_path max_time (s : State) :
  let w := set_sanitizer_options target_path (world s) in
  let outcome_of (workdir message : string)
        (runner_call : CrashCall → W → RunResult * W)
        (run : outcome ReproduceResult * State) :=
    let call :=
      crash_call_of workdir target_path arguments input_path output_path
        max_time s in
    let answer := runner_call call (create_temp_fuzzing_dir workdir w).2 in
    cc_additional_args call = arguments
    ∧ cc_artifact_prefix call = (create_temp_fuzzing_dir workdir w).1
    ∧ run.1 = (if timed_out answer.1 then Raise (TimeoutError message)
               else Ok (reproduce_result_of answer.1))
    ∧ trace run.2 =
      (if timed_out answer.1 then [EvLog Error message] else [])
      ++ EvCreateTempFuzzingDir workdir (cc_artifact_prefix call)
      :: EvSetSanitizerOptions target_path :: trace s
    ∧ world run.2 = answer.2 in
  outcome_of "minimize-workdir" "Minimization timed out." minimize_crash
    (minimize_testcase target_path arguments input_path output_path
       max_time s)
  ∧ outcome_of "cleanse-workdir" "Cleanse timed out." cleanse_crash
      (cleanse target_path arguments input_path output_path max_time s).
Proof.
  cbv zeta.
  unfold minimize_testcase, cleanse, crash_call_of, reproduce_result_of.
  unfold mbind, M_bind, mret, M_ret, act, call, invoke, log, emit, raise.
  simpl.
  split.
  - destruct (create_temp_fuzzing_dir "minimize-workdir" _) as [dir w].
    simpl. destruct (minimize_crash _ _) as [result w']. simpl.
    destruct (timed_out result); repeat split.
  - destruct (create_temp_fuzzing_dir "cleanse-workdir" _) as [dir w].
    simpl. destruct (cleanse_crash _ _) as [result w']. simpl.
    destruct (timed_out result); repeat split.
Qed.

End ReproductionProperties.

(** * The engine at work in the small world *)

Import Demo.

(** ** Examples of the helpers *)

Example splitlines_example :
  splitlines ("a" ++ LF ++ "b" ++ String "013" LF ++ LF ++ "c" ++ LF)
  = ["a"; "b"; ""; "c"].
Proof. reflexivity. Qed.

Example path_join_example :
  path_join "/fuzz/mcf_tmp_dir" "MCF" = "/fuzz/mcf_tmp_dir/MCF"
  ∧ path_join "/tmp/" "merge-wd" = "/tmp/merge-wd"
  ∧ path_join "/tmp" "/abs" = "/abs".
Proof. repeat split. Qed.

Example from_list_example :
  FuzzerArguments.from_list ["-max_len=100"; "corpus"; "-timeout=25"; "-max_len=7"]
  = [("max_len", "7"); ("timeout", "25")]
  ∧ FuzzerArguments.get_int
      (FuzzerArguments.from_list ["-max_len=100"; "-timeout=25"]) "timeout"
    = Some 25%Z.
Proof. split; reflexivity. Qed.

Example dict_error_example :
  DICT_PARSING_FAILED_REGEX_search
    "ParseDictionaryFile: error in line 12: bad" = Some "12"
  ∧ DICT_PARSING_FAILED_REGEX_search "ParseDictionaryFile: error in line x"
    = None.
Proof. split; reflexivity. Qed.

Example py_int_example : py_int (7 # 2) = 3%Z ∧ py_int (-7 # 2) = (-3)%Z.
Proof. split; reflexivity. Qed.

(** ** A two-step merge whose first step uses up the time *)

Lemma two_step_budget_guard_witness :
  ∃ s'',
    _minimize_corpus_two_step "/target" [] ["/corpus"] "/new" "/out" None
      600%Q (fresh slow_world) =
    (Raise (TimeoutError "Merging new testcases timed out."), s'')
    ∧ merge_calls (trace s'') =
      merge_call_of "/target" [] ["/corpus"] "/out" None 600%Q
        (two_step_start (fresh slow_world))
      :: merge_calls (trace (fresh slow_world)).
Proof.
  refine (two_step_budget_guard "/target" [] ["/corpus"] "/new" "/out" None
            600%Q (fresh slow_world) _ _).
  - vm_compute. reflexivity.
  - vm_compute. discriminate.
Defined.

(** C2, against the specification's wording: step 1 takes 700 seconds of
    the 600 allowed and exits with 1; the two-step merge raises
    [MergeError], not [TimeoutError]. *)
Lemma failed_step_raises_merge_error :
  multistep_merge_supported "/target" (world (fresh failing_slow_world))
  = true
  ∧ time_executed
      (merge_run "/target" [] ["/corpus"] "/out" None 600%Q
         (two_step_start (fresh failing_slow_world))).1 = 700%Q
  ∧ (_minimize_corpus_two_step "/target" [] ["/corpus"] "/new" "/out" None
       600%Q (fresh failing_slow_world)).1
    = Raise (MergeError "Merging new testcases failed.")
  ∧ length
      (merge_calls
         (trace (_minimize_corpus_two_step "/target" [] ["/corpus"] "/new"
                   "/out" None 600%Q (fresh failing_slow_world)).2))
    = 1%nat
  ∧ ¬ budget_guard_as_specified "/target" [] ["/corpus"] "/new" "/out" None
        600%Q (fresh failing_slow_world).
Proof.
  split; [vm_compute; reflexivity|]. split; [vm_compute; reflexivity|].
  split; [vm_compute; reflexivity|]. split; [vm_compute; reflexivity|].
  intros Hspec.
  destruct (Hspec ltac:(vm_compute; reflexivity)
              ltac:(vm_compute; discriminate))
    as [msg [s' [Hrun _]]].
  vm_compute in Hrun. discriminate.
Qed.

(** ** A two-step merge that completes *)

Lemma two_step_new_coverage_witness :
  ∃ r s',
    _minimize_corpus_two_step "/target" [] ["/corpus"] "/new" "/out" None
      600%Q (fresh merging_world) = (Ok r, s')
    ∧ ∃ e0 f0 e f new_edges new_features : Z,
        stats r !! "initial_edge_coverage" = Some (VInt e0)
        ∧ stats r !! "initial_feature_coverage" = Some (VInt f0)
        ∧ stats r !! "edge_coverage" = Some (VInt e)
        ∧ stats r !! "feature_coverage" = Some (VInt f)
        ∧ stats r !! "new_edges" = Some (VInt new_edges)
        ∧ stats r !! "new_features" = Some (VInt new_features)
        ∧ (if ((e - e0 <? 0) || (f - f0 <? 0))%Z
           then new_edges = 0%Z ∧ new_features = 0%Z
           else new_edges = (e - e0)%Z ∧ new_features = (f - f0)%Z)
        ∧ (0 ≤ new_edges)%Z ∧ (0 ≤ new_features)%Z.
Proof.
  eexists _, _. split; [vm_compute; reflexivity|].
  eapply (two_step_new_coverage "/target" [] ["/corpus"] "/new" "/out" None
            600%Q (fresh merging_world)).
  - vm_compute. reflexivity.
  - vm_compute. reflexivity.
Defined.

Example two_step_example :
  ∃ r s',
    _minimize_corpus_two_step "/target" [] ["/corpus"] "/new" "/out" None
      600%Q (fresh merging_world) = (Ok r, s')
    ∧ stats r !! "new_edges" = Some (VInt 1)
    ∧ _merge_control_file s' = None
    ∧ mg_merge_control_file <$> merge_calls (trace s')
      = [Some "/fuzz/mcf_tmp_dir/MCF"; Some "/fuzz/mcf_tmp_dir/MCF"].
Proof.
  eexists _, _. split; [vm_compute; reflexivity|].
  repeat split; vm_compute; reflexivity.
Qed.

(** ** A two-step merge that fails *)

(** C1 (the control file after a failed two-step merge).  On a target
    that supports the multistep merge, let step 1 time out.  The two-step
    merge raises [TimeoutError] and leaves the path of its control file
    in [_merge_control_file]; the next single-step merge of the engine
    hands that path to the runner. *)
Theorem two_step_failure_keeps_control_file :
  let failed :=
    _minimize_corpus_two_step "/target" [] ["/corpus"] "/new" "/out" None
      600%Q (fresh stuck_world) in
  let next :=
    minimize_corpus "/other-target" [] ["/corpus"] "/pruned" None 600%Q
      failed.2 in
  failed.1 = Raise (TimeoutError "Merging new testcases timed out.")
  ∧ _merge_control_file failed.2 = Some "/fuzz/mcf_tmp_dir/MCF"
  ∧ (∃ r, next.1 = Ok r)
  ∧ mg_merge_control_file <$> merge_calls (trace next.2)
    = [Some "/fuzz/mcf_tmp_dir/MCF"; Some "/fuzz/mcf_tmp_dir/MCF"].
Proof.
  repeat split; try (vm_compute; reflexivity).
  eexists. vm_compute. reflexivity.
Qed.

(** ** A target without the multistep merge *)

Lemma two_step_fallback_witness :
  _minimize_corpus_two_step "/target" [] ["/corpus"] "/new" "/out" None
    600%Q (fresh old_world) =
  minimize_corpus "/target" [] (["/corpus"] ++ ["/new"]) "/out" None 600%Q
    (advance (fresh old_world) (world (fresh old_world))
       [EvLog Info "Old version of libFuzzer is used. Using single step merge."])
  ∧ ∀ r s',
      _minimize_corpus_two_step "/target" [] ["/corpus"] "/new" "/out" None
        600%Q (fresh old_world) = (Ok r, s') →
      ∀ key, is_Some (stats r !! key)
             ↔ key = "edge_coverage" ∨ key = "feature_coverage".
Proof.
  apply (two_step_fallback "/target" [] ["/corpus"] "/new" "/out" None 600%Q
           (fresh old_world)).
  vm_compute. reflexivity.
Defined.

(** ** Merging back *)

Lemma merge_new_units_skips_empty_witness :
  ∃ stat_overrides' s',
    _merge_new_units "/target" "/corpus" "/fuzz/new" ["/corpus"] []
      ∅ (fresh idle_world) = (Ok stat_overrides', s')
    ∧ stat_overrides' !! "new_units_added" = Some (VInt 0)
    ∧ trace s' =
      EvLog Info "Skipped corpus merge since no new units added by fuzzing."
      :: trace (fresh idle_world)
    ∧ merge_calls (trace s') = merge_calls (trace (fresh idle_world))
    ∧ world s' = world (fresh idle_world).
Proof.
  apply (merge_new_units_skips_empty "/target" "/corpus" "/fuzz/new"
           ["/corpus"] [] ∅ (fresh idle_world)).
  reflexivity.
Defined.

(** A fuzz session whose merge-back times out. *)
Lemma merge_failure_contained_witness :
  (∃ st',
     _merge_new_units "/target" "/corpus" "/fuzz/new" ["/corpus"]
       (non_fuzz_arguments_of options)
       (fuzz_stats options 600%Q
          (fuzz_run "/target" options "/repro" 600%Q (fresh stuck_world)).1)
       (fuzz_classified "/target" options "/repro" 600%Q (fresh stuck_world))
     = (Ok (<["new_units_added" := VInt 0]>
              (fuzz_stats options 600%Q
                 (fuzz_run "/target" options "/repro" 600%Q
                    (fresh stuck_world)).1)), st')
     ∧ "Merge failed." ∈ warnings (trace st'))
  ∧ ∃ r s'',
      fuzz "/target" options "/repro" 600%Q (fresh stuck_world) = (Ok r, s'')
      ∧ stats r !! "new_units_added" = Some (VInt 0)
      ∧ "Merge failed." ∈ warnings (trace s'').
Proof.
  destruct (merge_failure_contained "/target" options "/repro" 600%Q
              (fresh stuck_world) "/fuzz/new"
              (TimeoutError "Merging new testcases timed out.")
              (merge_back_run "/target" "/corpus" "/fuzz/new" ["/corpus"]
                 (non_fuzz_arguments_of options)
                 (fuzz_classified "/target" options "/repro" 600%Q
                    (fresh stuck_world))).2)
    as [[st' [Hmerge Hwarning]] [r [s'' [Hfuzz [_ [Hadded Hlogged]]]]]].
  - reflexivity.
  - reflexivity.
  - vm_compute. discriminate.
  - vm_compute. reflexivity.
  - reflexivity.
  - split.
    + exists st'. split; [exact Hmerge|].
      rewrite Hwarning. apply list_elem_of_here.
    + exists r, s''. split; [exact Hfuzz|]. split; [exact Hadded|].
      rewrite Hlogged. apply list_elem_of_here.
Defined.

(** ** Crash paths *)

Lemma fuzz_crash_path_witness :
  ∃ r s',
    fuzz "/target" options "/repro" 600%Q (fresh startup_crash_world)
    = (Ok r, s')
    ∧ empty_testcase_files (trace s') = ["/repro/tmpx8k2"]
    ∧ input_path <$> crashes r = ["/repro/tmpx8k2"].
Proof.
  exact (fuzz_crash_path "/target" options "/repro" 600%Q
           (fresh startup_crash_world) eq_refl).
Defined.

(** C5, against the specification's wording: with a parsed crash path and
    the marker of a kernel panic in the log, an empty testcase file is
    made all the same and it, not the parsed path, is the path of the
    crash reported. *)
Lemma panic_replaces_parsed_path :
  get_testcase_path "/target"
    (splitlines
       (output (fuzz_run "/target" options "/repro" 600%Q
                  (fresh panic_world)).1))
  = Some "/repro/crash-da39a3"
  ∧ (∃ r s',
       fuzz "/target" options "/repro" 600%Q (fresh panic_world) = (Ok r, s')
       ∧ empty_testcase_files (trace s') = ["/repro/tmpx8k2"]
       ∧ input_path <$> crashes r = ["/repro/tmpx8k2"])
  ∧ ¬ crash_path_as_specified "/target" options "/repro" 600%Q
        (fresh panic_world).
Proof.
  split; [reflexivity|]. split.
  - eexists _, _. split; [vm_compute; reflexivity|].
    split; vm_compute; reflexivity.
  - intros Hspec.
    destruct (Hspec _ _ ltac:(vm_compute; reflexivity)) as [Hfiles _].
    vm_compute in Hfiles. discriminate.
Qed.

(** ** Timing statistics *)

Lemma fuzz_timing_stats_witness :
  (∀ r s',
     fuzz "/target" options "/repro" 600%Q (fresh idle_world) = (Ok r, s') →
     stats r !! "timeout_limit" = Some VNone
     ∧ stats r !! "expected_duration" = Some (VInt 600)
     ∧ stats r !! "actual_duration" = Some (VInt 10)
     ∧ ∃ percent, stats r !! "fuzzing_time_percent" = Some (VFloat percent))
  ∧ (Qeq_bool 600 0 = false →
     ∃ r s',
       fuzz "/target" options "/repro" 600%Q (fresh idle_world) = (Ok r, s')).
Proof.
  exact (fuzz_timing_stats "/target" options "/repro" 600%Q (fresh idle_world)
           eq_refl).
Defined.

Example fuzz_example :
  ∃ r s',
    fuzz "/target" options "/repro" 600%Q (fresh idle_world) = (Ok r, s')
    ∧ crashes r = []
    ∧ stats r !! "timeout_limit" = Some VNone
    ∧ stats r !! "new_units_added" = Some (VInt 0)
    ∧ stats r !! "fuzzing_time_percent" = Some (VFloat (1000 # 600)).
Proof.
  eexists _, _. split; [vm_compute; reflexivity|].
  repeat split; vm_compute; reflexivity.
Qed.

(** With a time allowed of zero the session raises. *)
Example fuzz_zero_time_example :
  (fuzz "/target" options "/repro" 0%Q (fresh idle_world)).1
  = Raise ZeroDivisionError.
Proof. vm_compute. reflexivity. Qed.

(** ** The environment of the options *)

(** C9, against the specification's wording: for a name that the target's
    options and the strategies both define, the options [prepare]
    returns have the value of the strategies. *)
Lemma strategy_env_overrides_caller_env :
  (get_extra_env "/target" (world (fresh env_world)) ≫= (.!! "ASAN_OPTIONS"))
  = Some "detect_leaks=1"
  ∧ si_extra_env (strategy_info_of "/corpus" "/target" (fresh env_world))
      !! "ASAN_OPTIONS" = Some "detect_leaks=0"
  ∧ (∃ opts s',
       prepare "/corpus" "/target" "/build" (fresh env_world) = (Ok opts, s')
       ∧ extra_env opts !! "ASAN_OPTIONS" = Some "detect_leaks=0"
       ∧ extra_env opts !! "MSAN_OPTIONS" = Some "poison_in_free=0")
  ∧ ¬ caller_env_as_specified "/corpus" "/target" "/build" (fresh env_world).
Proof.
  split; [vm_compute; reflexivity|]. split; [vm_compute; reflexivity|].
  split.
  - eexists _, _. split; [vm_compute; reflexivity|].
    split; vm_compute; reflexivity.
  - intros Hspec.
    specialize (Hspec _ _ ltac:(vm_compute; reflexivity)
                  _ "ASAN_OPTIONS" "detect_leaks=1" "detect_leaks=0"
                  eq_refl ltac:(vm_compute; reflexivity)
                  ltac:(vm_compute; reflexivity)).
    vm_compute in Hspec. discriminate.
Qed.

(** ** More on the control file *)

(** X1.  The control file over the two-step merge of [merging_world]:
    both steps get the same path and the attribute is [None] afterwards. *)
Lemma two_step_control_file_witness :
  ∃ r s',
    _minimize_corpus_two_step "/target" [] ["/corpus"] "/new" "/out" None
      600%Q (fresh merging_world) = (Ok r, s')
    ∧ _merge_control_file s' = None
    ∧ ∃ step_2 step_1,
        merge_calls (trace s') =
          step_2 :: step_1 :: merge_calls (trace (fresh merging_world))
        ∧ mg_merge_control_file step_1 = Some "/fuzz/mcf_tmp_dir/MCF"
        ∧ mg_merge_control_file step_2 = Some "/fuzz/mcf_tmp_dir/MCF".
Proof.
  eexists _, _. split; [vm_compute; reflexivity|].
  refine (two_step_control_file "/target" [] ["/corpus"] "/new" "/out" None
            600%Q (fresh merging_world) (Ok _) _ _ _);
    vm_compute; reflexivity.
Defined.

(** * Sessions in the small world *)

Import Replay.
Import Missing.

(** ** A session whose target fails at startup *)

Lemma fuzz_reports_one_crash_witness :
  ∃ r s',
    fuzz "/target" options "/repro" 600%Q (fresh startup_crash_world)
    = (Ok r, s')
    ∧ logs r = "==1234==ERROR: failed to start"
    ∧ fr_command r = ["./target"]
    ∧ fr_time_executed r = 2%Q
    ∧ fr_timed_out r = Some false
    ∧ (length (crashes r) ≤ 1)%nat
    ∧ ∀ crash, crash ∈ crashes r →
        input_path crash ≠ ""
        ∧ stacktrace crash = logs r
        ∧ reproduce_args crash = ["-max_len=100"; "-rss_limit_mb=2560"]
        ∧ crash_time crash = 2%Z.
Proof.
  eexists _, _. split; [vm_compute; reflexivity|].
  refine (fuzz_reports_one_crash "/target" options "/repro" 600%Q
            (fresh startup_crash_world) _ _ _).
  vm_compute. reflexivity.
Defined.

Example fuzz_startup_crash_example :
  ∃ r s',
    fuzz "/target" options "/repro" 600%Q (fresh startup_crash_world)
    = (Ok r, s')
    ∧ crashes r
      = [mkCrash "/repro/tmpx8k2" "==1234==ERROR: failed to start"
           ["-max_len=100"; "-rss_limit_mb=2560"] 2]
    ∧ fuzz_calls (trace s')
      = [{| fz_target := "/target";
            fz_corpus_directories := ["/fuzz/new"; "/corpus"];
            fz_fuzz_timeout := 600%Q;
            fz_additional_args := ["-max_len=100"; "-rss_limit_mb=2560"];
            fz_artifact_prefix := "/repro";
            fz_extra_env := ∅ |}].
Proof.
  eexists _, _. split; [vm_compute; reflexivity|].
  split; vm_compute; reflexivity.
Qed.

(** ** A session that merges new units back *)

Lemma fuzz_statistics_witness :
  ∃ r s',
    fuzz "/target" options "/repro" 600%Q (fresh merging_world) = (Ok r, s')
    ∧ (∀ key, key ∈ timing_stat_names → is_Some (stats r !! key))
    ∧ (∀ key,
         key ∉ timing_stat_names → key ≠ "new_units_added" →
         key ∉ merge_stat_names →
         stats r !! key = None)
    ∧ (true = true → is_Some (stats r !! "new_units_added"))
    ∧ (true = false → stats r = fuzz_stats options 600%Q quiet_fuzz).
Proof.
  eexists _, _. split; [vm_compute; reflexivity|].
  refine (fuzz_statistics "/target" options "/repro" 600%Q
            (fresh merging_world) _ _ _).
  vm_compute. reflexivity.
Defined.

Example merge_back_example :
  let run :=
    _merge_new_units "/target" "/corpus" "/fuzz/new" ["/corpus"] [] ∅
      (fresh merging_world) in
  (match run.1 with
   | Ok stat_overrides' =>
       (stat_overrides' !! "new_units_added", stat_overrides' !! "new_edges")
   | Raise _ => (None, None)
   end) = (Some (VInt 0), Some (VInt 1))
  ∧ moved_units (trace run.2) = [("/fuzz/merge-corpus", "/corpus")]
  ∧ mg_corpus_directories <$> merge_calls (trace run.2)
    = [["/fuzz/merge-corpus"; "/corpus"; "/fuzz/new"];
       ["/fuzz/merge-corpus"; "/corpus"]]
  ∧ mg_merge_timeout <$> merge_calls (trace run.2) = [500%Q; 600%Q].
Proof. repeat split; vm_compute; reflexivity. Qed.

Lemma two_step_second_step_witness :
  let s1 := two_step_start (fresh merging_world) in
  let step_1 := merge_call_of "/target" [] ["/corpus"] "/out" None 600%Q s1 in
  let done_1 := merge_done "/target" [] ["/corpus"] "/out" None 600%Q s1 in
  let s2 :=
    advance done_1 (recreate_directory "/out" (world done_1))
      [EvRecreateDirectory "/out"] in
  let step_2 :=
    merge_call_of "/target" [] (["/corpus"] ++ ["/new"]) "/out" None
      (600 - 100)%Q s2 in
  ∃ r s',
    _minimize_corpus_two_step "/target" [] ["/corpus"] "/new" "/out" None
      600%Q (fresh merging_world) = (Ok r, s')
    ∧ (0 < 600 - 100)%Q
    ∧ merge_calls (trace s')
      = step_2 :: step_1 :: merge_calls (trace (fresh merging_world))
    ∧ (∃ later between earlier,
         trace s' =
           later ++ EvRunnerMerge step_2 :: between
                 ++ EvRunnerMerge step_1 :: earlier
         ∧ EvRecreateDirectory "/out" ∈ between)
    ∧ logs r
      = ("MERGE-OUTER: 2 files" ++ LF ++ "cov: 20 ft: 31" ++ LF ++ LF
         ++ "MERGE-OUTER: 3 files" ++ LF ++ "step" ++ LF
         ++ "cov: 21 ft: 35")%string
    ∧ fr_command r = ["./target"]
    ∧ fr_time_executed r = (100 + 50)%Q.
Proof.
  eexists _, _. split; [vm_compute; reflexivity|].
  refine (two_step_second_step "/target" [] ["/corpus"] "/new" "/out" None
            600%Q (fresh merging_world) _ _ _ _);
    vm_compute; reflexivity.
Defined.

(** ** A session whose merge-back times out *)

Lemma fuzz_control_file_witness :
  ∃ r s',
    fuzz "/target" options "/repro" 600%Q (fresh stuck_world) = (Ok r, s')
    ∧ (true = true → _merge_control_file s' = Some "/fuzz/mcf_tmp_dir/MCF")
    ∧ (true = false →
       _merge_control_file (fresh stuck_world) = None →
       _merge_control_file s' = None).
Proof.
  eexists _, _. split; [vm_compute; reflexivity|].
  refine (fuzz_control_file "/target" options "/repro" 600%Q
            (fresh stuck_world) _ _ _).
  vm_compute. reflexivity.
Defined.

(** ** A session without time *)

Lemma fuzz_zero_time_raises_witness :
  ∃ s',
    fuzz "/target" options "/repro" 0%Q (fresh startup_crash_world)
    = (Raise ZeroDivisionError, s')
    ∧ fuzz_calls (trace s')
      = fuzz_call_of "/target" options "/repro" 0%Q
          (fresh startup_crash_world)
        :: fuzz_calls (trace (fresh startup_crash_world))
    ∧ empty_testcase_files (trace s')
      = ["/repro/tmpx8k2"]
        ++ empty_testcase_files (trace (fresh startup_crash_world))
    ∧ merge_calls (trace s') = merge_calls (trace (fresh startup_crash_world))
    ∧ moved_units (trace s') = moved_units (trace (fresh startup_crash_world)).
Proof.
  exact (fuzz_zero_time_raises "/target" options "/repro" 0%Q
           (fresh startup_crash_world) eq_refl).
Defined.

(** ** A prepared session *)

Lemma prepared_session_merges_back_witness :
  ∃ opts s1 r s',
    prepare "/corpus" "/target" "/build" (fresh idle_world) = (Ok opts, s1)
    ∧ fuzz "/target" opts "/repro" 600%Q s1 = (Ok r, s')
    ∧ is_Some (stats r !! "new_units_added")
    ∧ ∃ call new_corpus_dir,
        fuzz_calls (trace s') = call :: fuzz_calls (trace (fresh idle_world))
        ∧ fz_corpus_directories call
          = new_corpus_dir :: fuzz_corpus_dirs opts
        ∧ ("new", new_corpus_dir) ∈ temp_fuzzing_dirs (trace s')
        ∧ fz_additional_args call = arguments opts
        ∧ fz_extra_env call = extra_env opts.
Proof.
  exact (prepared_session_merges_back "/corpus" "/target" "/build" "/repro"
           600%Q (fresh idle_world) eq_refl).
Defined.

Example prepare_example :
  ∃ opts s',
    prepare "/corpus" "/target" "/build" (fresh idle_world) = (Ok opts, s')
    ∧ arguments opts
      = ["-rss_limit_mb=2560"; "-use_value_profile=1"; "-dict=/target.dict"]
    ∧ fuzz_corpus_dirs opts = ["/corpus"]
    ∧ strategies opts = ["value_profile"]
    ∧ merge_back_new_testcases opts = true.
Proof.
  eexists _, _. split; [vm_compute; reflexivity|].
  repeat split; vm_compute; reflexivity.
Qed.

(** ** Reproduction *)

Example reproduce_example :
  reproduce "/target" "/repro/crash-da39a3"
    ["-runs=5"; "-max_total_time=60"; "-max_len=100"; "extra"] 30%Q
    (fresh idle_world)
  = (Ok (mkReproduceResult ["./target"; "-runs=100"; "-max_len=100"] 0 1%Q
           "Executed in 3 ms"),
     mkState true None idle_world [EvSetSanitizerOptions "/target"])
  ∧ (reproduce "/target" "/hang" [] 30%Q (fresh idle_world)).1
    = Raise (TimeoutError "Reproducing timed out.")
  ∧ warnings
      (trace (reproduce "/target" "/hang" [] 30%Q (fresh idle_world)).2)
    = ["Reproducing timed out."].
Proof. repeat split; vm_compute; reflexivity. Qed.

Example minimize_testcase_example :
  minimize_testcase "/target" ["-runs=5"] "/repro/crash" "/repro/min" 30%Q
    (fresh idle_world)
  = (Ok (mkReproduceResult ["./target"; "-runs=5"] 0 1%Q "Executed in 3 ms"),
     mkState true None idle_world
       [EvCreateTempFuzzingDir "minimize-workdir" "/fuzz/minimize-workdir";
        EvSetSanitizerOptions "/target"])
  ∧ (cleanse "/target" [] "/hang" "/repro/clean" 30%Q (fresh idle_world)).1
    = Raise (TimeoutError "Cleanse timed out.").
Proof. split; vm_compute; reflexivity. Qed.

(** ** A target that is not there *)

Lemma missing_target_single_step_witness :
  let run :=
    _minimize_corpus_two_step "/gone" [] ["/corpus"] "/new" "/out" None
      600%Q Missing.bare in
  let s0 :=
    advance Missing.bare (world Missing.bare)
      [EvLog Info
         "Old version of libFuzzer is used. Using single step merge."] in
  run = minimize_corpus "/gone" [] (["/corpus"] ++ ["/new"]) "/out" None
          600%Q s0
  ∧ merge_calls (trace run.2)
    = merge_call_of "/gone" [] (["/corpus"] ++ ["/new"]) "/out" None 600%Q s0
      :: merge_calls (trace Missing.bare)
  ∧ temp_fuzzing_dirs (trace run.2) = temp_fuzzing_dirs (trace Missing.bare)
  ∧ _merge_control_file run.2 = _merge_control_file Missing.bare.
Proof.
  exact (missing_target_single_step "/gone" [] ["/corpus"] "/new" "/out" None
           600%Q Missing.bare eq_refl).
Defined.

Example missing_target_example :
  (_minimize_corpus_two_step "/gone" [] ["/corpus"] "/new" "/out" None
     600%Q Missing.bare).1
  = Raise (MergeError "Merging new testcases failed.").
Proof. vm_compute. reflexivity. Qed.
